(** * MPL3115A2 driver: a shallow embedding and its verified properties

    The development follows the Go package [mpl3115a2]: the register map,
    the fixed-point decoders of raw samples, the control-register encoders
    and the measurement orchestrator that talks to the sensor over an
    I2C bus.

    Conventions.  Go's fixed-width integers are carried as [Z] and every
    conversion or wrapping operation of the source is written out
    ([to_byte], [to_uint16], [to_int16], ...).  Go's [float32] is IEEE-754
    binary32, carried as [spec_float] with precision 24 and maximal
    exponent 128.  The bus is an external collaborator: every call on it
    is recorded in a trace and answered by a device. *)

From Stdlib Require Import String ZArith QArith Qpower Qround List Bool Lia SpecFloat.
Import ListNotations.
Local Open Scope Z_scope.

(** ** Fixed-width integers *)

Module Int.

Definition is_byte   (b : Z) : Prop := 0 <= b < 256.
Definition is_int8   (i : Z) : Prop := -128 <= i <= 127.
Definition is_int16  (i : Z) : Prop := -32768 <= i <= 32767.
Definition is_uint32 (i : Z) : Prop := 0 <= i < 2 ^ 32.

(** Conversions between integer types keep the low bits. *)
Definition to_byte   (z : Z) : Z := z mod 2 ^ 8.
Definition to_uint16 (z : Z) : Z := z mod 2 ^ 16.
Definition to_uint32 (z : Z) : Z := z mod 2 ^ 32.
Definition to_int8   (z : Z) : Z := (z + 2 ^ 7) mod 2 ^ 8 - 2 ^ 7.
Definition to_int16  (z : Z) : Z := (z + 2 ^ 15) mod 2 ^ 16 - 2 ^ 15.

(** Shifts on a fixed-width unsigned type drop the bits shifted out. *)
Definition shl8  (b n : Z) : Z := to_byte (Z.shiftl b n).
Definition shl16 (b n : Z) : Z := to_uint16 (Z.shiftl b n).
Definition shl32 (b n : Z) : Z := to_uint32 (Z.shiftl b n).

(** The value of a bit field: bits [lo .. lo+len-1] of [z]. *)
Definition bits (z lo len : Z) : Z := Z.shiftr z lo mod 2 ^ len.

End Int.
Import Int.

(** ** Register map *)

Definition STATUS : Z := 0x00.
Definition OUT_PRES_MSB_CSB_LSB : Z := 0x01.
Definition OUT_PRES_BYTES : Z := 3.
Definition OUT_TEMP_MSB_LSB : Z := 0x04.
Definition OUT_TEMP_BYTES : Z := 2.
Definition DR_STATUS : Z := 0x06.
Definition PT_DATA_CFG : Z := 0x13.
Definition BAR_IN_MSB_LSB : Z := 0x14.
Definition BAR_IN_BYTES : Z := 2.
Definition CTRL_REG1 : Z := 0x26.
Definition OFF_PRES : Z := 0x2B.
Definition OFF_TEMP : Z := 0x2C.
Definition OFF_H : Z := 0x2D.

(** [Flag] is a byte of register-specific bit flags. *)
Definition Flag := Z.

Definition PRES_TEMP_DATA_READY : Flag := 0x8.
Definition PRES_DATA_READY : Flag := 0x4.
Definition TEMP_DATA_READY : Flag := 0x2.

(** [PressureType]: [Barometer] is [iota + 1], [Altimeter] follows. *)
Inductive PressureType : Set := Barometer | Altimeter.

Definition PressureType_eqb (a b : PressureType) : bool :=
  match a, b with
  | Barometer, Barometer | Altimeter, Altimeter => true
  | _, _ => false
  end.

(** ** Fixed-point codec *)

Record RawPressure : Set := mkRawPressure
  { PRES_MSB : Z; PRES_CSB : Z; PRES_LSB : Z }.

Record RawTemperature : Set := mkRawTemperature
  { TEMP_MSB : Z; TEMP_LSB : Z }.

Definition RawPressure_wf (v : RawPressure) : Prop :=
  is_byte (PRES_MSB v) /\ is_byte (PRES_CSB v) /\ is_byte (PRES_LSB v).

Definition RawTemperature_wf (v : RawTemperature) : Prop :=
  is_byte (TEMP_MSB v) /\ is_byte (TEMP_LSB v).

(** [ConvertToSignedQ16Dot4]: the pair (int16, uint8). *)
Definition ConvertToSignedQ16Dot4 (v : RawPressure) : Z * Z :=
  let presFrac := Z.shiftr (Z.land (PRES_LSB v) 0xF0) 4 in
  let presInt :=
    to_int16 (Z.lor (shl16 (to_uint16 (PRES_MSB v)) 8)
                    (to_uint16 (PRES_CSB v))) in
  (presInt, presFrac).

(** [ConvertToUnsignedQ18Dot2]: the pair (uint32, uint8). *)
Definition ConvertToUnsignedQ18Dot2 (v : RawPressure) : Z * Z :=
  let presFrac := Z.shiftr (Z.land (PRES_LSB v) 0xF0) 4 in
  let presInt :=
    Z.lor (Z.lor (shl32 (to_uint32 (PRES_MSB v)) 10)
                 (shl32 (to_uint32 (PRES_CSB v)) 2))
          (to_uint32 (Z.shiftr presFrac 2)) in
  let presFrac := Z.land presFrac 0x3 in
  (presInt, presFrac).

(** [ConvertToSignedQ8Dot4]: the pair (int8, uint8). *)
Definition ConvertToSignedQ8Dot4 (v : RawTemperature) : Z * Z :=
  let tempFrac := Z.shiftr (Z.land (TEMP_LSB v) 0xF0) 4 in
  let tempInt := to_int8 (TEMP_MSB v) in
  (tempInt, tempFrac).

(** ** Binary32 floating point *)

Module Float32.

Definition prec : Z := 24.
Definition emax : Z := 128.
Definition float32 : Set := spec_float.

(** The float nearest to [m * 2^e]; exact for the constants used here. *)
Definition dyadic (m e : Z) : float32 := binary_normalize prec emax m e false.

(** Conversion of an integer value, [float32(i)]. *)
Definition of_int (i : Z) : float32 := dyadic i 0.

Definition add : float32 -> float32 -> float32 := SFadd prec emax.
Definition mul : float32 -> float32 -> float32 := SFmul prec emax.
Definition div : float32 -> float32 -> float32 := SFdiv prec emax.
Definition ltb (x y : float32) : bool := SFltb x y.
Definition gtb (x y : float32) : bool := SFltb y x.

(** Truncation toward zero of a finite float. *)
Definition trunc (f : float32) : option Z :=
  match f with
  | S754_zero _ => Some 0
  | S754_finite s m e =>
      let a := if 0 <=? e then Z.pos m * 2 ^ e else Z.pos m / 2 ^ (- e) in
      Some (if s then - a else a)
  | S754_infinity _ | S754_nan => None
  end.

(** [byte(f)]: the truncated value when a byte can hold it.  Otherwise
    the language leaves the result to the implementation, which is the
    parameter [impl]. *)
Definition to_uint8 (impl : float32 -> Z) (f : float32) : Z :=
  match trunc f with
  | Some t => if (0 <=? t) && (t <=? 255) then t else Int.to_byte (impl f)
  | None => Int.to_byte (impl f)
  end.

(** The rational value of a finite float; [None] for infinities and
    NaN. *)
Definition to_Q (f : float32) : option Q :=
  match f with
  | S754_zero _ => Some 0%Q
  | S754_finite s m e =>
      Some (inject_Z (if s then Z.neg m else Z.pos m) * Qpower 2 e)%Q
  | S754_infinity _ | S754_nan => None
  end.

End Float32.
Import Float32.

(** ** Errors *)

(** An [error] is made by the driver with [errors.New], handed over by
    the bus, or one of the two that [binary.Read] takes from package
    [io]; no two of these coincide. *)
Definition bus_err : Set := Z.

Inductive error : Set :=
| errors_New (msg : string)
| BusError (e : bus_err)
| io_EOF
| io_ErrUnexpectedEOF.

Inductive result (A : Type) : Type :=
| Ok (a : A)
| Err (e : error).
Arguments Ok {A} a.
Arguments Err {A} e.

(** ** The bus collaborator *)

(** Calls leaving the driver, in the order they are made. *)
Inductive event : Set :=
| EvReadRegU8 (reg : Z)
| EvWriteRegU8 (reg value : Z)
| EvWriteBytes (buf : list Z)
| EvReadBytes (len : nat)
| EvSleep (nanoseconds : Z).

(** A device on the bus: each operation of [i2c.I2C] answers with the
    values the Go method returns (an absent error is [None]) and a new
    device state.  [Elapse] is the passing of time during a sleep. *)
Class Device (B : Type) : Type :=
  { ReadRegU8  : B -> Z -> Z * option bus_err * B;
    WriteRegU8 : B -> Z -> Z -> option bus_err * B;
    WriteBytes : B -> list Z -> Z * option bus_err * B;
    ReadBytes  : B -> nat -> list Z * Z * option bus_err * B;
    Elapse     : B -> Z -> B }.

Record world (B : Type) : Type := mkWorld
  { dev : B; trace : list event }.
Arguments mkWorld {B} dev trace.
Arguments dev {B} w.
Arguments trace {B} w.

(** Outcome of running a driver operation: a value, an error, a
    run-time panic (which no function of the driver recovers), or the
    step budget of the polling loop used up. *)
Inductive outcome (A : Type) : Type :=
| Done (a : A)
| Failed (e : error)
| Panicked (msg : string)
| OutOfFuel.
Arguments Done {A} a.
Arguments Failed {A} e.
Arguments Panicked {A} msg.
Arguments OutOfFuel {A}.

Definition M (B A : Type) : Type := world B -> outcome A * world B.

Definition ret {B A} (a : A) : M B A := fun w => (Done a, w).

Definition fail {B A} (e : error) : M B A := fun w => (Failed e, w).

Definition panic {B A} (msg : string) : M B A := fun w => (Panicked msg, w).

Definition bind {B A C} (m : M B A) (k : A -> M B C) : M B C :=
  fun w =>
    match m w with
    | (Done a, w') => k a w'
    | (Failed e, w') => (Failed e, w')
    | (Panicked msg, w') => (Panicked msg, w')
    | (OutOfFuel, w') => (OutOfFuel, w')
    end.

Definition lift {B A} (r : result A) : M B A :=
  match r with
  | Ok a => ret a
  | Err e => fail e
  end.

Declare Scope drv_scope.
Delimit Scope drv_scope with drv.
Notation "x <- m ;; k" := (bind m (fun x => k))
  (at level 100, m at next level, right associativity) : drv_scope.
Notation "m ;; k" := (bind m (fun _ => k))
  (at level 100, right associativity) : drv_scope.
Local Open Scope drv_scope.

(** ** Register model: encoders *)

(** Oversample ratio should be in range [0..7]; [oversample] is a Go [int]. *)
Definition encodeCtrlOverSampleRatio (oversample : Z) : result Z :=
  if (oversample <? 0) || (oversample >? 7) then
    Err (errors_New "oversample ratio should be in range [0..7]")
  else
    let b := shl8 (to_byte oversample) 3 in
    Ok b.

Definition encodeCtrlAltimeterMode (altimeterMode : bool) : result Z :=
  if altimeterMode then Ok 0x80 else Ok 0.

Definition encodeCtrlResetBit (activateReset : bool) : result Z :=
  if activateReset then Ok 0x4 else Ok 0.

Definition encodeCtrlActiveStatus (activateSensor : bool) : result Z :=
  if activateSensor then Ok 0x1 else Ok 0.

(** [time.Millisecond], in nanoseconds. *)
Definition Millisecond : Z := 1000000.

(** [binary.Read] of the block into the struct of six byte fields
    [STATUS; PRES_MSB; PRES_CSB; PRES_LSB; TEMP_MSB; TEMP_LSB]; the byte
    order plays no part for one-byte fields.  It reads the six bytes
    with [io.ReadFull]: [io.EOF] when the buffer holds nothing,
    [io.ErrUnexpectedEOF] when it holds fewer than six bytes. *)
Definition binary_Read (buf : list Z) : result (Z * RawPressure * RawTemperature) :=
  match buf with
  | [] => Err io_EOF
  | st :: pm :: pc :: pl :: tm :: tl :: _ =>
      Ok (st, mkRawPressure pm pc pl, mkRawTemperature tm tl)
  | _ => Err io_ErrUnexpectedEOF
  end.

(** The caller's buffer of [len] zero bytes after the device has put
    [data] into it. *)
Definition fill (len : nat) (data : list Z) : list Z :=
  firstn len (data ++ repeat 0 len).

(** ** Measurement orchestrator *)

Section Driver.

Context {B : Type} {D : Device B}.

(** *** Calls on the collaborators, recorded in the trace *)

Definition i2c_ReadRegU8 (reg : Z) : M B (Z * option bus_err) :=
  fun w =>
    let '(v, err, b) := ReadRegU8 (dev w) reg in
    (Done (v, err), mkWorld b (trace w ++ [EvReadRegU8 reg])).

Definition i2c_WriteRegU8 (reg value : Z) : M B (option bus_err) :=
  fun w =>
    let '(err, b) := WriteRegU8 (dev w) reg value in
    (Done err, mkWorld b (trace w ++ [EvWriteRegU8 reg value])).

Definition i2c_WriteBytes (buf : list Z) : M B (Z * option bus_err) :=
  fun w =>
    let '(n, err, b) := WriteBytes (dev w) buf in
    (Done (n, err), mkWorld b (trace w ++ [EvWriteBytes buf])).

Definition i2c_ReadBytes (len : nat) : M B (list Z * Z * option bus_err) :=
  fun w =>
    let '(data, n, err, b) := ReadBytes (dev w) len in
    (Done (fill len data, n, err), mkWorld b (trace w ++ [EvReadBytes len])).

Definition time_Sleep (d : Z) : M B unit :=
  fun w => (Done tt, mkWorld (Elapse (dev w) d) (trace w ++ [EvSleep d])).

(** [if err != nil { return err }] *)
Definition check (err : option bus_err) : M B unit :=
  match err with
  | Some e => fail (BusError e)
  | None => ret tt
  end.

(** *** Register access *)

Definition readStatusReg : M B Flag :=
  r <- i2c_ReadRegU8 STATUS ;;
  let '(status, err) := r in
  check err ;;
  ret status.

Definition writeCtrlReg1 (value : Z) : M B unit :=
  err <- i2c_WriteRegU8 CTRL_REG1 value ;;
  check err.

Definition writeEventMode (temperatureEvent preasureEvent : bool) : M B unit :=
  let flags := 0 in
  let flags := if temperatureEvent then Z.lor flags 0x1 else flags in
  let flags := if preasureEvent then Z.lor flags 0x2 else flags in
  let flags := if temperatureEvent || preasureEvent then Z.lor flags 0x4 else flags in
  err <- i2c_WriteRegU8 PT_DATA_CFG flags ;;
  check err.

(** [byteCount] is a Go [int]; [make] panics on a negative length. *)
Definition readDataToStruct (byteCount : Z) : M B (Z * RawPressure * RawTemperature) :=
  if byteCount <? 0 then panic "makeslice: len out of range" else
  r <- i2c_ReadBytes (Z.to_nat byteCount) ;;
  let '(buf1, _, err) := r in
  check err ;;
  lift (binary_Read buf1).

Definition readRawPressureTemperature : M B (RawPressure * RawTemperature) :=
  r <- i2c_WriteBytes [STATUS] ;;
  check (snd r) ;;
  data <- readDataToStruct (1 + OUT_PRES_BYTES + OUT_TEMP_BYTES) ;;
  let '(_, up, ut) := data in
  ret (up, ut).

(** *** One measurement *)

(** First part of [measureRaw]: mode and oversample bits, events, then
    the active bit.  Returns the flags last written.  The calls of the
    logger take no part in the bus protocol and are left out, here and
    in [Reset]. *)
Definition measureRaw_configure (overampleRatio : Z) (pressureType : PressureType) : M B Z :=
  let barometerType := PressureType_eqb pressureType Altimeter in
  flags <- lift (encodeCtrlAltimeterMode barometerType) ;;
  b <- lift (encodeCtrlOverSampleRatio overampleRatio) ;;
  let flags := Z.lor flags b in
  writeCtrlReg1 flags ;;
  writeEventMode true true ;;
  b <- lift (encodeCtrlActiveStatus true) ;;
  let flags := Z.lor flags b in
  writeCtrlReg1 flags ;;
  ret flags.

(** The loop of [measureRaw], "read status until measurement is done".
    The source loop has no bound; [fuel] bounds the iterations of the
    model and [OutOfFuel] tells that the bound was reached. *)
Fixpoint measureRaw_poll (fuel : nat) : M B unit :=
  match fuel with
  | O => fun w => (OutOfFuel, w)
  | S fuel' =>
      let n := 1 in
      time_Sleep (Millisecond * 2 * n) ;;
      status <- readStatusReg ;;
      if negb (Z.land status PRES_TEMP_DATA_READY =? 0) then ret tt
      else measureRaw_poll fuel'
  end.

Definition measureRaw (fuel : nat) (overampleRatio : Z) (pressureType : PressureType)
  : M B (RawPressure * RawTemperature) :=
  measureRaw_configure overampleRatio pressureType ;;
  measureRaw_poll fuel ;;
  readRawPressureTemperature.

Definition MeasureAltitude (fuel : nat) (oversampleRatio : Z) : M B (float32 * float32) :=
  r <- measureRaw fuel oversampleRatio Altimeter ;;
  let '(up, ut) := r in
  let '(presInt, presFrac) := ConvertToSignedQ16Dot4 up in
  let '(tempInt, tempFrac) := ConvertToSignedQ8Dot4 ut in
  let alt := add (of_int presInt) (div (of_int presFrac) (of_int (Z.shiftl 1 4))) in
  let t := add (of_int tempInt) (div (of_int tempFrac) (of_int (Z.shiftl 1 4))) in
  ret (alt, t).

Definition MeasurePressure (fuel : nat) (oversampleRation : Z) : M B (float32 * float32) :=
  r <- measureRaw fuel oversampleRation Barometer ;;
  let '(up, ut) := r in
  let '(presInt, presFrac) := ConvertToUnsignedQ18Dot2 up in
  let '(tempInt, tempFrac) := ConvertToSignedQ8Dot4 ut in
  let pres := add (of_int presInt) (div (of_int presFrac) (of_int (Z.shiftl 1 2))) in
  let t := add (of_int tempInt) (div (of_int tempFrac) (of_int (Z.shiftl 1 4))) in
  ret (pres, t).

(** *** Calibration and reset *)

(** [pressureAtSeeLevel] is a [uint32]. *)
Definition ModifySeaLevelPressure (pressureAtSeeLevel : Z) : M B unit :=
  let pressureAtSeeLevel := pressureAtSeeLevel / 2 in
  let b := [BAR_IN_MSB_LSB;
            to_byte (Z.shiftr pressureAtSeeLevel 8);
            to_byte (Z.land pressureAtSeeLevel 0xFF)] in
  r <- i2c_WriteBytes b ;;
  check (snd r).

Definition GetDefaultSeaLevelPressure : Z := 101326.

(** The error of the write is dropped: "ignore error, since sensor
    terminates i2c-connection". *)
Definition Reset : M B unit :=
  flags <- lift (encodeCtrlResetBit true) ;;
  _ <- i2c_WriteRegU8 CTRL_REG1 flags ;;
  ret tt.

(** [shiftM] is an [int8]. *)
Definition CompensateAltitude (shiftM : Z) : M B unit :=
  let b := [OFF_H; to_byte shiftM] in
  r <- i2c_WriteBytes b ;;
  check (snd r).

(** [shiftPa] is an [int16]; its division truncates toward zero. *)
Definition CompensatePressure (shiftPa : Z) : M B unit :=
  if (shiftPa >? 508) || (shiftPa <? -512) then
    fail (errors_New "pressure compensation exceed range [-512..+508]")
  else
    let shiftPa := to_int16 (Z.quot shiftPa 4) in
    let b := [OFF_PRES; to_byte shiftPa] in
    r <- i2c_WriteBytes b ;;
    check (snd r).

(** [impl] is the implementation's conversion of a float that a byte
    cannot hold. *)
Definition CompensateTemperature (impl : float32 -> Z) (shiftTemp : float32) : M B unit :=
  if gtb shiftTemp (dyadic 127 (-4)) || ltb shiftTemp (dyadic (-8) 0) then
    fail (errors_New "temperature compensation exceed range [-8..+7.9375]")
  else
    let shiftTemp := mul shiftTemp (of_int 16) in
    let b := [OFF_PRES; to_uint8 impl shiftTemp] in
    r <- i2c_WriteBytes b ;;
    check (snd r).

End Driver.

(** ** Observing the polling loop *)

Section Polling.

Context {B : Type} {D : Device B}.

(** The interval slept before each status read. *)
Definition poll_interval : Z := Millisecond * 2 * 1.

(** The data-ready test of the loop. *)
Definition data_ready (status : Flag) : bool :=
  negb (Z.land status PRES_TEMP_DATA_READY =? 0).

(** One round on the device: the interval passes, then the status
    register is read. *)
Definition poll_step (b : B) : Z * option bus_err * B :=
  ReadRegU8 (Elapse b poll_interval) STATUS.

(** The device after [n] rounds. *)
Fixpoint after_polls (n : nat) (b : B) : B :=
  match n with
  | O => b
  | S n' => after_polls n' (snd (poll_step b))
  end.

(** What the [i]-th status read returns, counting from 1, when the
    reads before it did not stop the loop. *)
Definition status_read (i : nat) (b : B) : Z * option bus_err :=
  fst (poll_step (after_polls (pred i) b)).

(** The events of [k] rounds. *)
Definition poll_events (k : nat) : list event :=
  concat (repeat [EvSleep poll_interval; EvReadRegU8 STATUS] k).

(** The number of status reads in a trace. *)
Definition count_status_reads (t : list event) : nat :=
  length (filter (fun e => match e with
                           | EvReadRegU8 reg => reg =? STATUS
                           | _ => false
                           end) t).

End Polling.

(** ** A scripted device

    It answers the successive single-register reads from [statuses] (and
    with [idle] once they are used up), the successive writes from
    [write_errs] (with success once they are used up) and every block
    read with [block]. *)

Record scripted : Set := mkScripted
  { statuses : list (Z * option bus_err);
    idle : Z * option bus_err;
    write_errs : list (option bus_err);
    block : list Z * option bus_err }.

Definition scripted_read (b : scripted) : Z * option bus_err * scripted :=
  match statuses b with
  | [] => (idle b, b)
  | r :: rest => (r, mkScripted rest (idle b) (write_errs b) (block b))
  end.

Definition scripted_write (b : scripted) : option bus_err * scripted :=
  match write_errs b with
  | [] => (None, b)
  | e :: rest => (e, mkScripted (statuses b) (idle b) rest (block b))
  end.

#[export] Instance scripted_Device : Device scripted :=
  { ReadRegU8 b _ := scripted_read b;
    WriteRegU8 b _ _ := scripted_write b;
    WriteBytes b buf :=
      let '(e, b') := scripted_write b in (Z.of_nat (length buf), e, b');
    ReadBytes b len := (fst (block b), Z.of_nat len, snd (block b), b);
    Elapse b _ := b }.

(** A device on which every call succeeds, with the given status answers
    and data block. *)
Definition healthy (sts : list Z) (idle_status : Z) (data : list Z) : scripted :=
  mkScripted (map (fun s => (s, None)) sts) (idle_status, None) [] (data, None).

Definition start {B : Type} (b : B) : world B := mkWorld b [].

(** ** Named values used in the statements *)

(** The errors the driver makes itself. *)
Definition oversample_error : error :=
  errors_New "oversample ratio should be in range [0..7]".
Definition pressure_range_error : error :=
  errors_New "pressure compensation exceed range [-512..+508]".
Definition temperature_range_error : error :=
  errors_New "temperature compensation exceed range [-8..+7.9375]".

(** The mode bit of the primary control register. *)
Definition modeBit (m : PressureType) : Z :=
  match m with
  | Altimeter => 0x80
  | Barometer => 0x00
  end.

(** The three writes of the configuration phase of a measurement. *)
Definition config_writes (r : Z) (m : PressureType) : list event :=
  let v := Z.lor (modeBit m) (Z.shiftl r 3) in
  [EvWriteRegU8 CTRL_REG1 v;
   EvWriteRegU8 PT_DATA_CFG 0x07;
   EvWriteRegU8 CTRL_REG1 (Z.lor v 0x01)].

(** Single-register writes among the events. *)
Definition is_reg_write (e : event) : bool :=
  match e with
  | EvWriteRegU8 _ _ => true
  | _ => false
  end.

(** How an operation ends when its last bus call answers [err]. *)
Definition after_bus {A : Type} (a : A) (err : option bus_err) : outcome A :=
  match err with
  | None => Done a
  | Some e => Failed (BusError e)
  end.

(** [w'] continues [w] with events none of which is a single-register
    write. *)
Definition extends_quietly {B : Type} (w w' : world B) : Prop :=
  exists tail,
    trace w' = trace w ++ tail /\ forallb (fun e => negb (is_reg_write e)) tail = true.

(** An operation that issues no single-register write. *)
Definition quiet {B A : Type} (m : M B A) : Prop :=
  forall w, extends_quietly w (snd (m w)).

(** ** Utility functions on byte slices

    Indexing a slice out of its range panics; a panic is [None]. *)

(** [getS16BE] extracts a 2-byte integer as signed big-endian. *)
Definition getS16BE (buf : list Z) : option Z :=
  match nth_error buf 0, nth_error buf 1 with
  | Some b0, Some b1 =>
      let v := to_int16 (to_int16 (Z.shiftl (to_int16 b0) 8) + to_int16 b1) in
      Some v
  | _, _ => None
  end.

(** [getS16LE] exchanges the bytes of [getS16BE]; on an [int16] the right
    shift is arithmetic. *)
Definition getS16LE (buf : list Z) : option Z :=
  match getS16BE buf with
  | Some w =>
      let v := to_int16 (to_int16 (Z.shiftl (Z.land w 0xFF) 8) + Z.shiftr w 8) in
      Some v
  | None => None
  end.

(** [getU16BE] extracts a 2-byte integer as unsigned big-endian. *)
Definition getU16BE (buf : list Z) : option Z :=
  match nth_error buf 0, nth_error buf 1 with
  | Some b0, Some b1 =>
      let v := to_uint16 (shl16 (to_uint16 b0) 8 + to_uint16 b1) in
      Some v
  | _, _ => None
  end.

(** [getU16LE] exchanges the bytes of [getU16BE]. *)
Definition getU16LE (buf : list Z) : option Z :=
  match getU16BE buf with
  | Some w =>
      let v := to_uint16 (shl16 (Z.land w 0xFF) 8 + Z.shiftr w 8) in
      Some v
  | None => None
  end.

(** ** Samples

    The 20-bit pressure or altitude sample and the 12-bit temperature
    sample held by the raw bytes, as the data sheet numbers their bits. *)
Definition sample20 (v : RawPressure) : Z :=
  PRES_MSB v * 4096 + PRES_CSB v * 16 + PRES_LSB v / 16.

Definition sample12 (v : RawTemperature) : Z :=
  TEMP_MSB v * 16 + TEMP_LSB v / 16.

(** Two's-complement reading of the low [n] bits of [z]. *)
Definition signed (n z : Z) : Z :=
  (z + 2 ^ (n - 1)) mod 2 ^ n - 2 ^ (n - 1).

(** An operation that fails only with an error handed over by the bus. *)
Definition bus_failures_only {B A : Type} (m : M B A) : Prop :=
  forall w e, fst (m w) = Failed e -> exists e', e = BusError e'.

(** The two calls that read the data block. *)
Definition block_read_events : list event :=
  [EvWriteBytes [STATUS]; EvReadBytes 6].

(** * Properties *)

(** ** Bit arithmetic on fixed-width values *)

Lemma land_shiftl_low (a b n : Z) :
  0 <= n -> 0 <= b < 2 ^ n -> Z.land (Z.shiftl a n) b = 0.
Proof.
  intros Hn Hb. apply Z.bits_inj'. intros i Hi.
  rewrite Z.land_spec, Z.bits_0.
  destruct (Z.lt_ge_cases i n) as [Hlt | Hge].
  - rewrite Z.shiftl_spec_low by assumption. reflexivity.
  - replace b with (b mod 2 ^ n) by (apply Z.mod_small; assumption).
    rewrite Z.mod_pow2_bits_high by lia. apply andb_false_r.
Qed.

Lemma lor_shiftl_add (a b n : Z) :
  0 <= n -> 0 <= b < 2 ^ n -> Z.lor (Z.shiftl a n) b = a * 2 ^ n + b.
Proof.
  intros Hn Hb.
  pose proof (land_shiftl_low a b n Hn Hb) as Hdisj.
  rewrite <- (Z.lxor_lor _ _ Hdisj), <- (Z.add_nocarry_lxor _ _ Hdisj).
  rewrite Z.shiftl_mul_pow2 by assumption. reflexivity.
Qed.

Lemma high_nibble (l : Z) :
  is_byte l -> Z.shiftr (Z.land l 0xF0) 4 = l / 16.
Proof.
  unfold is_byte. intros Hl.
  rewrite Z.shiftr_land.
  change (Z.shiftr 0xF0 4) with (Z.ones 4).
  rewrite Z.land_ones by lia.
  rewrite Z.shiftr_div_pow2 by lia.
  change (2 ^ 4) with 16.
  apply Z.mod_small. split.
  - apply Z.div_pos; lia.
  - apply Z.div_lt_upper_bound; lia.
Qed.

Lemma to_int16_twos_complement (u : Z) :
  0 <= u < 65536 ->
  to_int16 u = if u <? 32768 then u else u - 65536.
Proof.
  intros Hu. unfold to_int16.
  change (2 ^ 15) with 32768. change (2 ^ 16) with 65536.
  destruct (u <? 32768) eqn:E.
  - apply Z.ltb_lt in E. rewrite Z.mod_small by lia. lia.
  - apply Z.ltb_ge in E.
    replace (u + 32768) with (u - 32768 + 1 * 65536) by lia.
    rewrite Z.mod_add by lia. rewrite Z.mod_small by lia. lia.
Qed.

Lemma Q16_integer (m c : Z) :
  is_byte m -> is_byte c ->
  Z.lor (shl16 (to_uint16 m) 8) (to_uint16 c) = m * 256 + c.
Proof.
  unfold is_byte, shl16, to_uint16. intros Hm Hc.
  change (2 ^ 16) with 65536.
  rewrite (Z.mod_small m), (Z.mod_small c) by lia.
  rewrite Z.shiftl_mul_pow2 by lia. change (2 ^ 8) with 256.
  rewrite Z.mod_small by lia.
  pose proof (lor_shiftl_add m c 8) as H.
  rewrite Z.shiftl_mul_pow2 in H by lia. apply H; [lia|].
  change (2 ^ 8) with 256. lia.
Qed.

Lemma Q18_integer (m c y : Z) :
  is_byte m -> is_byte c -> 0 <= y < 4 ->
  Z.lor (Z.lor (shl32 (to_uint32 m) 10) (shl32 (to_uint32 c) 2)) (to_uint32 y)
  = m * 1024 + c * 4 + y.
Proof.
  unfold is_byte, shl32, to_uint32. intros Hm Hc Hy.
  change (2 ^ 32) with 4294967296.
  rewrite (Z.mod_small m), (Z.mod_small c), (Z.mod_small y) by lia.
  rewrite !Z.shiftl_mul_pow2 by lia.
  change (2 ^ 10) with 1024. change (2 ^ 2) with 4.
  rewrite !Z.mod_small by lia.
  replace (m * 1024) with (Z.shiftl m 10) by (rewrite Z.shiftl_mul_pow2; lia).
  rewrite (lor_shiftl_add m (c * 4) 10) by (change (2 ^ 10) with 1024; lia).
  change (2 ^ 10) with 1024.
  replace (m * 1024 + c * 4) with (Z.shiftl (m * 256 + c) 2)
    by (rewrite Z.shiftl_mul_pow2; lia).
  rewrite (lor_shiftl_add (m * 256 + c) y 2) by (change (2 ^ 2) with 4; lia).
  rewrite Z.shiftl_mul_pow2 by lia.
  change (2 ^ 2) with 4. change (2 ^ 10) with 1024. lia.
Qed.

(** ** Fixed-point codec *)

Lemma ConvertToUnsignedQ18Dot2_value (v : RawPressure) :
  RawPressure_wf v ->
  ConvertToUnsignedQ18Dot2 v =
  (PRES_MSB v * 1024 + PRES_CSB v * 4 + PRES_LSB v / 64, (PRES_LSB v / 16) mod 4).
Proof.
  destruct v as [m c l]. unfold RawPressure_wf, ConvertToUnsignedQ18Dot2.
  cbn [PRES_MSB PRES_CSB PRES_LSB]. intros (Hm & Hc & Hl).
  rewrite (high_nibble l Hl).
  assert (Hq : Z.shiftr (l / 16) 2 = l / 64).
  { rewrite Z.shiftr_div_pow2 by lia. change (2 ^ 2) with 4.
    rewrite Z.div_div by lia. reflexivity. }
  rewrite Hq.
  assert (Hy : 0 <= l / 64 < 4).
  { unfold is_byte in Hl. split.
    - apply Z.div_pos; lia.
    - apply Z.div_lt_upper_bound; lia. }
  rewrite (Q18_integer m c (l / 64) Hm Hc Hy).
  change 0x3 with (Z.ones 2). rewrite Z.land_ones by lia. reflexivity.
Qed.

Lemma ConvertToSignedQ16Dot4_value (v : RawPressure) :
  RawPressure_wf v ->
  ConvertToSignedQ16Dot4 v =
  (let u := PRES_MSB v * 256 + PRES_CSB v in
   if u <? 32768 then u else u - 65536,
   PRES_LSB v / 16).
Proof.
  destruct v as [m c l]. unfold RawPressure_wf, ConvertToSignedQ16Dot4.
  cbn [PRES_MSB PRES_CSB PRES_LSB]. intros (Hm & Hc & Hl).
  rewrite (high_nibble l Hl), (Q16_integer m c Hm Hc).
  rewrite to_int16_twos_complement by (unfold is_byte in *; lia).
  reflexivity.
Qed.

(** C7.  For every three raw bytes the unsigned Q18.2 decoder returns an
    integer in [0, 262143] whose bits 17-10 are byte 0, whose bits 9-2 are
    byte 1 and whose bits 1-0 are the top two bits of byte 2, and a
    fraction in [0, 3] (bits 5-4 of byte 2); the signed Q16.4 decoder
    returns the two's-complement reading of the big-endian 16-bit value
    byte0:byte1 and, as fraction, the top four bits of byte 2.  Both
    decoders are functions of the three bytes alone: they return these
    values for every byte pattern. *)
Theorem C7_decoders (v : RawPressure) :
  RawPressure_wf v ->
  (exists i f,
      ConvertToUnsignedQ18Dot2 v = (i, f) /\
      0 <= i <= 262143 /\ 0 <= f <= 3 /\
      bits i 10 8 = PRES_MSB v /\
      bits i 2 8 = PRES_CSB v /\
      bits i 0 2 = bits (PRES_LSB v) 6 2 /\
      f = bits (PRES_LSB v) 4 2)
  /\
  (exists i f,
      ConvertToSignedQ16Dot4 v = (i, f) /\
      (let u := PRES_MSB v * 2 ^ 8 + PRES_CSB v in
       i = if u <? 2 ^ 15 then u else u - 2 ^ 16) /\
      -32768 <= i <= 32767 /\
      f = bits (PRES_LSB v) 4 4 /\ 0 <= f <= 15).
Proof.
  intros Hwf. split.
  - rewrite (ConvertToUnsignedQ18Dot2_value v Hwf).
    destruct v as [m c l]. destruct Hwf as (Hm & Hc & Hl).
    unfold is_byte in *. cbn [PRES_MSB PRES_CSB PRES_LSB] in *.
    eexists _, _. split; [reflexivity|].
    assert (Hy : 0 <= l / 64 < 4).
    { split; [apply Z.div_pos | apply Z.div_lt_upper_bound]; lia. }
    assert (Hf : 0 <= (l / 16) mod 4 < 4) by (apply Z.mod_pos_bound; lia).
    unfold bits. rewrite !Z.shiftr_div_pow2 by lia.
    change (2 ^ 10) with 1024. change (2 ^ 8) with 256.
    change (2 ^ 2) with 4. change (2 ^ 0) with 1.
    change (2 ^ 6) with 64. change (2 ^ 4) with 16.
    repeat split; try lia.
    + replace (m * 1024 + c * 4 + l / 64) with (c * 4 + l / 64 + m * 1024) by lia.
      rewrite Z.div_add by lia. rewrite (Z.div_small (c * 4 + l / 64)) by lia.
      apply Z.mod_small. lia.
    + replace (m * 1024 + c * 4 + l / 64) with (l / 64 + (m * 256 + c) * 4) by lia.
      rewrite Z.div_add by lia. rewrite (Z.div_small (l / 64)) by lia.
      replace (0 + (m * 256 + c)) with (c + m * 256) by lia.
      rewrite Z.mod_add by lia. apply Z.mod_small. lia.
    + rewrite Z.div_1_r.
      replace (m * 1024 + c * 4 + l / 64) with (l / 64 + (m * 256 + c) * 4) by lia.
      rewrite Z.mod_add by lia. reflexivity.
  - rewrite (ConvertToSignedQ16Dot4_value v Hwf).
    destruct v as [m c l]. destruct Hwf as (Hm & Hc & Hl).
    unfold is_byte in *. cbn [PRES_MSB PRES_CSB PRES_LSB] in *.
    eexists _, _. split; [reflexivity|].
    change (2 ^ 8) with 256. change (2 ^ 15) with 32768.
    change (2 ^ 16) with 65536.
    assert (Hf : 0 <= l / 16 < 16).
    { split; [apply Z.div_pos | apply Z.div_lt_upper_bound]; lia. }
    unfold bits. rewrite Z.shiftr_div_pow2 by lia.
    change (2 ^ 4) with 16. rewrite (Z.mod_small (l / 16)) by lia.
    cbv zeta.
    destruct (m * 256 + c <? 32768) eqn:E;
      [apply Z.ltb_lt in E | apply Z.ltb_ge in E]; repeat split; lia.
Qed.

(** The decoders on an all-ones sample. *)
Lemma C7_decoders_witness :
  RawPressure_wf (mkRawPressure 0xFF 0xFF 0xFF) /\
  (exists i f,
      ConvertToUnsignedQ18Dot2 (mkRawPressure 0xFF 0xFF 0xFF) = (i, f) /\
      0 <= i <= 262143 /\ 0 <= f <= 3).
Proof.
  assert (Hwf : RawPressure_wf (mkRawPressure 0xFF 0xFF 0xFF))
    by (unfold RawPressure_wf, is_byte; cbn; lia).
  split; [exact Hwf|].
  destruct (C7_decoders _ Hwf) as [(i & f & Hv & Hi & Hf & _) _].
  exists i, f. repeat split; solve [exact Hv | apply Hi | apply Hf].
Defined.

(** ** Register model: the oversample encoder *)

Lemma oversample_cases (r : Z) :
  0 <= r <= 7 ->
  r = 0 \/ r = 1 \/ r = 2 \/ r = 3 \/ r = 4 \/ r = 5 \/ r = 6 \/ r = 7.
Proof. lia. Qed.

Lemma encodeCtrlOverSampleRatio_in (r : Z) :
  0 <= r <= 7 -> encodeCtrlOverSampleRatio r = Ok (Z.shiftl r 3).
Proof.
  intros Hr.
  destruct (oversample_cases r Hr) as [E|[E|[E|[E|[E|[E|[E|E]]]]]]];
    subst r; reflexivity.
Qed.

Lemma encodeCtrlOverSampleRatio_out (r : Z) :
  ~ 0 <= r <= 7 -> encodeCtrlOverSampleRatio r = Err oversample_error.
Proof.
  intros Hr. unfold encodeCtrlOverSampleRatio.
  destruct (r <? 0) eqn:E1; [reflexivity|].
  destruct (r >? 7) eqn:E2; [reflexivity|].
  apply Z.ltb_ge in E1. rewrite Z.gtb_ltb in E2. apply Z.ltb_ge in E2. lia.
Qed.

Lemma measureRaw_invalid_ratio {B : Type} {D : Device B}
      (fuel : nat) (r : Z) (m : PressureType) (w : world B) :
  ~ 0 <= r <= 7 -> measureRaw fuel r m w = (Failed oversample_error, w).
Proof.
  intros Hr. unfold measureRaw, measureRaw_configure, bind.
  destruct m; cbn [PressureType_eqb encodeCtrlAltimeterMode lift ret];
    rewrite (encodeCtrlOverSampleRatio_out r Hr); reflexivity.
Qed.

(** C4.  The oversample encoder succeeds exactly for the ratios 0..7 and
    then returns the ratio shifted left by three, so that bits 3-5 of the
    result give the ratio back; every other input, 8 and -1 among them,
    fails with the range error of the encoder.  A measurement called with
    such a ratio returns that error with the bus untouched: the device and
    the trace of calls are as before. *)
Theorem C4_oversample_encoder (r : Z) :
  ((exists b, encodeCtrlOverSampleRatio r = Ok b) <-> 0 <= r <= 7) /\
  (0 <= r <= 7 ->
   encodeCtrlOverSampleRatio r = Ok (Z.shiftl r 3) /\
   bits (Z.shiftl r 3) 3 3 = r) /\
  (~ 0 <= r <= 7 ->
   encodeCtrlOverSampleRatio r = Err oversample_error /\
   forall (B : Type) (D : Device B) (fuel : nat) (w : world B),
     (forall m, measureRaw fuel r m w = (Failed oversample_error, w)) /\
     MeasurePressure fuel r w = (Failed oversample_error, w) /\
     MeasureAltitude fuel r w = (Failed oversample_error, w)) /\
  encodeCtrlOverSampleRatio 8 = Err oversample_error /\
  encodeCtrlOverSampleRatio (-1) = Err oversample_error.
Proof.
  split; [|split; [|split; [|split; reflexivity]]].
  - split.
    + intros [b Hb].
      destruct (Z_le_dec 0 r) as [H0|H0]; destruct (Z_le_dec r 7) as [H7|H7];
        try (split; assumption);
        rewrite encodeCtrlOverSampleRatio_out in Hb by lia; discriminate.
    + intros Hr. eexists. apply encodeCtrlOverSampleRatio_in; assumption.
  - intros Hr. split; [apply encodeCtrlOverSampleRatio_in; assumption|].
    destruct (oversample_cases r Hr) as [E|[E|[E|[E|[E|[E|[E|E]]]]]]];
      subst r; reflexivity.
  - intros Hr. split; [apply encodeCtrlOverSampleRatio_out; assumption|].
    intros B D fuel w. split; [|split].
    + intros m. apply measureRaw_invalid_ratio; assumption.
    + unfold MeasurePressure, bind.
      rewrite (measureRaw_invalid_ratio fuel r Barometer w Hr). reflexivity.
    + unfold MeasureAltitude, bind.
      rewrite (measureRaw_invalid_ratio fuel r Altimeter w Hr). reflexivity.
Qed.

(** ** Running the register accesses *)

Section Runs.

Context {B : Type} {D : Device B}.

Lemma writeCtrlReg1_run (value : Z) (w : world B) :
  writeCtrlReg1 value w =
  (after_bus tt (fst (WriteRegU8 (dev w) CTRL_REG1 value)),
   mkWorld (snd (WriteRegU8 (dev w) CTRL_REG1 value))
           (trace w ++ [EvWriteRegU8 CTRL_REG1 value])).
Proof.
  unfold writeCtrlReg1, i2c_WriteRegU8, bind, check.
  destruct (WriteRegU8 (dev w) CTRL_REG1 value) as [[e|] b]; reflexivity.
Qed.

Lemma writeEventMode_run (w : world B) :
  writeEventMode true true w =
  (after_bus tt (fst (WriteRegU8 (dev w) PT_DATA_CFG 0x07)),
   mkWorld (snd (WriteRegU8 (dev w) PT_DATA_CFG 0x07))
           (trace w ++ [EvWriteRegU8 PT_DATA_CFG 0x07])).
Proof.
  unfold writeEventMode, i2c_WriteRegU8, bind, check.
  change (Z.lor (Z.lor (Z.lor 0 0x1) 0x2) 0x4) with 0x07.
  cbn [orb].
  destruct (WriteRegU8 (dev w) PT_DATA_CFG 0x07) as [[e|] b]; reflexivity.
Qed.

Lemma readStatusReg_run (w : world B) :
  readStatusReg w =
  (after_bus (fst (fst (ReadRegU8 (dev w) STATUS)))
             (snd (fst (ReadRegU8 (dev w) STATUS))),
   mkWorld (snd (ReadRegU8 (dev w) STATUS))
           (trace w ++ [EvReadRegU8 STATUS])).
Proof.
  unfold readStatusReg, i2c_ReadRegU8, bind, check.
  destruct (ReadRegU8 (dev w) STATUS) as [[v [e|]] b]; reflexivity.
Qed.

End Runs.

(** ** The configuration phase *)

Section Configuration.

Context {B : Type} {D : Device B}.

Lemma measureRaw_configure_run (r : Z) (m : PressureType) (w : world B) (b1 b2 : B) :
  0 <= r <= 7 ->
  WriteRegU8 (dev w) CTRL_REG1 (Z.lor (modeBit m) (Z.shiftl r 3)) = (None, b1) ->
  WriteRegU8 b1 PT_DATA_CFG 0x07 = (None, b2) ->
  measureRaw_configure r m w =
  (after_bus (Z.lor (Z.lor (modeBit m) (Z.shiftl r 3)) 0x01)
             (fst (WriteRegU8 b2 CTRL_REG1
                              (Z.lor (Z.lor (modeBit m) (Z.shiftl r 3)) 0x01))),
   mkWorld (snd (WriteRegU8 b2 CTRL_REG1
                            (Z.lor (Z.lor (modeBit m) (Z.shiftl r 3)) 0x01)))
           (trace w ++
            [EvWriteRegU8 CTRL_REG1 (Z.lor (modeBit m) (Z.shiftl r 3));
             EvWriteRegU8 PT_DATA_CFG 0x07;
             EvWriteRegU8 CTRL_REG1
                          (Z.lor (Z.lor (modeBit m) (Z.shiftl r 3)) 0x01)])).
Proof.
  intros Hr H1 H2.
  assert (Hm : encodeCtrlAltimeterMode (PressureType_eqb m Altimeter) = Ok (modeBit m))
    by (destruct m; reflexivity).
  unfold measureRaw_configure, bind.
  rewrite Hm, (encodeCtrlOverSampleRatio_in r Hr).
  cbn [lift ret encodeCtrlActiveStatus].
  rewrite writeCtrlReg1_run, H1. cbn [fst snd after_bus].
  rewrite writeEventMode_run. cbn [dev trace].
  rewrite H2. cbn [fst snd after_bus].
  rewrite writeCtrlReg1_run. cbn [dev trace].
  rewrite <- !app_assoc. cbn [app].
  destruct (WriteRegU8 b2 CTRL_REG1 _) as [[e|] b3]; reflexivity.
Qed.

(** Whatever the device answers, the phase writes an initial part of
    the three writes and stops at the first one that is refused. *)
Lemma measureRaw_configure_prefix (r : Z) (m : PressureType) (w : world B) :
  0 <= r <= 7 ->
  exists n,
    (1 <= n <= 3)%nat /\
    trace (snd (measureRaw_configure r m w)) = trace w ++ firstn n (config_writes r m) /\
    ((n < 3)%nat ->
     exists e, fst (measureRaw_configure r m w) = Failed (BusError e)).
Proof.
  intros Hr.
  assert (Hm : encodeCtrlAltimeterMode (PressureType_eqb m Altimeter) = Ok (modeBit m))
    by (destruct m; reflexivity).
  unfold measureRaw_configure, bind.
  rewrite Hm, (encodeCtrlOverSampleRatio_in r Hr).
  cbn [lift ret encodeCtrlActiveStatus].
  rewrite writeCtrlReg1_run.
  destruct (WriteRegU8 (dev w) CTRL_REG1 _) as [[e1|] b1]; cbn [fst snd after_bus].
  { exists 1%nat. split; [lia|]. split; [reflexivity|].
    intros _. exists e1. reflexivity. }
  rewrite writeEventMode_run. cbn [dev trace].
  destruct (WriteRegU8 b1 PT_DATA_CFG 0x07) as [[e2|] b2]; cbn [fst snd after_bus].
  { exists 2%nat. split; [lia|]. split.
    - cbn [trace]. rewrite <- app_assoc. reflexivity.
    - intros _. exists e2. reflexivity. }
  rewrite writeCtrlReg1_run. cbn [dev trace].
  exists 3%nat. split; [lia|]. split; [|lia].
  destruct (WriteRegU8 b2 CTRL_REG1 _) as [[e3|] b3]; cbn [fst snd after_bus trace];
    rewrite <- !app_assoc; reflexivity.
Qed.

Lemma measureRaw_after_configure
      (fuel : nat) (r : Z) (m : PressureType) (w0 w : world B) (flags : Z) :
  measureRaw_configure r m w0 = (Done flags, w) ->
  measureRaw fuel r m w0 =
  bind (measureRaw_poll fuel) (fun _ => readRawPressureTemperature) w.
Proof. intros H. unfold measureRaw. unfold bind at 1. rewrite H. reflexivity. Qed.

Lemma measureRaw_configure_failed
      (fuel : nat) (r : Z) (m : PressureType) (w : world B) (e : error) :
  fst (measureRaw_configure r m w) = Failed e ->
  measureRaw fuel r m w = (Failed e, snd (measureRaw_configure r m w)).
Proof.
  intros H. unfold measureRaw. unfold bind at 1.
  destruct (measureRaw_configure r m w) as [o w1]. cbn [fst snd] in *.
  rewrite H. reflexivity.
Qed.

End Configuration.

(** ** Operations without single-register writes *)

Create HintDb quiet.

Section Quiet.

Context {B : Type} {D : Device B}.

Lemma extends_quietly_refl (w : world B) : extends_quietly w w.
Proof. exists []. split; [symmetry; apply app_nil_r | reflexivity]. Qed.

Lemma extends_quietly_trans (w1 w2 w3 : world B) :
  extends_quietly w1 w2 -> extends_quietly w2 w3 -> extends_quietly w1 w3.
Proof.
  intros (t1 & E1 & Q1) (t2 & E2 & Q2). exists (t1 ++ t2). split.
  - rewrite E2, E1. symmetry. apply app_assoc.
  - rewrite forallb_app, Q1, Q2. reflexivity.
Qed.

Lemma extends_quietly_event (w : world B) (b : B) (e : event) :
  is_reg_write e = false -> extends_quietly w (mkWorld b (trace w ++ [e])).
Proof.
  intros He. exists [e]. split; [reflexivity|]. cbn. rewrite He. reflexivity.
Qed.

Lemma quiet_ret {A : Type} (a : A) : quiet (B := B) (ret a).
Proof. intros w. apply extends_quietly_refl. Qed.

Lemma quiet_fail {A : Type} (e : error) : quiet (B := B) (A := A) (fail e).
Proof. intros w. apply extends_quietly_refl. Qed.

Lemma quiet_lift {A : Type} (r : result A) : quiet (B := B) (lift r).
Proof. destruct r; [apply quiet_ret | apply quiet_fail]. Qed.

Lemma quiet_check (err : option bus_err) : quiet (B := B) (check err).
Proof. destruct err; [apply quiet_fail | apply quiet_ret]. Qed.

Lemma quiet_bind {A C : Type} (m : M B A) (k : A -> M B C) :
  quiet m -> (forall a, quiet (k a)) -> quiet (bind m k).
Proof.
  intros Hm Hk w. unfold bind. specialize (Hm w).
  destruct (m w) as [[a | e | msg |] w1]; cbn [snd] in *; try assumption.
  eapply extends_quietly_trans; [exact Hm | apply Hk].
Qed.

Lemma quiet_time_Sleep (d : Z) : quiet (time_Sleep d).
Proof. intros w. apply extends_quietly_event. reflexivity. Qed.

Lemma quiet_i2c_ReadRegU8 (reg : Z) : quiet (i2c_ReadRegU8 reg).
Proof.
  intros w. unfold i2c_ReadRegU8.
  destruct (ReadRegU8 (dev w) reg) as [[v e] b].
  apply extends_quietly_event. reflexivity.
Qed.

Lemma quiet_i2c_WriteBytes (buf : list Z) : quiet (i2c_WriteBytes buf).
Proof.
  intros w. unfold i2c_WriteBytes.
  destruct (WriteBytes (dev w) buf) as [[n e] b].
  apply extends_quietly_event. reflexivity.
Qed.

Lemma quiet_i2c_ReadBytes (len : nat) : quiet (i2c_ReadBytes len).
Proof.
  intros w. unfold i2c_ReadBytes.
  destruct (ReadBytes (dev w) len) as [[[data n] e] b].
  apply extends_quietly_event. reflexivity.
Qed.

#[local] Hint Resolve quiet_ret quiet_fail quiet_lift quiet_check quiet_time_Sleep
     quiet_i2c_ReadRegU8 quiet_i2c_WriteBytes quiet_i2c_ReadBytes : quiet.

Ltac quiet_step :=
  first [ apply quiet_bind; [| intros ?] | solve [auto with quiet] ].

Lemma quiet_readStatusReg : quiet readStatusReg.
Proof.
  unfold readStatusReg. quiet_step; [quiet_step|].
  destruct a as [status err]. repeat quiet_step.
Qed.

Lemma quiet_measureRaw_poll (fuel : nat) : quiet (measureRaw_poll fuel).
Proof.
  induction fuel as [|fuel IH]; cbn [measureRaw_poll].
  - intros w. apply extends_quietly_refl.
  - quiet_step; [quiet_step|].
    apply quiet_bind; [apply quiet_readStatusReg|]. intros status.
    destruct (negb _); [apply quiet_ret | exact IH].
Qed.

Lemma quiet_readRawPressureTemperature : quiet readRawPressureTemperature.
Proof.
  unfold readRawPressureTemperature, readDataToStruct.
  quiet_step; [quiet_step|]. quiet_step; [quiet_step|].
  quiet_step.
  - quiet_step; [quiet_step|].
    destruct a1 as [[buf1 n] err]. repeat quiet_step.
  - destruct a1 as [[st up] ut]. quiet_step.
Qed.

End Quiet.

(** ** One measurement: the writes of its configuration *)

Section ConfigurationWrites.

Context {B : Type} {D : Device B}.

Lemma MeasurePressure_world (fuel : nat) (r : Z) (w : world B) :
  snd (MeasurePressure fuel r w) = snd (measureRaw fuel r Barometer w).
Proof.
  unfold MeasurePressure, bind.
  destruct (measureRaw fuel r Barometer w) as [[[up ut] | e | msg |] w1];
    reflexivity.
Qed.

Lemma MeasureAltitude_world (fuel : nat) (r : Z) (w : world B) :
  snd (MeasureAltitude fuel r w) = snd (measureRaw fuel r Altimeter w).
Proof.
  unfold MeasureAltitude, bind.
  destruct (measureRaw fuel r Altimeter w) as [[[up ut] | e | msg |] w1];
    reflexivity.
Qed.

(** C5.  Take a measurement with an oversample ratio [r] in 0..7 and a
    pressure mode [m].  On a device that accepts the first two writes
    the configuration phase performs exactly three single-register
    writes, in this order: CTRL_REG1 := modeBit m | (r << 3), where
    modeBit is 0x80 exactly for the altimeter and 0x00 for the
    barometer; PT_DATA_CFG := 0x07; CTRL_REG1 := the first value with
    the active bit 0x01 set; the rest of the call issues no further
    single-register write.  On any device the single-register writes of
    the call are an initial part of these three, and the call that
    stops short of the third fails with the error of the bus. *)
Theorem C5_configuration_writes
        (fuel : nat) (r : Z) (m : PressureType) (w : world B) :
  0 <= r <= 7 ->
  let v := Z.lor (modeBit m) (Z.shiftl r 3) in
  let writes := [EvWriteRegU8 CTRL_REG1 v;
                 EvWriteRegU8 PT_DATA_CFG 0x07;
                 EvWriteRegU8 CTRL_REG1 (Z.lor v 0x01)] in
  (modeBit m = 0x80 <-> m = Altimeter) /\
  (modeBit m = 0x00 <-> m = Barometer) /\
  (forall b1 b2 : B,
      WriteRegU8 (dev w) CTRL_REG1 v = (None, b1) ->
      WriteRegU8 b1 PT_DATA_CFG 0x07 = (None, b2) ->
      trace (snd (measureRaw_configure r m w)) = trace w ++ writes /\
      exists tail,
        trace (snd (measureRaw fuel r m w)) = trace w ++ writes ++ tail /\
        forallb (fun e => negb (is_reg_write e)) tail = true) /\
  (exists (n : nat) tail,
      (1 <= n <= 3)%nat /\
      trace (snd (measureRaw fuel r m w)) = trace w ++ firstn n writes ++ tail /\
      forallb (fun e => negb (is_reg_write e)) tail = true /\
      ((n < 3)%nat ->
       tail = [] /\ exists e, fst (measureRaw fuel r m w) = Failed (BusError e))) /\
  (m = Barometer ->
   snd (MeasurePressure fuel r w) = snd (measureRaw fuel r m w)) /\
  (m = Altimeter ->
   snd (MeasureAltitude fuel r w) = snd (measureRaw fuel r m w)).
Proof.
  intros Hr v writes.
  assert (Hrest : forall w1 : world B,
             exists tail,
               trace (snd (bind (measureRaw_poll fuel)
                                (fun _ => readRawPressureTemperature) w1))
               = trace w1 ++ tail /\
               forallb (fun e => negb (is_reg_write e)) tail = true).
  { intros w1.
    exact (quiet_bind _ _ (quiet_measureRaw_poll fuel)
                      (fun _ => quiet_readRawPressureTemperature) w1). }
  split; [destruct m; cbn; split; intros E; solve [discriminate E | reflexivity]|].
  split; [destruct m; cbn; split; intros E; solve [discriminate E | reflexivity]|].
  split; [|split; [|split; intros ->;
                    [apply MeasurePressure_world | apply MeasureAltitude_world]]].
  - intros b1 b2 H1 H2.
    pose proof (measureRaw_configure_run r m w b1 b2 Hr H1 H2) as Hrun.
    fold v in Hrun. fold writes in Hrun.
    split; [rewrite Hrun; reflexivity|].
    unfold measureRaw. unfold bind at 1. rewrite Hrun.
    destruct (after_bus _ _) as [flags | e | msg |].
    + destruct (Hrest (mkWorld (snd (WriteRegU8 b2 CTRL_REG1 (Z.lor v 0x01)))
                               (trace w ++ writes))) as (tail & Et & Qt).
      exists tail. split; [|exact Qt].
      rewrite Et. cbn [trace]. symmetry. apply app_assoc.
    + exists []. split; [|reflexivity]. cbn [snd trace].
      rewrite app_nil_r. reflexivity.
    + exists []. split; [|reflexivity]. cbn [snd trace].
      rewrite app_nil_r. reflexivity.
    + exists []. split; [|reflexivity]. cbn [snd trace].
      rewrite app_nil_r. reflexivity.
  - destruct (measureRaw_configure_prefix r m w Hr) as (n & Hn & Htrace & Hshort).
    change (config_writes r m) with writes in Htrace.
    destruct (measureRaw_configure r m w) as [o w1] eqn:Hcfg.
    cbn [fst snd] in Htrace, Hshort.
    destruct o as [flags | e | msg |].
    + assert (n = 3%nat) as ->.
      { destruct (Nat.lt_ge_cases n 3) as [Hlt | Hge]; [|lia].
        destruct (Hshort Hlt) as (e & He). discriminate He. }
      destruct (Hrest w1) as (tail & Et & Qt).
      exists 3%nat, tail. split; [lia|]. split; [|split; [exact Qt | lia]].
      rewrite (measureRaw_after_configure fuel r m w w1 flags Hcfg).
      rewrite Et, Htrace. symmetry. apply app_assoc.
    + pose proof (measureRaw_configure_failed fuel r m w e) as Hfail.
      rewrite Hcfg in Hfail. cbn [fst snd] in Hfail.
      rewrite (Hfail eq_refl). cbn [fst snd].
      exists n, []. split; [exact Hn|]. split; [|split; [reflexivity|]].
      * rewrite app_nil_r. exact Htrace.
      * intros Hlt. split; [reflexivity|].
        destruct (Hshort Hlt) as (e' & He'). exists e'.
        injection He' as ->. reflexivity.
    + exists n, []. unfold measureRaw. unfold bind at 1. rewrite Hcfg.
      cbn [fst snd]. split; [exact Hn|]. split; [|split; [reflexivity|]].
      * rewrite app_nil_r. exact Htrace.
      * intros Hlt. destruct (Hshort Hlt) as (e' & He'). discriminate He'.
    + exists n, []. unfold measureRaw. unfold bind at 1. rewrite Hcfg.
      cbn [fst snd]. split; [exact Hn|]. split; [|split; [reflexivity|]].
      * rewrite app_nil_r. exact Htrace.
      * intros Hlt. destruct (Hshort Hlt) as (e' & He'). discriminate He'.
Qed.

End ConfigurationWrites.

(** The altimeter at ratio 3 on a device that accepts every call. *)
Lemma C5_configuration_writes_witness :
  0 <= 3 <= 7 /\
  trace (snd (measureRaw_configure 3 Altimeter (start (healthy [0x08] 0 []))))
  = [EvWriteRegU8 0x26 0x98; EvWriteRegU8 0x13 0x07; EvWriteRegU8 0x26 0x99].
Proof.
  assert (Hr : 0 <= 3 <= 7) by lia.
  split; [exact Hr|].
  destruct (C5_configuration_writes 1 3 Altimeter (start (healthy [0x08] 0 [])) Hr)
    as (_ & _ & Haccepted & _).
  destruct (Haccepted (healthy [0x08] 0 []) (healthy [0x08] 0 []))
    as (Htrace & _); [reflexivity | reflexivity |].
  exact Htrace.
Defined.

(** ** The polling loop *)

Lemma land_single_bit (s n : Z) :
  0 <= n -> Z.land s (2 ^ n) = if Z.testbit s n then 2 ^ n else 0.
Proof.
  intros Hn. apply Z.bits_inj'. intros i Hi.
  rewrite Z.land_spec, Z.pow2_bits_eqb by assumption.
  destruct (Z.eqb_spec n i) as [<- | Hne].
  - rewrite andb_true_r. destruct (Z.testbit s n) eqn:E.
    + rewrite Z.pow2_bits_true by assumption. reflexivity.
    + rewrite Z.bits_0. reflexivity.
  - rewrite andb_false_r. destruct (Z.testbit s n).
    + rewrite Z.pow2_bits_false by assumption. reflexivity.
    + rewrite Z.bits_0. reflexivity.
Qed.

Lemma data_ready_bit (s : Z) : data_ready s = Z.testbit s 3.
Proof.
  unfold data_ready, PRES_TEMP_DATA_READY.
  change 0x8 with (2 ^ 3). rewrite land_single_bit by lia.
  destruct (Z.testbit s 3); reflexivity.
Qed.

Section PollingLoop.

Context {B : Type} {D : Device B}.

Lemma measureRaw_poll_unfold (fuel : nat) (w : world B) :
  measureRaw_poll (S fuel) w =
  let w1 := mkWorld (snd (poll_step (dev w)))
                    (trace w ++ [EvSleep poll_interval; EvReadRegU8 STATUS]) in
  match snd (fst (poll_step (dev w))) with
  | Some e => (Failed (BusError e), w1)
  | None =>
      if data_ready (fst (fst (poll_step (dev w)))) then (Done tt, w1)
      else measureRaw_poll fuel w1
  end.
Proof.
  cbn [measureRaw_poll]. unfold bind at 1. unfold time_Sleep.
  unfold bind at 1. rewrite readStatusReg_run. cbn [dev trace].
  unfold poll_step, data_ready.
  change (Millisecond * 2 * 1) with poll_interval.
  rewrite <- app_assoc. cbn [app].
  destruct (ReadRegU8 (Elapse (dev w) poll_interval) STATUS) as [[s [e|]] b1];
    cbn [fst snd after_bus]; [reflexivity|].
  destruct (negb (Z.land s PRES_TEMP_DATA_READY =? 0)); reflexivity.
Qed.

Lemma status_read_first (b : B) : status_read 1 b = fst (poll_step b).
Proof. reflexivity. Qed.

Lemma status_read_shift (i : nat) (b : B) :
  (1 <= i)%nat -> status_read i (snd (poll_step b)) = status_read (S i) b.
Proof. destruct i as [|i]; [lia|]. intros _. reflexivity. Qed.

Lemma poll_events_S (k : nat) :
  poll_events (S k) = [EvSleep poll_interval; EvReadRegU8 STATUS] ++ poll_events k.
Proof. reflexivity. Qed.

Lemma count_status_reads_poll_events (k : nat) :
  count_status_reads (poll_events k) = k.
Proof.
  induction k as [|k IH]; [reflexivity|].
  rewrite poll_events_S. unfold count_status_reads in *.
  cbn [app filter]. change (STATUS =? STATUS) with true.
  cbn [length]. rewrite IH. reflexivity.
Qed.

Lemma measureRaw_poll_stops (k : nat) :
  forall (fuel : nat) (w : world B),
    (1 <= k <= fuel)%nat ->
    (forall i, (1 <= i < k)%nat ->
               exists s, status_read i (dev w) = (s, None) /\ data_ready s = false) ->
    (exists s, status_read k (dev w) = (s, None) /\ data_ready s = true) ->
    measureRaw_poll fuel w =
    (Done tt, mkWorld (after_polls k (dev w)) (trace w ++ poll_events k)).
Proof.
  induction k as [|k IH]; intros fuel w Hk Hbefore Hat; [lia|].
  destruct fuel as [|fuel]; [lia|].
  rewrite measureRaw_poll_unfold. cbv zeta.
  destruct k as [|k].
  - destruct Hat as (s & Hs & Hready).
    rewrite status_read_first in Hs. rewrite Hs. cbn [fst snd].
    rewrite Hready. reflexivity.
  - destruct (Hbefore 1%nat ltac:(lia)) as (s & Hs & Hnot).
    rewrite status_read_first in Hs. rewrite Hs. cbn [fst snd].
    rewrite Hnot. rewrite IH.
    + cbn [dev trace]. rewrite <- app_assoc. reflexivity.
    + lia.
    + intros i Hi. cbn [dev]. rewrite status_read_shift by lia.
      apply Hbefore. lia.
    + cbn [dev]. rewrite status_read_shift by lia. exact Hat.
Qed.

Lemma measureRaw_poll_spins (fuel : nat) :
  forall (w : world B),
    (forall i, (1 <= i)%nat ->
               exists s, status_read i (dev w) = (s, None) /\ data_ready s = false) ->
    measureRaw_poll fuel w =
    (OutOfFuel, mkWorld (after_polls fuel (dev w)) (trace w ++ poll_events fuel)).
Proof.
  induction fuel as [|fuel IH]; intros w Hnever.
  - destruct w as [b t]. cbn. rewrite app_nil_r. reflexivity.
  - rewrite measureRaw_poll_unfold. cbv zeta.
    destruct (Hnever 1%nat ltac:(lia)) as (s & Hs & Hnot).
    rewrite status_read_first in Hs. rewrite Hs. cbn [fst snd].
    rewrite Hnot. rewrite IH.
    + cbn [dev trace]. rewrite <- app_assoc. reflexivity.
    + intros i Hi. cbn [dev]. rewrite status_read_shift by lia.
      apply Hnever. lia.
Qed.

End PollingLoop.

(** C6.  The polling phase sleeps the fixed interval of two milliseconds,
    then reads the status register, and goes on until a read has the
    data-ready bit 0x08 (bit 3) set.  If the [k]-th status read is the
    first with that bit set, the loop returns after exactly [k] rounds:
    its events are [k] times a sleep followed by a status read, and a
    measurement whose configuration succeeded continues with the raw-data
    read from there.  If every status read succeeds without the bit, the
    loop is still running after any number of rounds: no budget of
    iterations is enough, and the loop itself has no bound or timeout. *)
Theorem C6_polling_loop {B : Type} {D : Device B} (w : world B) :
  poll_interval = 2 * Millisecond /\
  (forall s, data_ready s = Z.testbit s 3) /\
  (forall k fuel : nat,
      (1 <= k <= fuel)%nat ->
      (forall i, (1 <= i < k)%nat ->
                 exists s, status_read i (dev w) = (s, None) /\ data_ready s = false) ->
      (exists s, status_read k (dev w) = (s, None) /\ data_ready s = true) ->
      measureRaw_poll fuel w =
      (Done tt, mkWorld (after_polls k (dev w)) (trace w ++ poll_events k)) /\
      count_status_reads (poll_events k) = k /\
      forall r m w0 flags,
        measureRaw_configure r m w0 = (Done flags, w) ->
        measureRaw fuel r m w0 =
        readRawPressureTemperature
          (mkWorld (after_polls k (dev w)) (trace w ++ poll_events k))) /\
  ((forall i, (1 <= i)%nat ->
              exists s, status_read i (dev w) = (s, None) /\ data_ready s = false) ->
   forall fuel : nat,
     measureRaw_poll fuel w =
     (OutOfFuel, mkWorld (after_polls fuel (dev w)) (trace w ++ poll_events fuel)) /\
     count_status_reads (poll_events fuel) = fuel /\
     forall r m w0 flags,
       measureRaw_configure r m w0 = (Done flags, w) ->
       fst (measureRaw fuel r m w0) = OutOfFuel).
Proof.
  split; [reflexivity|]. split; [exact data_ready_bit|]. split.
  - intros k fuel Hk Hbefore Hat.
    pose proof (measureRaw_poll_stops k fuel w Hk Hbefore Hat) as Hrun.
    split; [exact Hrun|]. split; [apply count_status_reads_poll_events|].
    intros r m w0 flags Hcfg.
    rewrite (measureRaw_after_configure fuel r m w0 w flags Hcfg).
    unfold bind. rewrite Hrun. reflexivity.
  - intros Hnever fuel.
    pose proof (measureRaw_poll_spins fuel w Hnever) as Hrun.
    split; [exact Hrun|]. split; [apply count_status_reads_poll_events|].
    intros r m w0 flags Hcfg.
    rewrite (measureRaw_after_configure fuel r m w0 w flags Hcfg).
    unfold bind. rewrite Hrun. reflexivity.
Qed.

Lemma healthy_idle_forever (idle_status : Z) (data : list Z) (n : nat) :
  after_polls n (healthy [] idle_status data) = healthy [] idle_status data.
Proof. induction n as [|n IH]; [reflexivity | exact IH]. Qed.

(** A device ready at its third status read stops the loop after three
    rounds; a device that always answers 0x00 keeps it running. *)
Lemma C6_polling_loop_witness :
  measureRaw_poll 5 (start (healthy [0x00; 0x00; 0x0C] 0 [])) =
  (Done tt, mkWorld (healthy [] 0 []) (poll_events 3)) /\
  forall fuel, fst (measureRaw_poll fuel (start (healthy [] 0x00 []))) = OutOfFuel.
Proof.
  split.
  - destruct (C6_polling_loop (start (healthy [0x00; 0x00; 0x0C] 0 [])))
      as (_ & _ & Hstops & _).
    destruct (Hstops 3%nat 5%nat) as (Hrun & _).
    + lia.
    + intros i Hi. exists 0.
      assert (Hcases : i = 1%nat \/ i = 2%nat) by lia.
      destruct Hcases as [-> | ->]; split; reflexivity.
    + exists 0x0C. split; reflexivity.
    + exact Hrun.
  - intros fuel.
    destruct (C6_polling_loop (start (healthy [] 0x00 [])))
      as (_ & _ & _ & Hspins).
    destruct (Hspins) with (fuel := fuel) as (Hrun & _).
    + intros i _. exists 0. unfold status_read. cbn [start dev].
      rewrite healthy_idle_forever. split; reflexivity.
    + rewrite Hrun. reflexivity.
Defined.

(** ** One measurement, end to end *)

Section EndToEnd.

Context {B : Type} {D : Device B}.

Lemma readRawPressureTemperature_run
      (w : world B) (n n' : Z) (b4 b5 : B) (data : list Z) :
  WriteBytes (dev w) [STATUS] = (n, None, b4) ->
  ReadBytes b4 6 = (data, n', None, b5) ->
  readRawPressureTemperature w =
  (match binary_Read (fill 6 data) with
   | Ok (_, up, ut) => Done (up, ut)
   | Err e => Failed e
   end,
   mkWorld b5 (trace w ++ [EvWriteBytes [STATUS]; EvReadBytes 6])).
Proof.
  intros Hw Hr.
  unfold readRawPressureTemperature, readDataToStruct, bind,
    i2c_WriteBytes, i2c_ReadBytes.
  rewrite Hw. cbn [snd check ret dev trace].
  change (1 + OUT_PRES_BYTES + OUT_TEMP_BYTES <? 0) with false. cbv beta iota.
  cbn [dev trace].
  change (Z.to_nat (1 + OUT_PRES_BYTES + OUT_TEMP_BYTES)) with 6%nat.
  rewrite Hr. cbn [check ret]. rewrite <- app_assoc. cbn [app].
  destruct (binary_Read (fill 6 data)) as [[[st up] ut] | e]; reflexivity.
Qed.

(** C2.  A barometer measurement on a device that accepts the
    configuration, answers the status reads with 0x00, 0x00 and 0x0C,
    accepts the address write and returns the block
    [0x0C; 0x01; 0x90; 0x30; 0x16; 0x40]: the call polls the status
    register exactly three times, then reads the block, and returns the
    pressure ((0x01<<10)|(0x90<<2)|(0x30>>6)) + ((0x30>>4)&0x3)/4 =
    1600.75 and the temperature 22 + 4/16 = 22.25. *)
Theorem C2_measure_pressure_end_to_end
        (fuel : nat) (r : Z) (w : world B) (b1 b2 b3 b4 b5 : B) (n n' : Z) :
  0 <= r <= 7 ->
  (3 <= fuel)%nat ->
  WriteRegU8 (dev w) CTRL_REG1 (Z.lor (modeBit Barometer) (Z.shiftl r 3)) = (None, b1) ->
  WriteRegU8 b1 PT_DATA_CFG 0x07 = (None, b2) ->
  WriteRegU8 b2 CTRL_REG1 (Z.lor (Z.lor (modeBit Barometer) (Z.shiftl r 3)) 0x01)
  = (None, b3) ->
  status_read 1 b3 = (0x00, None) ->
  status_read 2 b3 = (0x00, None) ->
  status_read 3 b3 = (0x0C, None) ->
  WriteBytes (after_polls 3 b3) [STATUS] = (n, None, b4) ->
  ReadBytes b4 6 = ([0x0C; 0x01; 0x90; 0x30; 0x16; 0x40], n', None, b5) ->
  exists pres t w',
    MeasurePressure fuel r w = (Done (pres, t), w') /\
    dev w' = b5 /\
    trace w' =
    trace w ++
    [EvWriteRegU8 CTRL_REG1 (Z.lor (modeBit Barometer) (Z.shiftl r 3));
     EvWriteRegU8 PT_DATA_CFG 0x07;
     EvWriteRegU8 CTRL_REG1 (Z.lor (Z.lor (modeBit Barometer) (Z.shiftl r 3)) 0x01)] ++
    poll_events 3 ++ [EvWriteBytes [STATUS]; EvReadBytes 6] /\
    count_status_reads (trace w') = (count_status_reads (trace w) + 3)%nat /\
    (exists q, to_Q pres = Some q /\
               (q == inject_Z (Z.lor (Z.lor (Z.shiftl 0x01 10) (Z.shiftl 0x90 2))
                                     (Z.shiftr 0x30 6))
                     + inject_Z (Z.land (Z.shiftr 0x30 4) 0x3) / 4)%Q /\
               (q == 1600.75)%Q) /\
    (exists q, to_Q t = Some q /\ (q == 22 + 4 / 16)%Q /\ (q == 22.25)%Q).
Proof.
  intros Hr Hfuel H1 H2 H3 Hs1 Hs2 Hs3 Hw Hrd.
  pose proof (measureRaw_configure_run r Barometer w b1 b2 Hr H1 H2) as Hcfg.
  rewrite H3 in Hcfg. cbn [fst snd after_bus] in Hcfg.
  set (w1 := mkWorld b3 _) in Hcfg.
  assert (Hpoll : measureRaw_poll fuel w1 =
                  (Done tt, mkWorld (after_polls 3 (dev w1)) (trace w1 ++ poll_events 3))).
  { apply measureRaw_poll_stops.
    - lia.
    - intros i Hi. exists 0x00.
      assert (Hcases : i = 1%nat \/ i = 2%nat) by lia.
      destruct Hcases as [-> | ->]; subst w1; cbn [dev];
        (split; [assumption | reflexivity]).
    - exists 0x0C. subst w1; cbn [dev]. split; [assumption | reflexivity]. }
  assert (Hraw : measureRaw fuel r Barometer w =
                 (Done (mkRawPressure 0x01 0x90 0x30, mkRawTemperature 0x16 0x40),
                  mkWorld b5 ((trace w1 ++ poll_events 3)
                                ++ [EvWriteBytes [STATUS]; EvReadBytes 6]))).
  { rewrite (measureRaw_after_configure fuel r Barometer w w1 _ Hcfg).
    unfold bind. rewrite Hpoll.
    rewrite (readRawPressureTemperature_run _ n n' b4 b5
               [0x0C; 0x01; 0x90; 0x30; 0x16; 0x40]);
      [reflexivity | exact Hw | exact Hrd]. }
  unfold MeasurePressure, bind. rewrite Hraw.
  eexists _, _, _. split; [reflexivity|].
  split; [reflexivity|].
  assert (Htrace :
    (trace w1 ++ poll_events 3) ++ [EvWriteBytes [STATUS]; EvReadBytes 6] =
    trace w ++
    [EvWriteRegU8 CTRL_REG1 (Z.lor (modeBit Barometer) (Z.shiftl r 3));
     EvWriteRegU8 PT_DATA_CFG 0x07;
     EvWriteRegU8 CTRL_REG1 (Z.lor (Z.lor (modeBit Barometer) (Z.shiftl r 3)) 0x01)] ++
    poll_events 3 ++ [EvWriteBytes [STATUS]; EvReadBytes 6]).
  { subst w1. cbn [trace]. rewrite <- !app_assoc. reflexivity. }
  cbn [trace]. split; [exact Htrace|]. split.
  - rewrite Htrace. unfold count_status_reads.
    rewrite filter_app, length_app. reflexivity.
  - split.
    + eexists. split; [reflexivity|]. split; reflexivity.
    + eexists. split; [reflexivity|]. split; reflexivity.
Qed.

End EndToEnd.

(** The scenario on the scripted device, at oversample ratio 0. *)
Lemma C2_measure_pressure_end_to_end_witness :
  exists pres t w',
    MeasurePressure 3 0
      (start (healthy [0x00; 0x00; 0x0C] 0 [0x0C; 0x01; 0x90; 0x30; 0x16; 0x40]))
    = (Done (pres, t), w') /\
    count_status_reads (trace w') = 3%nat /\
    (exists q, to_Q pres = Some q /\ (q == 1600.75)%Q) /\
    (exists q, to_Q t = Some q /\ (q == 22.25)%Q).
Proof.
  destruct (C2_measure_pressure_end_to_end 3 0
              (start (healthy [0x00; 0x00; 0x0C] 0 [0x0C; 0x01; 0x90; 0x30; 0x16; 0x40]))
              (healthy [0x00; 0x00; 0x0C] 0 [0x0C; 0x01; 0x90; 0x30; 0x16; 0x40])
              (healthy [0x00; 0x00; 0x0C] 0 [0x0C; 0x01; 0x90; 0x30; 0x16; 0x40])
              (healthy [0x00; 0x00; 0x0C] 0 [0x0C; 0x01; 0x90; 0x30; 0x16; 0x40])
              (healthy [] 0 [0x0C; 0x01; 0x90; 0x30; 0x16; 0x40])
              (healthy [] 0 [0x0C; 0x01; 0x90; 0x30; 0x16; 0x40])
              1 6)
    as (pres & t & w' & Hrun & _ & _ & Hcount & (qp & Hqp & _ & Hp) & (qt & Hqt & _ & Ht));
    try reflexivity; try lia.
  exists pres, t, w'. split; [exact Hrun|]. split; [exact Hcount|].
  split; [exists qp | exists qt]; split; assumption.
Defined.

(** ** Calibration and reset *)

Section Calibration.

Context {B : Type} {D : Device B}.

(** An operation whose only bus call is one [WriteBytes]. *)
Lemma write_bytes_run (buf : list Z) (w : world B) :
  bind (i2c_WriteBytes buf) (fun r => check (snd r)) w =
  (after_bus tt (snd (fst (WriteBytes (dev w) buf))),
   mkWorld (snd (WriteBytes (dev w) buf)) (trace w ++ [EvWriteBytes buf])).
Proof.
  unfold bind, i2c_WriteBytes, check.
  destruct (WriteBytes (dev w) buf) as [[n [e|]] b]; reflexivity.
Qed.

Lemma after_bus_not_validation (err : option bus_err) (msg : string) :
  after_bus tt err <> Failed (errors_New msg).
Proof. destruct err; cbn; discriminate. Qed.

(** C8, as amended.  [ModifySeaLevelPressure] halves the pressure and
    makes one write of three bytes: the address 0x14 of the
    barometric-input register, then the low 16 bits of the halved value,
    big-endian.  These are the halved value itself when the pressure is
    below 131072 Pa; from there on its upper bits are lost.  The outcome
    is that of the write.  With 101326 the bytes are [0x14; 0xC5; 0xE7],
    as 101326 / 2 = 50663 = 0xC5E7. *)
Theorem C8_sea_level_pressure (p : Z) (w : world B) :
  is_uint32 p ->
  exists hi lo,
    ModifySeaLevelPressure p w =
    (after_bus tt (snd (fst (WriteBytes (dev w) [0x14; hi; lo]))),
     mkWorld (snd (WriteBytes (dev w) [0x14; hi; lo]))
             (trace w ++ [EvWriteBytes [0x14; hi; lo]])) /\
    is_byte hi /\ is_byte lo /\
    hi * 256 + lo = (p / 2) mod 2 ^ 16 /\
    (p < 131072 -> hi * 256 + lo = p / 2) /\
    (p = 101326 -> hi = 0xC5 /\ lo = 0xE7 /\ p / 2 = 0xC5E7).
Proof.
  unfold is_uint32. intros Hp.
  exists (to_byte (Z.shiftr (p / 2) 8)), (to_byte (Z.land (p / 2) 0xFF)).
  split; [apply write_bytes_run|].
  assert (Hh : 0 <= p / 2) by (apply Z.div_pos; lia).
  unfold to_byte, is_byte.
  rewrite Z.shiftr_div_pow2 by lia.
  change 0xFF with (Z.ones 8). rewrite Z.land_ones by lia.
  rewrite Z.mod_mod by lia.
  change (2 ^ 8) with 256. change (2 ^ 16) with 65536.
  set (h := p / 2) in *.
  assert (Hhi : 0 <= (h / 256) mod 256 < 256) by (apply Z.mod_pos_bound; lia).
  assert (Hlo : 0 <= h mod 256 < 256) by (apply Z.mod_pos_bound; lia).
  assert (Hsum : (h / 256) mod 256 * 256 + h mod 256 = h mod 65536).
  { change 65536 with (256 * 256).
    rewrite Z.rem_mul_r by lia. lia. }
  split; [exact Hhi|]. split; [exact Hlo|]. split; [exact Hsum|]. split.
  - intros Hsmall. rewrite Hsum. apply Z.mod_small. split; [exact Hh|].
    subst h. apply Z.div_lt_upper_bound; lia.
  - intros ->. subst h. repeat split; reflexivity.
Qed.

(** C9.  [Reset] writes the reset bit 0x04 to CTRL_REG1 and returns
    success whatever the bus answers to that write: an error of the
    write is dropped, and no call of [Reset] returns an error. *)
Theorem C9_reset_suppresses_bus_error (w : world B) :
  Reset w =
  (Done tt,
   mkWorld (snd (WriteRegU8 (dev w) CTRL_REG1 0x04))
           (trace w ++ [EvWriteRegU8 CTRL_REG1 0x04])) /\
  encodeCtrlResetBit true = Ok 0x04 /\
  CTRL_REG1 = 0x26 /\
  (forall e, fst (Reset w) <> Failed e).
Proof.
  assert (Hrun : Reset w =
                 (Done tt,
                  mkWorld (snd (WriteRegU8 (dev w) CTRL_REG1 0x04))
                          (trace w ++ [EvWriteRegU8 CTRL_REG1 0x04]))).
  { unfold Reset, bind, i2c_WriteRegU8. cbn [encodeCtrlResetBit lift ret].
    destruct (WriteRegU8 (dev w) CTRL_REG1 0x4) as [err b]. reflexivity. }
  split; [exact Hrun|]. split; [reflexivity|]. split; [reflexivity|].
  intros e. rewrite Hrun. discriminate.
Qed.

(** C10.  [CompensateAltitude] checks no range.  For every signed byte
    [shiftM] it makes one write of the two bytes [0x2D; shiftM], the
    second being [shiftM] as a signed byte, and its outcome is that of
    the write: success when the bus accepts it, the error of the bus,
    unchanged, when it does not.  It never returns an error of its
    own. *)
Theorem C10_compensate_altitude (shiftM : Z) (w : world B) :
  is_int8 shiftM ->
  exists b,
    is_byte b /\ to_int8 b = shiftM /\ OFF_H = 0x2D /\
    CompensateAltitude shiftM w =
    (after_bus tt (snd (fst (WriteBytes (dev w) [0x2D; b]))),
     mkWorld (snd (WriteBytes (dev w) [0x2D; b]))
             (trace w ++ [EvWriteBytes [0x2D; b]])) /\
    (forall msg, fst (CompensateAltitude shiftM w) <> Failed (errors_New msg)) /\
    (forall e, fst (CompensateAltitude shiftM w) = Failed e <->
               exists e', snd (fst (WriteBytes (dev w) [0x2D; b])) = Some e' /\
                          e = BusError e').
Proof.
  unfold is_int8. intros Hs. exists (to_byte shiftM).
  assert (Hb : is_byte (to_byte shiftM))
    by (unfold is_byte, to_byte; apply Z.mod_pos_bound; lia).
  split; [exact Hb|]. split.
  { unfold to_int8, to_byte. change (2 ^ 8) with 256. change (2 ^ 7) with 128.
    rewrite Zplus_mod_idemp_l. 
    rewrite Z.mod_small by lia. lia. }
  split; [reflexivity|].
  assert (Hrun : CompensateAltitude shiftM w =
    (after_bus tt (snd (fst (WriteBytes (dev w) [0x2D; to_byte shiftM]))),
     mkWorld (snd (WriteBytes (dev w) [0x2D; to_byte shiftM]))
             (trace w ++ [EvWriteBytes [0x2D; to_byte shiftM]])))
    by apply write_bytes_run.
  split; [exact Hrun|]. rewrite Hrun. cbn [fst]. split.
  - intros msg. apply after_bus_not_validation.
  - intros e. destruct (snd (fst (WriteBytes (dev w) [0x2D; to_byte shiftM])))
      as [e'|]; cbn [after_bus]; split.
    + intros H. injection H as <-. exists e'. split; reflexivity.
    + intros (e'' & He & ->). injection He as ->. reflexivity.
    + discriminate.
    + intros (e'' & He & _). discriminate.
Qed.

End Calibration.

(** The default sea-level pressure on a device that accepts the write. *)
Lemma C8_sea_level_pressure_witness :
  is_uint32 101326 /\
  exists hi lo,
    trace (snd (ModifySeaLevelPressure 101326 (start (healthy [] 0 []))))
    = [EvWriteBytes [0x14; hi; lo]] /\ hi = 0xC5 /\ lo = 0xE7.
Proof.
  assert (Hp : is_uint32 101326) by (unfold is_uint32; lia).
  split; [exact Hp|].
  destruct (C8_sea_level_pressure 101326 (start (healthy [] 0 [])) Hp)
    as (hi & lo & Hrun & _ & _ & _ & _ & Hex).
  destruct (Hex eq_refl) as (Hhi & Hlo & _).
  exists hi, lo. rewrite Hrun. repeat split; assumption.
Defined.

(** C8, as first stated, fails at 200000 Pa, a pressure the [uint32]
    parameter admits.  The halved value 100000 = 0x186A0 does not fit two
    bytes: the call writes [0x14; 0x86; 0xA0], which read big-endian is
    34464, and no two bytes after the address are the halved value. *)
Lemma C8_halved_value_exceeds_two_bytes :
  is_uint32 200000 /\
  trace (snd (ModifySeaLevelPressure 200000 (start (healthy [] 0 []))))
  = [EvWriteBytes [0x14; 0x86; 0xA0]] /\
  0x86 * 256 + 0xA0 = 34464 /\
  200000 / 2 = 100000 /\
  ~ (exists hi lo,
        is_byte hi /\ is_byte lo /\
        trace (snd (ModifySeaLevelPressure 200000 (start (healthy [] 0 []))))
        = [EvWriteBytes [0x14; hi; lo]] /\
        hi * 256 + lo = 200000 / 2).
Proof.
  split; [unfold is_uint32; lia|].
  split; [reflexivity|]. split; [reflexivity|]. split; [reflexivity|].
  intros (hi & lo & _ & _ & Htrace & Hvalue).
  change (trace (snd (ModifySeaLevelPressure 200000 (start (healthy [] 0 [])))))
    with [EvWriteBytes [0x14; 0x86; 0xA0]] in Htrace.
  injection Htrace as <- <-.
  discriminate Hvalue.
Qed.

(** Fifty metres down, on a device that refuses the write. *)
Lemma C10_compensate_altitude_witness :
  is_int8 (-50) /\
  exists b,
    to_int8 b = -50 /\
    CompensateAltitude (-50) (start (mkScripted [] (0, None) [Some 5] ([], None)))
    = (Failed (BusError 5),
       mkWorld (mkScripted [] (0, None) [] ([], None)) [EvWriteBytes [0x2D; b]]).
Proof.
  assert (Hs : is_int8 (-50)) by (unfold is_int8; lia).
  split; [exact Hs|].
  destruct (C10_compensate_altitude (-50)
              (start (mkScripted [] (0, None) [Some 5] ([], None))) Hs)
    as (b & _ & Hb & _ & Hrun & _).
  exists b. split; [exact Hb|]. rewrite Hrun. reflexivity.
Defined.

Lemma quot4_signed_byte (s : Z) :
  -512 <= s <= 508 -> -128 <= Z.quot s 4 <= 127.
Proof.
  intros Hs. pose proof (Z.quot_rem' s 4) as Hqr.
  destruct (Z_le_dec 0 s) as [Hpos | Hneg].
  - pose proof (Z.rem_bound_pos_pos s 4 ltac:(lia) Hpos). lia.
  - pose proof (Z.rem_bound_pos_neg s 4 ltac:(lia) ltac:(lia)). lia.
Qed.

Section PressureCompensation.

Context {B : Type} {D : Device B}.

Lemma CompensatePressure_out (shiftPa : Z) (w : world B) :
  ~ -512 <= shiftPa <= 508 ->
  CompensatePressure shiftPa w = (Failed pressure_range_error, w).
Proof.
  intros Hs. unfold CompensatePressure.
  destruct (shiftPa >? 508) eqn:E1; [reflexivity|].
  destruct (shiftPa <? -512) eqn:E2; [reflexivity|].
  rewrite Z.gtb_ltb in E1. apply Z.ltb_ge in E1. apply Z.ltb_ge in E2. lia.
Qed.

Lemma CompensatePressure_in (shiftPa : Z) (w : world B) :
  -512 <= shiftPa <= 508 ->
  CompensatePressure shiftPa w =
  (after_bus tt (snd (fst (WriteBytes (dev w) [0x2B; to_byte (Z.quot shiftPa 4)]))),
   mkWorld (snd (WriteBytes (dev w) [0x2B; to_byte (Z.quot shiftPa 4)]))
           (trace w ++ [EvWriteBytes [0x2B; to_byte (Z.quot shiftPa 4)]])).
Proof.
  intros Hs. unfold CompensatePressure.
  assert (E1 : (shiftPa >? 508) = false)
    by (rewrite Z.gtb_ltb; apply Z.ltb_ge; lia).
  assert (E2 : (shiftPa <? -512) = false) by (apply Z.ltb_ge; lia).
  rewrite E1, E2. cbn [orb].
  pose proof (quot4_signed_byte shiftPa Hs) as Hq.
  assert (H16 : to_int16 (Z.quot shiftPa 4) = Z.quot shiftPa 4).
  { unfold to_int16. change (2 ^ 15) with 32768. change (2 ^ 16) with 65536.
    rewrite Z.mod_small by lia. lia. }
  rewrite H16. apply write_bytes_run.
Qed.

(** C3.  [CompensatePressure] fails with its range error exactly when
    the shift is outside [-512, +508], and then touches no bus.
    Otherwise it divides the shift by four and makes one write of the
    two bytes [0x2B; q], where 0x2B is the pressure-offset register and
    [q] is the quotient as a signed byte; the outcome is that of the
    write.  508 gives the byte 0x7F, 509 the range error, -512 the byte
    of -128. *)
Theorem C3_compensate_pressure (shiftPa : Z) (w : world B) :
  is_int16 shiftPa ->
  (fst (CompensatePressure shiftPa w) = Failed pressure_range_error
   <-> ~ -512 <= shiftPa <= 508) /\
  (~ -512 <= shiftPa <= 508 ->
   CompensatePressure shiftPa w = (Failed pressure_range_error, w)) /\
  (-512 <= shiftPa <= 508 ->
   exists q,
     is_byte q /\ to_int8 q = Z.quot shiftPa 4 /\ OFF_PRES = 0x2B /\
     CompensatePressure shiftPa w =
     (after_bus tt (snd (fst (WriteBytes (dev w) [0x2B; q]))),
      mkWorld (snd (WriteBytes (dev w) [0x2B; q]))
              (trace w ++ [EvWriteBytes [0x2B; q]])) /\
     (shiftPa = 508 -> q = 0x7F) /\
     (shiftPa = -512 -> q = 0x80 /\ to_int8 q = -128)) /\
  CompensatePressure 509 w = (Failed pressure_range_error, w).
Proof.
  intros _. split; [|split; [|split]].
  - split.
    + intros Hfail Hin. rewrite (CompensatePressure_in shiftPa w Hin) in Hfail.
      cbn [fst] in Hfail.
      exact (after_bus_not_validation _ _ Hfail).
    + intros Hout. rewrite (CompensatePressure_out shiftPa w Hout). reflexivity.
  - apply CompensatePressure_out.
  - intros Hin. exists (to_byte (Z.quot shiftPa 4)).
    pose proof (quot4_signed_byte shiftPa Hin) as Hq.
    split; [unfold is_byte, to_byte; apply Z.mod_pos_bound; lia|].
    split.
    { unfold to_int8, to_byte. change (2 ^ 8) with 256. change (2 ^ 7) with 128.
      rewrite Zplus_mod_idemp_l. rewrite Z.mod_small by lia. lia. }
    split; [reflexivity|]. split; [apply CompensatePressure_in; exact Hin|].
    split; [intros ->; reflexivity | intros ->; split; reflexivity].
  - apply CompensatePressure_out. lia.
Qed.

End PressureCompensation.

(** The largest shift, on a device that accepts the write. *)
Lemma C3_compensate_pressure_witness :
  is_int16 508 /\
  CompensatePressure 508 (start (healthy [] 0 []))
  = (Done tt, mkWorld (healthy [] 0 []) [EvWriteBytes [0x2B; 0x7F]]).
Proof.
  assert (Hs : is_int16 508) by (unfold is_int16; lia).
  split; [exact Hs|].
  destruct (C3_compensate_pressure 508 (start (healthy [] 0 [])) Hs)
    as (_ & _ & Hin & _).
  destruct Hin as (q & _ & _ & _ & Hrun & Hq & _); [lia|].
  rewrite Hrun, (Hq eq_refl). reflexivity.
Defined.

(** ** Temperature compensation *)

Section TemperatureCompensation.

Context {B : Type} {D : Device B}.

(** C1.  What [CompensateTemperature] does at the two shifts named by
    the claim.  At 8 it fails with its range error and touches no bus.
    At 7.9375 it passes the range check, multiplies by 16 and makes one
    write of two bytes whose second is 127; the first byte, the register
    address, is 0x2B, the pressure-offset register [OFF_PRES], where the
    temperature-offset register [OFF_TEMP] is 0x2C. *)
Theorem C1_temperature_shift_goes_to_pressure_offset
        (impl : float32 -> Z) (w : world B) :
  (exists q, to_Q (dyadic 127 (-4)) = Some q /\ (q == 7.9375)%Q) /\
  CompensateTemperature impl (of_int 8) w = (Failed temperature_range_error, w) /\
  CompensateTemperature impl (dyadic 127 (-4)) w =
  (after_bus tt (snd (fst (WriteBytes (dev w) [0x2B; 127]))),
   mkWorld (snd (WriteBytes (dev w) [0x2B; 127]))
           (trace w ++ [EvWriteBytes [0x2B; 127]])) /\
  OFF_PRES = 0x2B /\ OFF_TEMP = 0x2C /\ OFF_PRES <> OFF_TEMP.
Proof.
  split; [|split; [reflexivity | split; [|repeat split; discriminate]]].
  - eexists. split; reflexivity.
  - unfold CompensateTemperature.
    assert (Hin : gtb (dyadic 127 (-4)) (dyadic 127 (-4))
                  || ltb (dyadic 127 (-4)) (dyadic (-8) 0) = false)
      by (vm_compute; reflexivity).
    rewrite Hin.
    assert (Hbyte : to_uint8 impl (mul (dyadic 127 (-4)) (of_int 16)) = 127)
      by (vm_compute; reflexivity).
    rewrite Hbyte. apply write_bytes_run.
Qed.

End TemperatureCompensation.

(** ** Utility functions on byte slices *)

Lemma to_int16_absorb (a b : Z) : to_int16 (to_int16 a + b) = to_int16 (a + b).
Proof.
  unfold to_int16.
  replace ((a + 2 ^ 15) mod 2 ^ 16 - 2 ^ 15 + b + 2 ^ 15)
    with ((a + 2 ^ 15) mod 2 ^ 16 + b) by lia.
  rewrite Zplus_mod_idemp_l. f_equal. f_equal. lia.
Qed.

Lemma to_int16_small (z : Z) : is_int16 z -> to_int16 z = z.
Proof.
  unfold is_int16, to_int16. intros Hz.
  change (2 ^ 15) with 32768. change (2 ^ 16) with 65536.
  rewrite Z.mod_small by lia. lia.
Qed.

Lemma getS16BE_value (b0 b1 : Z) (rest : list Z) :
  is_byte b0 -> is_byte b1 ->
  getS16BE (b0 :: b1 :: rest) = Some (to_int16 (b0 * 256 + b1)).
Proof.
  unfold is_byte. intros H0 H1. unfold getS16BE. cbn [nth_error].
  rewrite (to_int16_small b0), (to_int16_small b1) by (unfold is_int16; lia).
  rewrite to_int16_absorb, Z.shiftl_mul_pow2 by lia. reflexivity.
Qed.

Lemma getS16LE_value (b0 b1 : Z) (rest : list Z) :
  is_byte b0 -> is_byte b1 ->
  getS16LE (b0 :: b1 :: rest) =
  Some (to_int16 (b1 * 256 + b0 - (if b0 <? 128 then 0 else 256))).
Proof.
  intros H0 H1. unfold getS16LE. rewrite (getS16BE_value b0 b1 rest H0 H1).
  unfold is_byte in *.
  rewrite (to_int16_twos_complement (b0 * 256 + b1)) by lia.
  rewrite to_int16_absorb.
  change 0xFF with (Z.ones 8). rewrite Z.land_ones by lia.
  rewrite Z.shiftl_mul_pow2, Z.shiftr_div_pow2 by lia.
  change (2 ^ 8) with 256.
  assert (Hsplit : forall h, (h * 256 + b1) mod 256 = b1 /\ (h * 256 + b1) / 256 = h).
  { intros h. split.
    - rewrite Z.add_comm, Z.mod_add by lia. apply Z.mod_small. lia.
    - rewrite Z.div_add_l by lia. rewrite Z.div_small by lia. lia. }
  destruct (b0 <? 128) eqn:E0; [apply Z.ltb_lt in E0 | apply Z.ltb_ge in E0].
  - assert (E : (b0 * 256 + b1 <? 32768) = true) by (apply Z.ltb_lt; lia).
    rewrite E. destruct (Hsplit b0) as [-> ->]. do 2 f_equal. lia.
  - assert (E : (b0 * 256 + b1 <? 32768) = false) by (apply Z.ltb_ge; lia).
    rewrite E.
    replace (b0 * 256 + b1 - 65536) with ((b0 - 256) * 256 + b1) by lia.
    destruct (Hsplit (b0 - 256)) as [-> ->]. do 2 f_equal. lia.
Qed.

Lemma getU16BE_value (b0 b1 : Z) (rest : list Z) :
  is_byte b0 -> is_byte b1 ->
  getU16BE (b0 :: b1 :: rest) = Some (b0 * 256 + b1).
Proof.
  unfold is_byte. intros H0 H1. unfold getU16BE, shl16, to_uint16.
  cbn [nth_error]. change (2 ^ 16) with 65536.
  rewrite (Z.mod_small b0), (Z.mod_small b1) by lia.
  rewrite Z.shiftl_mul_pow2 by lia. change (2 ^ 8) with 256.
  rewrite (Z.mod_small (b0 * 256)) by lia.
  rewrite Z.mod_small by lia. reflexivity.
Qed.

Lemma getU16LE_value (b0 b1 : Z) (rest : list Z) :
  is_byte b0 -> is_byte b1 ->
  getU16LE (b0 :: b1 :: rest) = Some (b1 * 256 + b0).
Proof.
  intros H0 H1. unfold getU16LE. rewrite (getU16BE_value b0 b1 rest H0 H1).
  unfold is_byte, shl16, to_uint16 in *. change (2 ^ 16) with 65536.
  change 0xFF with (Z.ones 8). rewrite Z.land_ones by lia.
  rewrite Z.shiftl_mul_pow2, Z.shiftr_div_pow2 by lia.
  change (2 ^ 8) with 256.
  assert (Hm : (b0 * 256 + b1) mod 256 = b1).
  { rewrite Z.add_comm, Z.mod_add by lia. apply Z.mod_small. lia. }
  assert (Hd : (b0 * 256 + b1) / 256 = b0).
  { rewrite Z.div_add_l by lia. rewrite Z.div_small by lia. lia. }
  rewrite Hm, Hd. rewrite (Z.mod_small (b1 * 256)) by lia.
  rewrite Z.mod_small by lia. reflexivity.
Qed.

Lemma short_slice (buf : list Z) :
  (length buf < 2)%nat -> buf = [] \/ exists b, buf = [b].
Proof.
  destruct buf as [|b [|b' rest]]; cbn [length]; intros H.
  - left. reflexivity.
  - right. exists b. reflexivity.
  - lia.
Qed.

(** X1.  The unsigned readers on a slice of bytes.  Both panic exactly on
    a slice of fewer than two bytes.  Otherwise [getU16BE] returns
    byte0 * 256 + byte1 and [getU16LE] returns byte1 * 256 + byte0, which
    is what [getU16BE] returns on the two bytes exchanged; bytes after the
    second are ignored. *)
Theorem X1_getU16_readers (buf : list Z) :
  Forall is_byte buf ->
  (getU16BE buf = None <-> (length buf < 2)%nat) /\
  (getU16LE buf = None <-> (length buf < 2)%nat) /\
  (forall b0 b1 rest,
      buf = b0 :: b1 :: rest ->
      getU16BE buf = Some (b0 * 256 + b1) /\
      getU16LE buf = Some (b1 * 256 + b0) /\
      getU16LE buf = getU16BE (b1 :: b0 :: rest) /\
      0 <= b0 * 256 + b1 < 65536).
Proof.
  intros Hbytes.
  assert (Hlong : forall b0 b1 rest,
             buf = b0 :: b1 :: rest ->
             is_byte b0 /\ is_byte b1).
  { intros b0 b1 rest ->. inversion Hbytes as [|? ? H0 Hrest]; subst.
    inversion Hrest; subst. split; assumption. }
  split; [|split].
  - split.
    + intros Hnone. destruct buf as [|b0 [|b1 rest]]; cbn [length]; try lia.
      destruct (Hlong b0 b1 rest eq_refl) as [H0 H1].
      rewrite (getU16BE_value b0 b1 rest H0 H1) in Hnone. discriminate.
    + intros Hshort. destruct (short_slice buf Hshort) as [-> | [b ->]]; reflexivity.
  - split.
    + intros Hnone. destruct buf as [|b0 [|b1 rest]]; cbn [length]; try lia.
      destruct (Hlong b0 b1 rest eq_refl) as [H0 H1].
      rewrite (getU16LE_value b0 b1 rest H0 H1) in Hnone. discriminate.
    + intros Hshort. destruct (short_slice buf Hshort) as [-> | [b ->]]; reflexivity.
  - intros b0 b1 rest Hbuf. destruct (Hlong b0 b1 rest Hbuf) as [H0 H1]. subst buf.
    rewrite (getU16BE_value b0 b1 rest H0 H1), (getU16LE_value b0 b1 rest H0 H1),
      (getU16BE_value b1 b0 rest H1 H0).
    unfold is_byte in *. repeat split; lia.
Qed.

Lemma X1_getU16_readers_witness :
  Forall is_byte [0x12; 0x34; 0x56] /\
  getU16BE [0x12; 0x34; 0x56] = Some 0x1234 /\
  getU16LE [0x12; 0x34; 0x56] = Some 0x3412.
Proof.
  assert (Hb : Forall is_byte [0x12; 0x34; 0x56])
    by (repeat constructor; unfold is_byte; lia).
  split; [exact Hb|].
  destruct (X1_getU16_readers _ Hb) as (_ & _ & Hval).
  destruct (Hval 0x12 0x34 [0x56] eq_refl) as (Hbe & Hle & _).
  split; [exact Hbe | exact Hle].
Defined.

(** X2.  [getS16BE] on two bytes (and whatever follows them) returns the
    two's-complement reading of the 16-bit value byte0 * 256 + byte1: a
    value of [int16] that is congruent to it modulo 65536, negative
    exactly when byte0 is 0x80 or more.  It panics exactly on a slice of
    fewer than two bytes. *)
Theorem X2_getS16BE_twos_complement (buf : list Z) :
  Forall is_byte buf ->
  (getS16BE buf = None <-> (length buf < 2)%nat) /\
  (forall b0 b1 rest,
      buf = b0 :: b1 :: rest ->
      exists v,
        getS16BE buf = Some v /\
        is_int16 v /\
        v = (if b0 * 256 + b1 <? 32768 then b0 * 256 + b1
             else b0 * 256 + b1 - 65536) /\
        to_uint16 v = b0 * 256 + b1 /\
        (v < 0 <-> 128 <= b0)).
Proof.
  intros Hbytes.
  assert (Hlong : forall b0 b1 rest,
             buf = b0 :: b1 :: rest ->
             is_byte b0 /\ is_byte b1).
  { intros b0 b1 rest ->. inversion Hbytes as [|? ? H0 Hrest]; subst.
    inversion Hrest; subst. split; assumption. }
  split.
  - split.
    + intros Hnone. destruct buf as [|b0 [|b1 rest]]; cbn [length]; try lia.
      destruct (Hlong b0 b1 rest eq_refl) as [H0 H1].
      rewrite (getS16BE_value b0 b1 rest H0 H1) in Hnone. discriminate.
    + intros Hshort. destruct (short_slice buf Hshort) as [-> | [b ->]]; reflexivity.
  - intros b0 b1 rest Hbuf. destruct (Hlong b0 b1 rest Hbuf) as [H0 H1]. subst buf.
    rewrite (getS16BE_value b0 b1 rest H0 H1). unfold is_byte in *.
    rewrite to_int16_twos_complement by lia.
    eexists. split; [reflexivity|].
    unfold is_int16, to_uint16. change (2 ^ 16) with 65536.
    destruct (b0 * 256 + b1 <? 32768) eqn:E;
      [apply Z.ltb_lt in E | apply Z.ltb_ge in E].
    + repeat split; try lia. apply Z.mod_small. lia.
    + repeat split; try lia.
      replace (b0 * 256 + b1 - 65536) with (b0 * 256 + b1 + (-1) * 65536) by lia.
      rewrite Z.mod_add by lia. apply Z.mod_small. lia.
Qed.

Lemma X2_getS16BE_twos_complement_witness :
  Forall is_byte [0xFF; 0xFE] /\ getS16BE [0xFF; 0xFE] = Some (-2).
Proof.
  assert (Hb : Forall is_byte [0xFF; 0xFE])
    by (repeat constructor; unfold is_byte; lia).
  split; [exact Hb|].
  destruct (X2_getS16BE_twos_complement _ Hb) as (_ & Hval).
  destruct (Hval 0xFF 0xFE [] eq_refl) as (v & Hv & _ & Heq & _).
  rewrite Hv, Heq. reflexivity.
Defined.

(** X3.  [getS16LE] is right only for half of its inputs.  Write [le] for
    the signed little-endian reading of the two bytes, the two's
    complement of byte1 * 256 + byte0.  When byte0 is below 0x80 the
    function returns [le].  When byte0 is 0x80 or more, the arithmetic
    right shift of the negative intermediate value brings in 0xFF as
    high byte, and the function returns [le - 256] wrapped to 16 bits,
    which is never [le]. *)
Theorem X3_getS16LE_sign_extension (b0 b1 : Z) (rest : list Z) :
  is_byte b0 -> is_byte b1 ->
  let le := to_int16 (b1 * 256 + b0) in
  (b0 < 128 -> getS16LE (b0 :: b1 :: rest) = Some le) /\
  (128 <= b0 ->
   getS16LE (b0 :: b1 :: rest) = Some (to_int16 (le - 256)) /\
   getS16LE (b0 :: b1 :: rest) <> Some le).
Proof.
  intros H0 H1 le. rewrite (getS16LE_value b0 b1 rest H0 H1).
  unfold is_byte in *. split.
  - intros Hlow. assert (E : (b0 <? 128) = true) by (apply Z.ltb_lt; lia).
    rewrite E. subst le. do 2 f_equal. lia.
  - intros Hhigh. assert (E : (b0 <? 128) = false) by (apply Z.ltb_ge; lia).
    rewrite E.
    assert (Hwrap : to_int16 (b1 * 256 + b0 - 256) = to_int16 (le - 256)).
    { subst le. replace (to_int16 (b1 * 256 + b0) - 256)
        with (to_int16 (b1 * 256 + b0) + (-256)) by lia.
      rewrite to_int16_absorb. reflexivity. }
    split; [rewrite Hwrap; reflexivity|].
    intros Heq. injection Heq as Heq. subst le.
    unfold to_int16 in Heq. change (2 ^ 15) with 32768 in Heq.
    change (2 ^ 16) with 65536 in Heq.
    Z.to_euclidean_division_equations. lia.
Qed.

Lemma X3_getS16LE_sign_extension_witness :
  is_byte 0x80 /\ is_byte 0x01 /\
  to_int16 (0x01 * 256 + 0x80) = 384 /\
  getS16LE [0x80; 0x01] = Some 128.
Proof.
  assert (H0 : is_byte 0x80) by (unfold is_byte; lia).
  assert (H1 : is_byte 0x01) by (unfold is_byte; lia).
  split; [exact H0|]. split; [exact H1|]. split; [reflexivity|].
  destruct (X3_getS16LE_sign_extension 0x80 0x01 [] H0 H1) as (_ & Hhigh).
  destruct Hhigh as (Hval & _); [lia|].
  rewrite Hval. reflexivity.
Defined.

(** ** More on the fixed-point codec *)

Lemma ConvertToSignedQ8Dot4_value (v : RawTemperature) :
  RawTemperature_wf v ->
  ConvertToSignedQ8Dot4 v =
  (if TEMP_MSB v <? 128 then TEMP_MSB v else TEMP_MSB v - 256, TEMP_LSB v / 16).
Proof.
  destruct v as [m l]. unfold RawTemperature_wf, ConvertToSignedQ8Dot4.
  cbn [TEMP_MSB TEMP_LSB]. intros (Hm & Hl).
  rewrite (high_nibble l Hl). f_equal.
  unfold to_int8, is_byte in *. change (2 ^ 7) with 128. change (2 ^ 8) with 256.
  destruct (m <? 128) eqn:E; [apply Z.ltb_lt in E | apply Z.ltb_ge in E].
  - rewrite Z.mod_small by lia. lia.
  - replace (m + 128) with (m - 128 + 1 * 256) by lia.
    rewrite Z.mod_add by lia. rewrite Z.mod_small by lia. lia.
Qed.

Lemma nibble_bounds (l : Z) : is_byte l -> 0 <= l / 16 < 16.
Proof.
  unfold is_byte. intros Hl.
  split; [apply Z.div_pos | apply Z.div_lt_upper_bound]; lia.
Qed.

(** X4.  The temperature decoder.  For every two raw bytes the integer
    part is byte 0 read as a signed byte, in [-128, 127], and the fraction
    is the top four bits of byte 1, in [0, 15]; sixteen times the integer
    plus the fraction is the 12-bit sample read in two's complement.  The
    low four bits of byte 1 have no effect. *)
Theorem X4_temperature_decoder (v : RawTemperature) :
  RawTemperature_wf v ->
  exists i f,
    ConvertToSignedQ8Dot4 v = (i, f) /\
    -128 <= i <= 127 /\ 0 <= f <= 15 /\
    i = (if TEMP_MSB v <? 128 then TEMP_MSB v else TEMP_MSB v - 256) /\
    f = bits (TEMP_LSB v) 4 4 /\
    16 * i + f = signed 12 (sample12 v) /\
    forall v' : RawTemperature,
      RawTemperature_wf v' ->
      sample12 v' = sample12 v ->
      ConvertToSignedQ8Dot4 v' = ConvertToSignedQ8Dot4 v.
Proof.
  intros Hwf. rewrite (ConvertToSignedQ8Dot4_value v Hwf).
  eexists _, _. split; [reflexivity|].
  destruct v as [m l]. destruct Hwf as (Hm & Hl).
  cbn [TEMP_MSB TEMP_LSB] in *.
  pose proof (nibble_bounds l Hl) as Hn. unfold is_byte in *.
  assert (Hbits : bits l 4 4 = l / 16).
  { unfold bits. rewrite Z.shiftr_div_pow2 by lia. change (2 ^ 4) with 16.
    apply Z.mod_small. lia. }
  split; [destruct (m <? 128) eqn:E;
          [apply Z.ltb_lt in E | apply Z.ltb_ge in E]; lia|].
  split; [lia|]. split; [reflexivity|]. split; [symmetry; exact Hbits|].
  split.
  - unfold signed, sample12. cbn [TEMP_MSB TEMP_LSB].
    change (2 ^ (12 - 1)) with 2048. change (2 ^ 12) with 4096.
    destruct (m <? 128) eqn:E; [apply Z.ltb_lt in E | apply Z.ltb_ge in E].
    + rewrite Z.mod_small by lia. lia.
    + replace (m * 16 + l / 16 + 2048) with (m * 16 + l / 16 - 2048 + 1 * 4096) by lia.
      rewrite Z.mod_add by lia. rewrite Z.mod_small by lia. lia.
  - intros [m' l'] (Hm' & Hl') Hsame.
    rewrite (ConvertToSignedQ8Dot4_value (mkRawTemperature m' l'))
      by (split; assumption).
    unfold sample12 in Hsame. cbn [TEMP_MSB TEMP_LSB] in *.
    pose proof (nibble_bounds l' Hl') as Hn'. unfold is_byte in *.
    assert (m' = m) by lia. assert (l' / 16 = l / 16) by lia.
    subst m'. congruence.
Qed.

Lemma X4_temperature_decoder_witness :
  RawTemperature_wf (mkRawTemperature 0xF6 0x8F) /\
  ConvertToSignedQ8Dot4 (mkRawTemperature 0xF6 0x8F) = (-10, 8).
Proof.
  assert (Hwf : RawTemperature_wf (mkRawTemperature 0xF6 0x8F))
    by (unfold RawTemperature_wf, is_byte; cbn; lia).
  split; [exact Hwf|].
  destruct (X4_temperature_decoder _ Hwf) as (i & f & Hv & _ & _ & Hi & Hf & _).
  rewrite Hv, Hi, Hf. reflexivity.
Defined.

(** X5.  The two pressure decoders keep the 20-bit sample and nothing
    else.  In barometer form four times the integer plus the fraction is
    the sample; in altimeter form sixteen times the integer plus the
    fraction is the sample read in two's complement.  So each decoder
    gives equal results on two raw values exactly when their samples are
    equal: the low four bits of the last byte are dropped, every other
    bit is kept. *)
Theorem X5_pressure_decoders_keep_sample (v v' : RawPressure) :
  RawPressure_wf v -> RawPressure_wf v' ->
  4 * fst (ConvertToUnsignedQ18Dot2 v) + snd (ConvertToUnsignedQ18Dot2 v)
  = sample20 v /\
  16 * fst (ConvertToSignedQ16Dot4 v) + snd (ConvertToSignedQ16Dot4 v)
  = signed 20 (sample20 v) /\
  0 <= sample20 v < 2 ^ 20 /\
  (ConvertToUnsignedQ18Dot2 v = ConvertToUnsignedQ18Dot2 v' <->
   sample20 v = sample20 v') /\
  (ConvertToSignedQ16Dot4 v = ConvertToSignedQ16Dot4 v' <->
   sample20 v = sample20 v').
Proof.
  intros Hwf Hwf'.
  rewrite (ConvertToUnsignedQ18Dot2_value v Hwf),
    (ConvertToUnsignedQ18Dot2_value v' Hwf'),
    (ConvertToSignedQ16Dot4_value v Hwf),
    (ConvertToSignedQ16Dot4_value v' Hwf').
  destruct v as [m c l], v' as [m' c' l'].
  destruct Hwf as (Hm & Hc & Hl), Hwf' as (Hm' & Hc' & Hl').
  unfold sample20. cbn [PRES_MSB PRES_CSB PRES_LSB fst snd] in *.
  pose proof (nibble_bounds l Hl) as Hn. pose proof (nibble_bounds l' Hl') as Hn'.
  unfold is_byte in *.
  assert (H64 : forall x, x / 64 = x / 16 / 4)
    by (intros x; rewrite Z.div_div by lia; reflexivity).
  rewrite (H64 l), (H64 l').
  set (h := l / 16) in *. set (h' := l' / 16) in *.
  clearbody h h'.
  pose proof (Z.div_mod h 4 ltac:(lia)) as Hh.
  pose proof (Z.mod_pos_bound h 4 ltac:(lia)) as Hhb.
  pose proof (Z.div_mod h' 4 ltac:(lia)) as Hh'.
  pose proof (Z.mod_pos_bound h' 4 ltac:(lia)) as Hhb'.
  change (2 ^ 20) with 1048576.
  split; [lia|]. split.
  { unfold signed. change (2 ^ (20 - 1)) with 524288. change (2 ^ 20) with 1048576.
    cbv zeta.
    destruct (m * 256 + c <? 32768) eqn:E;
      [apply Z.ltb_lt in E | apply Z.ltb_ge in E].
    - rewrite Z.mod_small by lia. lia.
    - replace (m * 4096 + c * 16 + h + 524288)
        with (m * 4096 + c * 16 + h - 524288 + 1 * 1048576) by lia.
      rewrite Z.mod_add by lia. rewrite Z.mod_small by lia. lia. }
  split; [lia|]. split.
  - split.
    + intros Heq. injection Heq as Hi Hf. lia.
    + intros Hs. assert (m' = m) by lia. assert (c' = c) by lia.
      assert (h' = h) by lia. subst m' c' h'. reflexivity.
  - cbv zeta. split.
    + intros Heq. injection Heq as Hi Hf.
      destruct (m * 256 + c <? 32768) eqn:E;
        destruct (m' * 256 + c' <? 32768) eqn:E';
        try apply Z.ltb_lt in E; try apply Z.ltb_ge in E;
        try apply Z.ltb_lt in E'; try apply Z.ltb_ge in E'; lia.
    + intros Hs. assert (m' = m) by lia. assert (c' = c) by lia.
      assert (h' = h) by lia. subst m' c' h'. reflexivity.
Qed.

Lemma X5_pressure_decoders_keep_sample_witness :
  RawPressure_wf (mkRawPressure 0x01 0x90 0x30) /\
  RawPressure_wf (mkRawPressure 0x01 0x90 0x3F) /\
  ConvertToUnsignedQ18Dot2 (mkRawPressure 0x01 0x90 0x30)
  = ConvertToUnsignedQ18Dot2 (mkRawPressure 0x01 0x90 0x3F).
Proof.
  assert (Hwf : RawPressure_wf (mkRawPressure 0x01 0x90 0x30))
    by (unfold RawPressure_wf, is_byte; cbn; lia).
  assert (Hwf' : RawPressure_wf (mkRawPressure 0x01 0x90 0x3F))
    by (unfold RawPressure_wf, is_byte; cbn; lia).
  split; [exact Hwf|]. split; [exact Hwf'|].
  destruct (X5_pressure_decoders_keep_sample _ _ Hwf Hwf') as (_ & _ & _ & Hiff & _).
  apply Hiff. reflexivity.
Defined.

(** ** Control and event flags *)

(** X6.  The four encoders of CTRL_REG1 write to separate bits.  For an
    oversample ratio in 0..7 and any choice of mode, reset and activity,
    no two of the encoded bytes share a bit, so their OR is their sum, a
    byte, and each input is read back from it: bit 7 is the altimeter
    mode, bits 3-5 the ratio, bit 2 the reset request, bit 0 the activity;
    bits 1 and 6 stay clear. *)
Theorem X6_control_fields_separate (r : Z) (alt rst act : bool) :
  0 <= r <= 7 ->
  exists fa fo fr fc,
    encodeCtrlAltimeterMode alt = Ok fa /\
    encodeCtrlOverSampleRatio r = Ok fo /\
    encodeCtrlResetBit rst = Ok fr /\
    encodeCtrlActiveStatus act = Ok fc /\
    Z.land fa fo = 0 /\ Z.land fa fr = 0 /\ Z.land fa fc = 0 /\
    Z.land fo fr = 0 /\ Z.land fo fc = 0 /\ Z.land fr fc = 0 /\
    let b := Z.lor (Z.lor (Z.lor fa fo) fr) fc in
    is_byte b /\ b = fa + fo + fr + fc /\
    Z.testbit b 7 = alt /\ bits b 3 3 = r /\
    Z.testbit b 2 = rst /\ Z.testbit b 0 = act /\
    Z.testbit b 1 = false /\ Z.testbit b 6 = false.
Proof.
  intros Hr. exists (if alt then 0x80 else 0), (Z.shiftl r 3),
               (if rst then 0x4 else 0), (if act then 0x1 else 0).
  split; [destruct alt; reflexivity|].
  split; [apply encodeCtrlOverSampleRatio_in; exact Hr|].
  split; [destruct rst; reflexivity|].
  split; [destruct act; reflexivity|].
  destruct (oversample_cases r Hr) as [E|[E|[E|[E|[E|[E|[E|E]]]]]]];
    subst r; destruct alt, rst, act;
    repeat split; solve [reflexivity | unfold is_byte; cbn; lia].
Qed.

Lemma X6_control_fields_separate_witness :
  0 <= 5 <= 7 /\
  exists fa fo fr fc,
    encodeCtrlAltimeterMode true = Ok fa /\
    encodeCtrlOverSampleRatio 5 = Ok fo /\
    encodeCtrlResetBit false = Ok fr /\
    encodeCtrlActiveStatus true = Ok fc /\
    bits (Z.lor (Z.lor (Z.lor fa fo) fr) fc) 3 3 = 5.
Proof.
  assert (Hr : 0 <= 5 <= 7) by lia.
  split; [exact Hr|].
  destruct (X6_control_fields_separate 5 true false true Hr)
    as (fa & fo & fr & fc & Ha & Ho & Hrs & Hc & _ & _ & _ & _ & _ & _ & Hb).
  destruct Hb as (_ & _ & _ & Hbits & _).
  exists fa, fo, fr, fc. repeat split; assumption.
Defined.

(** X7.  [writeEventMode] makes one write to PT_DATA_CFG, whose value has
    bit 0 set exactly for the temperature event, bit 1 exactly for the
    pressure event and bit 2 exactly when one of them is asked for; so the
    value is 0, 5, 6 or 7 and the two requests are read back from it.
    The result is that of the write: success, or the error of the bus. *)
Theorem X7_event_mode_flags {B : Type} {D : Device B}
        (temperatureEvent preasureEvent : bool) (w : world B) :
  exists flags,
    writeEventMode temperatureEvent preasureEvent w =
    (after_bus tt (fst (WriteRegU8 (dev w) 0x13 flags)),
     mkWorld (snd (WriteRegU8 (dev w) 0x13 flags))
             (trace w ++ [EvWriteRegU8 0x13 flags])) /\
    Z.testbit flags 0 = temperatureEvent /\
    Z.testbit flags 1 = preasureEvent /\
    Z.testbit flags 2 = temperatureEvent || preasureEvent /\
    (flags = 0 \/ flags = 5 \/ flags = 6 \/ flags = 7).
Proof.
  exists ((if temperatureEvent then 1 else 0) + (if preasureEvent then 2 else 0)
          + (if temperatureEvent || preasureEvent then 4 else 0)).
  split.
  - unfold writeEventMode, i2c_WriteRegU8, bind, check.
    destruct temperatureEvent, preasureEvent; cbn [orb];
      match goal with
      | |- context [WriteRegU8 (dev w) PT_DATA_CFG ?f] =>
          change f with (Z.lor f 0);
          destruct (WriteRegU8 (dev w) PT_DATA_CFG (Z.lor f 0)) as [[e|] b] eqn:E
      end;
      cbn in E |- *; change 19 with PT_DATA_CFG; rewrite E; reflexivity.
  - destruct temperatureEvent, preasureEvent; cbn; repeat split; auto.
Qed.

(** ** The shape of every measurement *)

Section MeasurementShape.

Context {B : Type} {D : Device B}.

Lemma measureRaw_poll_shape (fuel : nat) :
  forall w : world B,
  exists k : nat,
    (k <= fuel)%nat /\
    snd (measureRaw_poll fuel w) =
    mkWorld (after_polls k (dev w)) (trace w ++ poll_events k) /\
    (fst (measureRaw_poll fuel w) = Done tt ->
     (1 <= k)%nat /\
     exists s, status_read k (dev w) = (s, None) /\ data_ready s = true) /\
    (fst (measureRaw_poll fuel w) = OutOfFuel -> k = fuel) /\
    (forall e, fst (measureRaw_poll fuel w) = Failed e ->
               (1 <= k)%nat /\
               exists s e', status_read k (dev w) = (s, Some e') /\ e = BusError e').
Proof.
  induction fuel as [|fuel IH]; intros w.
  - exists 0%nat. destruct w as [b t]. cbn. rewrite app_nil_r.
    repeat split; try lia; try discriminate.
  - rewrite measureRaw_poll_unfold. cbv zeta.
    destruct (poll_step (dev w)) as [[s err] b1] eqn:Hstep. cbn [fst snd].
    assert (Hfirst : status_read 1 (dev w) = (s, err))
      by (rewrite status_read_first, Hstep; reflexivity).
    assert (Hone : after_polls 1 (dev w) = b1)
      by (cbn [after_polls]; rewrite Hstep; reflexivity).
    destruct err as [e1|].
    { exists 1%nat. rewrite Hone. cbn [fst snd]. split; [lia|].
      split; [reflexivity|]. split; [discriminate|]. split; [discriminate|].
      intros e He. injection He as <-. split; [lia|].
      exists s, e1. split; [exact Hfirst | reflexivity]. }
    destruct (data_ready s) eqn:Hready.
    { exists 1%nat. rewrite Hone. cbn [fst snd]. split; [lia|].
      split; [reflexivity|]. split.
      - intros _. split; [lia|]. exists s. split; [exact Hfirst | exact Hready].
      - split; [discriminate|]. intros e He. discriminate He. }
    destruct (IH (mkWorld b1 (trace w ++ [EvSleep poll_interval; EvReadRegU8 STATUS])))
      as (k & Hk & Hworld & Hdone & Hout & Hfail).
    cbn [dev trace] in *.
    assert (Hshift : forall i, (1 <= i)%nat -> status_read i b1 = status_read (S i) (dev w)).
    { intros i Hi. rewrite <- (status_read_shift i (dev w) Hi), Hstep. reflexivity. }
    exists (S k). split; [lia|]. split.
    { rewrite Hworld. cbn [after_polls]. rewrite Hstep. cbn [snd].
      rewrite poll_events_S, <- app_assoc. reflexivity. }
    split; [|split].
    + intros Hd. destruct (Hdone Hd) as (Hk1 & s' & Hs' & Hr').
      split; [lia|]. exists s'. rewrite <- Hshift by exact Hk1. split; assumption.
    + intros Ho. rewrite (Hout Ho). reflexivity.
    + intros e He. destruct (Hfail e He) as (Hk1 & s' & e' & Hs' & ->).
      split; [lia|]. exists s', e'. rewrite <- Hshift by exact Hk1.
      split; [exact Hs' | reflexivity].
Qed.

Lemma fill_length (len : nat) (data : list Z) : length (fill len data) = len.
Proof.
  unfold fill. rewrite length_firstn, length_app, repeat_length. lia.
Qed.

Lemma binary_Read_six (data : list Z) :
  exists st up ut, binary_Read (fill 6 data) = Ok (st, up, ut).
Proof.
  pose proof (fill_length 6 data) as Hlen.
  destruct (fill 6 data) as [|a [|b [|c [|d [|e [|f rest]]]]]];
    cbn [length] in Hlen; try lia.
  eexists _, _, _. reflexivity.
Qed.

Lemma readRawPressureTemperature_shape (w : world B) :
  exists j : nat,
    (1 <= j <= 2)%nat /\
    trace (snd (readRawPressureTemperature w)) = trace w ++ firstn j block_read_events /\
    (forall v, fst (readRawPressureTemperature w) = Done v -> j = 2%nat) /\
    fst (readRawPressureTemperature w) <> OutOfFuel /\
    (forall e, fst (readRawPressureTemperature w) = Failed e ->
               exists e', e = BusError e').
Proof.
  unfold readRawPressureTemperature, readDataToStruct, bind,
    i2c_WriteBytes, i2c_ReadBytes.
  destruct (WriteBytes (dev w) [STATUS]) as [[n [e1|]] b4]; cbn [snd check fail ret].
  { exists 1%nat. cbn [fst snd trace]. split; [lia|]. split; [reflexivity|].
    split; [discriminate|]. split; [discriminate|].
    intros e He. injection He as <-. exists e1. reflexivity. }
  cbn [dev trace].
  change (1 + OUT_PRES_BYTES + OUT_TEMP_BYTES <? 0) with false. cbv beta iota.
  cbn [dev trace].
  change (Z.to_nat (1 + OUT_PRES_BYTES + OUT_TEMP_BYTES)) with 6%nat.
  destruct (ReadBytes b4 6) as [[[data n'] [e2|]] b5]; cbn [check fail ret].
  { exists 2%nat. cbn [fst snd trace]. split; [lia|].
    split; [rewrite <- app_assoc; reflexivity|].
    split; [discriminate|]. split; [discriminate|].
    intros e He. injection He as <-. exists e2. reflexivity. }
  destruct (binary_Read_six data) as (st & up & ut & Hread). rewrite Hread.
  cbn [lift ret]. exists 2%nat. cbn [fst snd trace]. split; [lia|].
  split; [rewrite <- app_assoc; reflexivity|].
  split; [reflexivity|]. split; [discriminate|]. intros e He. discriminate He.
Qed.

End MeasurementShape.

Section MeasurementOrder.

Context {B : Type} {D : Device B}.

Lemma measureRaw_configure_failure (r : Z) (m : PressureType) (w : world B) (e : error) :
  0 <= r <= 7 ->
  fst (measureRaw_configure r m w) = Failed e ->
  exists e', e = BusError e'.
Proof.
  intros Hr.
  assert (Hm : encodeCtrlAltimeterMode (PressureType_eqb m Altimeter) = Ok (modeBit m))
    by (destruct m; reflexivity).
  unfold measureRaw_configure, bind.
  rewrite Hm, (encodeCtrlOverSampleRatio_in r Hr).
  cbn [lift ret encodeCtrlActiveStatus].
  rewrite writeCtrlReg1_run.
  destruct (WriteRegU8 (dev w) CTRL_REG1 _) as [[e1|] b1]; cbn [fst snd after_bus].
  { intros He. injection He as <-. exists e1. reflexivity. }
  rewrite writeEventMode_run. cbn [dev trace].
  destruct (WriteRegU8 b1 PT_DATA_CFG 0x07) as [[e2|] b2]; cbn [fst snd after_bus].
  { intros He. injection He as <-. exists e2. reflexivity. }
  rewrite writeCtrlReg1_run. cbn [dev trace].
  destruct (WriteRegU8 b2 CTRL_REG1 _) as [[e3|] b3]; cbn [fst snd after_bus].
  { intros He. injection He as <-. exists e3. reflexivity. }
  discriminate.
Qed.

Lemma measureRaw_configure_not_out_of_fuel (r : Z) (m : PressureType) (w : world B) :
  fst (measureRaw_configure r m w) <> OutOfFuel.
Proof.
  unfold measureRaw_configure, bind.
  destruct (encodeCtrlAltimeterMode _) as [fa | ea]; cbn [lift ret fail];
    [|discriminate].
  destruct (encodeCtrlOverSampleRatio r) as [fo | eo]; cbn [lift ret fail];
    [|discriminate].
  rewrite writeCtrlReg1_run.
  destruct (WriteRegU8 (dev w) CTRL_REG1 _) as [[e1|] b1]; cbn [fst snd after_bus];
    [discriminate|].
  rewrite writeEventMode_run. cbn [dev trace].
  destruct (WriteRegU8 b1 PT_DATA_CFG 0x07) as [[e2|] b2]; cbn [fst snd after_bus];
    [discriminate|].
  cbn [encodeCtrlActiveStatus lift ret].
  rewrite writeCtrlReg1_run. cbn [dev trace].
  destruct (WriteRegU8 b2 CTRL_REG1 _) as [[e3|] b3]; cbn [fst snd after_bus];
    discriminate.
Qed.

Lemma measureRaw_configure_no_panic
      (r : Z) (m : PressureType) (w : world B) (msg : string) :
  fst (measureRaw_configure r m w) <> Panicked msg.
Proof.
  unfold measureRaw_configure, bind.
  destruct (encodeCtrlAltimeterMode _) as [fa | ea]; cbn [lift ret fail];
    [|discriminate].
  destruct (encodeCtrlOverSampleRatio r) as [fo | eo]; cbn [lift ret fail];
    [|discriminate].
  rewrite writeCtrlReg1_run.
  destruct (WriteRegU8 (dev w) CTRL_REG1 _) as [[e1|] b1]; cbn [fst snd after_bus];
    [discriminate|].
  rewrite writeEventMode_run. cbn [dev trace].
  destruct (WriteRegU8 b1 PT_DATA_CFG 0x07) as [[e2|] b2]; cbn [fst snd after_bus];
    [discriminate|].
  cbn [encodeCtrlActiveStatus lift ret].
  rewrite writeCtrlReg1_run. cbn [dev trace].
  destruct (WriteRegU8 b2 CTRL_REG1 _) as [[e3|] b3]; cbn [fst snd after_bus];
    discriminate.
Qed.

Lemma measureRaw_poll_no_panic (fuel : nat) :
  forall (w : world B) (msg : string), fst (measureRaw_poll fuel w) <> Panicked msg.
Proof.
  induction fuel as [|fuel IH]; intros w msg; [discriminate|].
  rewrite measureRaw_poll_unfold. cbv zeta.
  destruct (snd (fst (poll_step (dev w)))) as [e|]; [discriminate|].
  destruct (data_ready (fst (fst (poll_step (dev w))))); [discriminate|].
  apply IH.
Qed.

(** X8.  The order of the bus protocol holds in every run of a
    measurement, whatever the device answers and however the run ends.
    The calls made are: an initial part of the three configuration writes
    (none at all exactly when the oversample ratio is refused), then
    rounds of the polling loop, then an initial part of the block read
    (the address write, the six-byte read).  A round is made only after
    all three configuration writes; the block is addressed only after a
    status read that succeeded with the data-ready bit; and a run that
    returns values has made all three writes, at least one round and both
    calls of the block read. *)
Theorem X8_measurement_protocol_order
        (fuel : nat) (r : Z) (m : PressureType) (w : world B) :
  exists n k j : nat,
    trace (snd (measureRaw fuel r m w)) =
    trace w ++ firstn n (config_writes r m) ++ poll_events k
            ++ firstn j block_read_events /\
    (n <= 3)%nat /\ (k <= fuel)%nat /\ (j <= 2)%nat /\
    (n = 0%nat <-> ~ 0 <= r <= 7) /\
    ((1 <= k)%nat -> n = 3%nat) /\
    ((1 <= j)%nat ->
     (1 <= k)%nat /\
     exists s, status_read k (dev (snd (measureRaw_configure r m w))) = (s, None) /\
               data_ready s = true) /\
    (forall v, fst (measureRaw fuel r m w) = Done v ->
               n = 3%nat /\ (1 <= k)%nat /\ j = 2%nat) /\
    trace (snd (MeasurePressure fuel r w)) = trace (snd (measureRaw fuel r Barometer w)) /\
    trace (snd (MeasureAltitude fuel r w)) = trace (snd (measureRaw fuel r Altimeter w)).
Proof.
  assert (Hsame : trace (snd (MeasurePressure fuel r w))
                  = trace (snd (measureRaw fuel r Barometer w)) /\
                  trace (snd (MeasureAltitude fuel r w))
                  = trace (snd (measureRaw fuel r Altimeter w))).
  { rewrite MeasurePressure_world, MeasureAltitude_world. split; reflexivity. }
  assert (Hinvalid : ~ 0 <= r <= 7 ->
            exists n k j : nat,
              trace (snd (measureRaw fuel r m w)) =
              trace w ++ firstn n (config_writes r m) ++ poll_events k
                      ++ firstn j block_read_events /\
              (n <= 3)%nat /\ (k <= fuel)%nat /\ (j <= 2)%nat /\
              (n = 0%nat <-> ~ 0 <= r <= 7) /\
              ((1 <= k)%nat -> n = 3%nat) /\
              ((1 <= j)%nat ->
               (1 <= k)%nat /\
               exists s,
                 status_read k (dev (snd (measureRaw_configure r m w))) = (s, None) /\
                 data_ready s = true) /\
              (forall v, fst (measureRaw fuel r m w) = Done v ->
                         n = 3%nat /\ (1 <= k)%nat /\ j = 2%nat)).
  { intros Hbad. exists 0%nat, 0%nat, 0%nat.
    rewrite (measureRaw_invalid_ratio fuel r m w Hbad).
    cbn [fst snd firstn poll_events repeat concat app]. rewrite app_nil_r.
    split; [reflexivity|]. split; [lia|]. split; [lia|]. split; [lia|].
    split; [split; [intros _; exact Hbad | reflexivity]|].
    split; [intros Hk; lia|]. split; [intros Hj; lia|].
    intros v Hv. discriminate Hv. }
  destruct (Z_le_dec 0 r) as [H0 | H0]; [destruct (Z_le_dec r 7) as [H7 | H7]|].
  2: destruct Hinvalid as (n & k & j & Hall); [lia|];
    exists n, k, j;
    destruct Hall as (A1 & A2 & A3 & A4 & A5 & A6 & A7 & A8);
    repeat (split; [assumption|]); exact Hsame.
  2: destruct Hinvalid as (n & k & j & Hall); [lia|];
    exists n, k, j;
    destruct Hall as (A1 & A2 & A3 & A4 & A5 & A6 & A7 & A8);
    repeat (split; [assumption|]); exact Hsame.
  clear Hinvalid.
  assert (Hr : 0 <= r <= 7) by lia.
  destruct (measureRaw_configure_prefix r m w Hr) as (n & Hn & Htrace & Hshort).
  pose proof (measureRaw_configure_not_out_of_fuel r m w) as Hnofuel.
  pose proof (measureRaw_configure_no_panic r m w) as Hnopanic.
  destruct (measureRaw_configure r m w) as [o w1] eqn:Hcfg.
  cbn [fst snd] in Htrace, Hshort, Hnofuel, Hnopanic |- *.
  destruct o as [flags | e | msg |];
    [| | contradiction (Hnopanic msg); reflexivity | contradiction Hnofuel; reflexivity].
  - assert (n = 3%nat) as ->.
    { destruct (Nat.lt_ge_cases n 3) as [Hlt | Hge]; [|lia].
      destruct (Hshort Hlt) as (e & He). discriminate He. }
    rewrite (measureRaw_after_configure fuel r m w w1 flags Hcfg).
    unfold bind.
    destruct (measureRaw_poll_shape fuel w1) as (k & Hk & Hworld & Hdone & _ & Hfail).
    pose proof (measureRaw_poll_no_panic fuel w1) as Hpollpanic.
    destruct (measureRaw_poll fuel w1) as [op w2] eqn:Hpoll.
    cbn [fst snd] in Hworld, Hdone, Hfail, Hpollpanic. subst w2.
    destruct op as [[] | e | msg |]; [| | contradiction (Hpollpanic msg); reflexivity |].
    + destruct (Hdone eq_refl) as (Hk1 & s & Hs & Hready).
      destruct (readRawPressureTemperature_shape
                  (mkWorld (after_polls k (dev w1)) (trace w1 ++ poll_events k)))
        as (j & Hj & Hjtrace & Hjdone & _ & _).
      exists 3%nat, k, j. rewrite Hjtrace. cbn [trace].
      split; [rewrite Htrace, <- !app_assoc; reflexivity|].
      split; [lia|]. split; [lia|]. split; [lia|].
      split; [split; [intros Hn0; lia | intros Hbad; contradiction]|].
      split; [intros _; reflexivity|].
      split; [intros _; split; [exact Hk1 | exists s; split; assumption]|].
      split; [intros v Hv; split; [reflexivity | split; [exact Hk1 | exact (Hjdone v Hv)]]|].
      exact Hsame.
    + exists 3%nat, k, 0%nat. cbn [fst snd trace firstn]. rewrite Htrace, app_nil_r.
      split; [rewrite <- !app_assoc; reflexivity|].
      split; [lia|]. split; [lia|]. split; [lia|].
      split; [split; [intros Hn0; lia | intros Hbad; contradiction]|].
      split; [intros _; reflexivity|].
      split; [intros Hj; lia|].
      split; [intros v Hv; discriminate Hv|].
      exact Hsame.
    + exists 3%nat, k, 0%nat. cbn [fst snd trace firstn]. rewrite Htrace, app_nil_r.
      split; [rewrite <- !app_assoc; reflexivity|].
      split; [lia|]. split; [lia|]. split; [lia|].
      split; [split; [intros Hn0; lia | intros Hbad; contradiction]|].
      split; [intros _; reflexivity|].
      split; [intros Hj; lia|].
      split; [intros v Hv; discriminate Hv|].
      exact Hsame.
  - pose proof (measureRaw_configure_failed fuel r m w e) as Hfail.
    rewrite Hcfg in Hfail. cbn [fst snd] in Hfail. rewrite (Hfail eq_refl).
    exists n, 0%nat, 0%nat.
    cbn [fst snd firstn poll_events repeat concat app]. rewrite app_nil_r.
    split; [exact Htrace|].
    split; [lia|]. split; [lia|]. split; [lia|].
    split; [split; [intros Hn0; lia | intros Hbad; contradiction]|].
    split; [intros Hk; lia|].
    split; [intros Hj; lia|].
    split; [intros v Hv; discriminate Hv|].
    exact Hsame.
Qed.

(** X9.  A measurement fails in two ways only.  With an oversample ratio
    outside 0..7 it returns the range error of the encoder and leaves the
    device and the trace as they were.  With a ratio in 0..7 every error
    it returns is one handed over by the bus; in particular the decoding
    of the data block never fails, the buffer always holding the six
    bytes asked for.  The same holds for [MeasurePressure] and
    [MeasureAltitude], which pass the error on. *)
Theorem X9_measurement_failures
        (fuel : nat) (r : Z) (m : PressureType) (w : world B) (e : error) :
  fst (measureRaw fuel r m w) = Failed e ->
  ((~ 0 <= r <= 7 /\ e = oversample_error /\ snd (measureRaw fuel r m w) = w) \/
   (0 <= r <= 7 /\ exists e', e = BusError e')) /\
  (m = Barometer -> MeasurePressure fuel r w = (Failed e, snd (measureRaw fuel r m w))) /\
  (m = Altimeter -> MeasureAltitude fuel r w = (Failed e, snd (measureRaw fuel r m w))).
Proof.
  intros Hfail. split.
  - destruct (Z_le_dec 0 r) as [H0 | H0]; [destruct (Z_le_dec r 7) as [H7 | H7]|].
    2, 3: left; rewrite (measureRaw_invalid_ratio fuel r m w) in Hfail |- * by lia;
      injection Hfail as <-; repeat split; solve [lia | reflexivity].
    right. assert (Hr : 0 <= r <= 7) by lia. split; [exact Hr|].
    destruct (measureRaw_configure r m w) as [o w1] eqn:Hcfg.
    destruct o as [flags | e0 | msg |].
    + rewrite (measureRaw_after_configure fuel r m w w1 flags Hcfg) in Hfail.
      unfold bind in Hfail.
      destruct (measureRaw_poll_shape fuel w1) as (k & _ & _ & _ & _ & Hpf).
      destruct (measureRaw_poll fuel w1) as [[[] | ep | msg |] w2]; cbn [fst snd] in *.
      * destruct (readRawPressureTemperature_shape w2) as (j & _ & _ & _ & _ & Hrf).
        exact (Hrf e Hfail).
      * injection Hfail as <-.
        destruct (Hpf ep eq_refl) as (_ & s & e' & _ & ->). exists e'. reflexivity.
      * discriminate Hfail.
      * discriminate Hfail.
    + pose proof (measureRaw_configure_failed fuel r m w e0) as Hf.
      rewrite Hcfg in Hf. cbn [fst snd] in Hf. rewrite (Hf eq_refl) in Hfail.
      injection Hfail as <-.
      apply (measureRaw_configure_failure r m w e0 Hr). rewrite Hcfg. reflexivity.
    + exfalso. apply (measureRaw_configure_no_panic r m w msg).
      rewrite Hcfg. reflexivity.
    + exfalso. apply (measureRaw_configure_not_out_of_fuel r m w).
      rewrite Hcfg. reflexivity.
  - split; intros ->.
    + unfold MeasurePressure, bind.
      destruct (measureRaw fuel r Barometer w) as [o w']. cbn [fst snd] in *.
      rewrite Hfail. reflexivity.
    + unfold MeasureAltitude, bind.
      destruct (measureRaw fuel r Altimeter w) as [o w']. cbn [fst snd] in *.
      rewrite Hfail. reflexivity.
Qed.

End MeasurementOrder.

(** A device that refuses the first write with error 5. *)
Lemma X9_measurement_failures_witness :
  fst (measureRaw 4 0 Barometer (start (mkScripted [] (0, None) [Some 5] ([], None))))
  = Failed (BusError 5) /\
  MeasurePressure 4 0 (start (mkScripted [] (0, None) [Some 5] ([], None)))
  = (Failed (BusError 5),
     mkWorld (mkScripted [] (0, None) [] ([], None)) [EvWriteRegU8 0x26 0x00]).
Proof.
  assert (Hfail : fst (measureRaw 4 0 Barometer
                         (start (mkScripted [] (0, None) [Some 5] ([], None))))
                  = Failed (BusError 5)) by reflexivity.
  split; [exact Hfail|].
  destruct (X9_measurement_failures 4 0 Barometer _ _ Hfail) as (_ & Hp & _).
  rewrite (Hp eq_refl). reflexivity.
Defined.

(** ** Errors in the polling loop *)

Section PollingErrors.

Context {B : Type} {D : Device B}.

Lemma measureRaw_poll_fails (k : nat) :
  forall (fuel : nat) (w : world B) (s : Z) (e : bus_err),
    (1 <= k <= fuel)%nat ->
    (forall i, (1 <= i < k)%nat ->
               exists s', status_read i (dev w) = (s', None) /\ data_ready s' = false) ->
    status_read k (dev w) = (s, Some e) ->
    measureRaw_poll fuel w =
    (Failed (BusError e), mkWorld (after_polls k (dev w)) (trace w ++ poll_events k)).
Proof.
  induction k as [|k IH]; intros fuel w s e Hk Hbefore Hat; [lia|].
  destruct fuel as [|fuel]; [lia|].
  rewrite measureRaw_poll_unfold. cbv zeta.
  destruct k as [|k].
  - rewrite status_read_first in Hat. rewrite Hat. reflexivity.
  - destruct (Hbefore 1%nat ltac:(lia)) as (s1 & Hs1 & Hnot).
    rewrite status_read_first in Hs1. rewrite Hs1. cbn [fst snd].
    rewrite Hnot. rewrite (IH fuel _ s e).
    + cbn [dev trace]. rewrite <- app_assoc. reflexivity.
    + lia.
    + intros i Hi. cbn [dev]. rewrite status_read_shift by lia.
      apply Hbefore. lia.
    + cbn [dev]. rewrite status_read_shift by lia. exact Hat.
Qed.

(** X10.  A status read that fails ends the measurement at once.  When
    the configuration has succeeded, the first [k - 1] status reads
    succeed without the data-ready bit and the [k]-th fails with the bus
    error [e], the call returns [e] after exactly [k] rounds; the byte
    that came with the error is not looked at, and the data block is
    neither addressed nor read. *)
Theorem X10_status_read_error_aborts
        (fuel k : nat) (r : Z) (m : PressureType) (w0 w : world B)
        (flags s : Z) (e : bus_err) :
  measureRaw_configure r m w0 = (Done flags, w) ->
  (1 <= k <= fuel)%nat ->
  (forall i, (1 <= i < k)%nat ->
             exists s', status_read i (dev w) = (s', None) /\ data_ready s' = false) ->
  status_read k (dev w) = (s, Some e) ->
  measureRaw fuel r m w0 =
  (Failed (BusError e), mkWorld (after_polls k (dev w)) (trace w ++ poll_events k)) /\
  count_status_reads (poll_events k) = k /\
  forallb (fun ev => match ev with
                     | EvWriteBytes _ | EvReadBytes _ => false
                     | _ => true
                     end) (poll_events k) = true.
Proof.
  intros Hcfg Hk Hbefore Hat.
  rewrite (measureRaw_after_configure fuel r m w0 w flags Hcfg).
  unfold bind. rewrite (measureRaw_poll_fails k fuel w s e Hk Hbefore Hat).
  split; [reflexivity|]. split; [apply count_status_reads_poll_events|].
  clear. induction k as [|k IH]; [reflexivity|].
  rewrite poll_events_S. cbn [app forallb andb]. exact IH.
Qed.

End PollingErrors.

(** The second status read fails with error 7. *)
Lemma X10_status_read_error_aborts_witness :
  measureRaw 5 0 Barometer
    (start (mkScripted [(0x00, None); (0x08, Some 7)] (0, None) [] ([], None)))
  = (Failed (BusError 7),
     mkWorld (mkScripted [] (0, None) [] ([], None))
             ([EvWriteRegU8 0x26 0x00; EvWriteRegU8 0x13 0x07; EvWriteRegU8 0x26 0x01]
                ++ poll_events 2)).
Proof.
  destruct (X10_status_read_error_aborts 5 2 0 Barometer
              (start (mkScripted [(0x00, None); (0x08, Some 7)] (0, None) [] ([], None)))
              (mkWorld (mkScripted [(0x00, None); (0x08, Some 7)] (0, None) [] ([], None))
                       [EvWriteRegU8 0x26 0x00; EvWriteRegU8 0x13 0x07;
                        EvWriteRegU8 0x26 0x01])
              0x01 0x08 7) as (Hrun & _).
  - reflexivity.
  - lia.
  - intros i Hi. assert (i = 1%nat) as -> by lia. exists 0x00. split; reflexivity.
  - reflexivity.
  - rewrite Hrun. reflexivity.
Defined.

(** ** Sea-level pressure: what the two bytes can hold *)

Section SeaLevel.

Context {B : Type} {D : Device B}.

Lemma ModifySeaLevelPressure_run (p : Z) (w : world B) :
  0 <= p ->
  ModifySeaLevelPressure p w =
  (after_bus tt (snd (fst (WriteBytes (dev w)
                             [0x14; (p / 2 / 256) mod 256; (p / 2) mod 256]))),
   mkWorld (snd (WriteBytes (dev w) [0x14; (p / 2 / 256) mod 256; (p / 2) mod 256]))
           (trace w ++ [EvWriteBytes [0x14; (p / 2 / 256) mod 256; (p / 2) mod 256]])).
Proof.
  intros Hp. unfold ModifySeaLevelPressure.
  assert (Hh : 0 <= p / 2) by (apply Z.div_pos; lia).
  assert (Hhi : to_byte (Z.shiftr (p / 2) 8) = (p / 2 / 256) mod 256).
  { unfold to_byte. rewrite Z.shiftr_div_pow2 by lia. reflexivity. }
  assert (Hlo : to_byte (Z.land (p / 2) 0xFF) = (p / 2) mod 256).
  { unfold to_byte. change 0xFF with (Z.ones 8). rewrite Z.land_ones by lia.
    rewrite Z.mod_mod by lia. reflexivity. }
  cbv zeta. rewrite Hhi, Hlo. apply write_bytes_run.
Qed.

(** X12.  [ModifySeaLevelPressure] checks no range and keeps only the low
    16 bits of the halved pressure.  Two pressures are written as the same
    three bytes exactly when their halves agree modulo 65536, and then the
    two calls behave alike in every respect: so an odd pressure is written
    as the even one below it, and a pressure of 131072 Pa or more is
    written as that pressure minus a multiple of 131072.  The call never
    returns an error of its own. *)
Theorem X12_sea_level_pressure_wraps (p q : Z) (w : world B) :
  is_uint32 p -> is_uint32 q ->
  (trace (snd (ModifySeaLevelPressure p w)) = trace (snd (ModifySeaLevelPressure q w))
   <-> (p / 2) mod 65536 = (q / 2) mod 65536) /\
  ((p / 2) mod 65536 = (q / 2) mod 65536 ->
   ModifySeaLevelPressure p w = ModifySeaLevelPressure q w) /\
  (q = p + 131072 -> ModifySeaLevelPressure p w = ModifySeaLevelPressure q w) /\
  (p mod 2 = 0 -> q = p + 1 -> ModifySeaLevelPressure p w = ModifySeaLevelPressure q w) /\
  (forall msg, fst (ModifySeaLevelPressure p w) <> Failed (errors_New msg)).
Proof.
  unfold is_uint32. intros Hp Hq.
  rewrite (ModifySeaLevelPressure_run p w), (ModifySeaLevelPressure_run q w) by lia.
  cbn [fst snd trace].
  assert (Hbytes : (p / 2) mod 65536 = (q / 2) mod 65536 ->
                   (p / 2 / 256) mod 256 = (q / 2 / 256) mod 256 /\
                   (p / 2) mod 256 = (q / 2) mod 256).
  { intros Hcong.
    assert (Hsplit : forall h, h mod 65536 = (h / 256) mod 256 * 256 + h mod 256).
    { intros h. change 65536 with (256 * 256).
      rewrite Z.rem_mul_r by lia. lia. }
    rewrite (Hsplit (p / 2)), (Hsplit (q / 2)) in Hcong.
    pose proof (Z.mod_pos_bound (p / 2) 256 ltac:(lia)).
    pose proof (Z.mod_pos_bound (q / 2) 256 ltac:(lia)).
    pose proof (Z.mod_pos_bound (p / 2 / 256) 256 ltac:(lia)).
    pose proof (Z.mod_pos_bound (q / 2 / 256) 256 ltac:(lia)).
    lia. }
  assert (Hsame : (p / 2) mod 65536 = (q / 2) mod 65536 ->
                  (after_bus tt (snd (fst (WriteBytes (dev w)
                                   [0x14; (p / 2 / 256) mod 256; (p / 2) mod 256]))),
                   mkWorld (snd (WriteBytes (dev w)
                                   [0x14; (p / 2 / 256) mod 256; (p / 2) mod 256]))
                           (trace w ++ [EvWriteBytes
                                   [0x14; (p / 2 / 256) mod 256; (p / 2) mod 256]]))
                  = (after_bus tt (snd (fst (WriteBytes (dev w)
                                   [0x14; (q / 2 / 256) mod 256; (q / 2) mod 256]))),
                     mkWorld (snd (WriteBytes (dev w)
                                   [0x14; (q / 2 / 256) mod 256; (q / 2) mod 256]))
                             (trace w ++ [EvWriteBytes
                                   [0x14; (q / 2 / 256) mod 256; (q / 2) mod 256]]))).
  { intros Hcong. destruct (Hbytes Hcong) as [-> ->]. reflexivity. }
  split; [|split; [exact Hsame | split; [|split]]].
  - split.
    + intros Htr. apply app_inv_head in Htr. injection Htr as Hhi Hlo.
      change 65536 with (256 * 256). rewrite !Z.rem_mul_r by lia. lia.
    + intros Hcong. destruct (Hbytes Hcong) as [-> ->]. reflexivity.
  - intros ->. apply Hsame.
    replace ((p + 131072) / 2) with (p / 2 + 1 * 65536).
    + rewrite Z.mod_add by lia. reflexivity.
    + replace (p + 131072) with (p + 65536 * 2) by lia.
      rewrite Z.div_add by lia. lia.
  - intros Heven ->. apply Hsame. f_equal.
    Z.to_euclidean_division_equations. lia.
  - intros msg. apply after_bus_not_validation.
Qed.

End SeaLevel.

(** 200000 Pa is written as 68928 Pa would be. *)
Lemma X12_sea_level_pressure_wraps_witness :
  is_uint32 68928 /\ is_uint32 200000 /\
  trace (snd (ModifySeaLevelPressure 200000 (start (healthy [] 0 []))))
  = [EvWriteBytes [0x14; 0x86; 0xA0]] /\
  ModifySeaLevelPressure 68928 (start (healthy [] 0 []))
  = ModifySeaLevelPressure 200000 (start (healthy [] 0 [])).
Proof.
  assert (Hp : is_uint32 68928) by (unfold is_uint32; lia).
  assert (Hq : is_uint32 200000) by (unfold is_uint32; lia).
  split; [exact Hp|]. split; [exact Hq|]. split; [reflexivity|].
  destruct (X12_sea_level_pressure_wraps 68928 200000 (start (healthy [] 0 [])) Hp Hq)
    as (_ & _ & Hwrap & _).
  apply Hwrap. reflexivity.
Defined.

(** ** Binary32 arithmetic on values that fit the mantissa

    [binary_normalize] shifts a mantissa to its 24 digits; when the
    digits shifted out are zeros nothing is lost. *)

Lemma iter_pos_eq {A : Type} (f : A -> A) (p : positive) :
  forall x, iter_pos f p x = Pos.iter f x p.
Proof.
  induction p as [p IH | p IH |]; intros x; cbn [iter_pos Pos.iter].
  - rewrite !IH. rewrite !Pos.iter_swap. reflexivity.
  - rewrite !IH. reflexivity.
  - reflexivity.
Qed.

Lemma shl_value (m : positive) (k : positive) :
  Z.pos (Pos.iter xO m k) = Z.pos m * 2 ^ Z.pos k.
Proof.
  induction k as [|k IH] using Pos.peano_ind.
  - cbn [Pos.iter]. change (2 ^ 1) with 2. lia.
  - rewrite Pos.iter_succ, Pos2Z.inj_succ, Z.pow_succ_r by lia.
    change (Z.pos (Pos.iter xO m k)~0) with (2 * Z.pos (Pos.iter xO m k)). rewrite IH. lia.
Qed.

Lemma shl_digits (m : positive) (k : positive) :
  Z.pos (digits2_pos (Pos.iter xO m k)) = Z.pos (digits2_pos m) + Z.pos k.
Proof.
  induction k as [|k IH] using Pos.peano_ind.
  - cbn [Pos.iter digits2_pos]. lia.
  - rewrite Pos.iter_succ. cbn [digits2_pos]. rewrite Pos2Z.inj_succ, IH. lia.
Qed.

(** digits of a positive are determined by its value *)
Lemma digits_bounds (m : positive) :
  2 ^ (Z.pos (digits2_pos m) - 1) <= Z.pos m < 2 ^ Z.pos (digits2_pos m).
Proof.
  induction m as [m IH | m IH |]; cbn [digits2_pos].
  - rewrite Pos2Z.inj_succ.
    replace (Z.succ (Z.pos (digits2_pos m)) - 1) with (Z.succ (Z.pos (digits2_pos m) - 1)) by lia.
    rewrite !Z.pow_succ_r by lia. lia.
  - rewrite Pos2Z.inj_succ.
    replace (Z.succ (Z.pos (digits2_pos m)) - 1) with (Z.succ (Z.pos (digits2_pos m) - 1)) by lia.
    rewrite !Z.pow_succ_r by lia. lia.
  - cbn. lia.
Qed.

Lemma digits_unique (m : positive) (d : Z) :
  2 ^ (d - 1) <= Z.pos m < 2 ^ d -> Z.pos (digits2_pos m) = d.
Proof.
  intros Hd. pose proof (digits_bounds m) as Hm.
  set (d' := Z.pos (digits2_pos m)) in *.
  assert (0 < d) by (destruct (Z.lt_ge_cases 0 d) as [|Hle]; [assumption|];
                     rewrite (Z.pow_neg_r 2 (d - 1)) in Hd by lia;
                     destruct (Z.eq_dec d 0) as [-> | ]; [cbn in Hd; lia|];
                     rewrite (Z.pow_neg_r 2 d) in Hd by lia; lia).
  destruct (Z.lt_trichotomy d' d) as [Hlt | [Heq | Hgt]]; [|exact Heq|].
  - assert (2 ^ d' <= 2 ^ (d - 1)) by (apply Z.pow_le_mono_r; lia). lia.
  - assert (2 ^ d <= 2 ^ (d' - 1)) by (apply Z.pow_le_mono_r; lia). lia.
Qed.

Lemma shr_iter (k : positive) :
  forall z, 0 < z ->
    Pos.iter shr_1 (Build_shr_record (z * 2 ^ Z.pos k) false false) k
    = Build_shr_record z false false.
Proof.
  induction k as [|k IH] using Pos.peano_ind; intros z Hz.
  - cbn [Pos.iter]. change (2 ^ 1) with 2.
    destruct z as [|p|p]; try lia. 
    replace (Z.pos p * 2) with (Z.pos (xO p)) by lia. reflexivity.
  - rewrite Pos.iter_succ.
    replace (z * 2 ^ Z.pos (Pos.succ k)) with ((z * 2) * 2 ^ Z.pos k)
      by (rewrite Pos2Z.inj_succ, Z.pow_succ_r by lia; lia).
    rewrite IH by lia.
    destruct z as [|p|p]; try lia.
    replace (Z.pos p * 2) with (Z.pos (xO p)) by lia. reflexivity.
Qed.

Lemma shr_fexp_canonical (mr : positive) (ez : Z) :
  Z.pos (digits2_pos mr) = 24 -> -149 <= ez ->
  shr_fexp 24 128 (Z.pos mr) ez loc_Exact
  = (Build_shr_record (Z.pos mr) false false, ez).
Proof.
  intros Hd He. unfold shr_fexp, fexp, emin, Zdigits2, shr_record_of_loc.
  rewrite Hd. replace (Z.max (24 + ez - 24) (3 - 128 - 24) - ez) with 0 by lia.
  reflexivity.
Qed.

Lemma binary_round_aux_canonical (s : bool) (mr : positive) (ez : Z) :
  Z.pos (digits2_pos mr) = 24 -> -149 <= ez <= 104 ->
  binary_round_aux 24 128 s (Z.pos mr) ez loc_Exact = S754_finite s mr ez.
Proof.
  intros Hd He. unfold binary_round_aux.
  rewrite shr_fexp_canonical by (assumption || lia).
  cbn [shr_m loc_of_shr_record round_nearest_even].
  rewrite shr_fexp_canonical by (assumption || lia).
  cbn [shr_m].
  replace (ez <=? 128 - 24) with true by (symmetry; apply Z.leb_le; lia).
  reflexivity.
Qed.

Lemma binary_round_aux_shift (s : bool) (mx mr p : positive) (e : Z) :
  Z.pos mx = Z.pos mr * 2 ^ Z.pos p ->
  Z.pos (digits2_pos mr) = 24 ->
  -149 <= e + Z.pos p <= 104 ->
  binary_round_aux 24 128 s (Z.pos mx) e loc_Exact = S754_finite s mr (e + Z.pos p).
Proof.
  intros Hmx Hd He.
  assert (Hdx : Z.pos (digits2_pos mx) = 24 + Z.pos p).
  { apply digits_unique. pose proof (digits_bounds mr) as Hb. rewrite Hd in Hb.
    rewrite Hmx.
    replace (24 + Z.pos p - 1) with (23 + Z.pos p) by lia.
    rewrite !Z.pow_add_r by lia.
    change (24 - 1) with 23 in Hb.
    assert (0 < 2 ^ Z.pos p) by (apply Z.pow_pos_nonneg; lia). nia. }
  unfold binary_round_aux.
  assert (Hshr : shr_fexp 24 128 (Z.pos mx) e loc_Exact
                 = (Build_shr_record (Z.pos mr) false false, e + Z.pos p)).
  { unfold shr_fexp, fexp, emin, Zdigits2, shr_record_of_loc.
    rewrite Hdx.
    replace (Z.max (24 + Z.pos p + e - 24) (3 - 128 - 24) - e) with (Z.pos p) by lia.
    unfold shr. rewrite iter_pos_eq, Hmx, shr_iter by lia. reflexivity. }
  rewrite Hshr. cbn [shr_m loc_of_shr_record round_nearest_even].
  rewrite shr_fexp_canonical by (assumption || lia).
  cbn [shr_m].
  replace (e + Z.pos p <=? 128 - 24) with true by (symmetry; apply Z.leb_le; lia).
  reflexivity.
Qed.

Lemma binary_round_exact (s : bool) (mx m0 : positive) (t e : Z) :
  Z.pos mx = Z.pos m0 * 2 ^ t -> 0 <= t ->
  Z.pos (digits2_pos m0) <= 24 ->
  -149 <= e + t + Z.pos (digits2_pos m0) - 24 <= 104 ->
  exists mr,
    binary_round 24 128 s mx e
    = S754_finite s mr (e + t + Z.pos (digits2_pos m0) - 24) /\
    Z.pos mr = Z.pos m0 * 2 ^ (24 - Z.pos (digits2_pos m0)).
Proof.
  intros Hmx Ht Hd He.
  pose proof (digits_bounds m0) as Hb0.
  set (d := Z.pos (digits2_pos m0)) in *.
  assert (Hdpos : 1 <= d) by (subst d; lia).
  assert (Hdx : Z.pos (digits2_pos mx) = d + t).
  { apply digits_unique. rewrite Hmx.
    replace (d + t - 1) with (d - 1 + t) by lia.
    rewrite !Z.pow_add_r by lia.
    assert (0 < 2 ^ t) by (apply Z.pow_pos_nonneg; lia). nia. }
  assert (Hpow : 0 < 2 ^ (24 - d)) by (apply Z.pow_pos_nonneg; lia).
  set (mr := Z.to_pos (Z.pos m0 * 2 ^ (24 - d))).
  assert (Hmr : Z.pos mr = Z.pos m0 * 2 ^ (24 - d)) by (subst mr; rewrite Z2Pos.id; nia).
  assert (Hdr : Z.pos (digits2_pos mr) = 24).
  { apply digits_unique. rewrite Hmr. change (24 - 1) with 23.
    assert (H23 : 2 ^ 23 = 2 ^ (d - 1) * 2 ^ (24 - d))
      by (rewrite <- Z.pow_add_r by lia; f_equal; lia).
    assert (H24 : 2 ^ 24 = 2 ^ d * 2 ^ (24 - d))
      by (rewrite <- Z.pow_add_r by lia; f_equal; lia).
    rewrite H23, H24. nia. }
  unfold binary_round.
  assert (Hf : fexp 24 128 (Z.pos (digits2_pos mx) + e) = d + t + e - 24).
  { unfold fexp, emin. rewrite Hdx. lia. }
  rewrite Hf. unfold shl_align.
  replace (d + t + e - 24 - e) with (d + t - 24) by lia.
  destruct (d + t - 24) as [|p|p] eqn:Hcase.
  - exists mx. split.
    + rewrite binary_round_aux_canonical; [f_equal; lia | lia | lia].
    + rewrite Hmx. f_equal. f_equal. lia.
  - exists mr. split; [|exact Hmr].
    rewrite (binary_round_aux_shift s mx mr p e); [f_equal; lia | | exact Hdr | lia].
    rewrite Hmx, Hmr, <- Z.mul_assoc, <- Z.pow_add_r by lia. f_equal. f_equal. lia.
  - exists (Pos.iter xO mx p). split.
    + rewrite binary_round_aux_canonical; [f_equal; lia | | lia].
      rewrite shl_digits, Hdx. lia.
    + rewrite shl_value, Hmx, <- Z.mul_assoc, <- Z.pow_add_r by lia.
      f_equal. f_equal. lia.
Qed.

Lemma Q_rescale (a u v : Z) :
  0 <= u -> (inject_Z (a * 2 ^ u) * Qpower 2 v == inject_Z a * Qpower 2 (u + v))%Q.
Proof.
  intros Hu. rewrite inject_Z_mult, Zpower_Qpower by assumption.
  rewrite Qpower_plus by discriminate.
  change (inject_Z 2) with 2%Q. ring.
Qed.

Lemma digits_le_24 (m : positive) : Z.pos m < 2 ^ 24 -> Z.pos (digits2_pos m) <= 24.
Proof.
  intros Hm. pose proof (digits_bounds m) as Hb.
  destruct (Z.le_gt_cases (Z.pos (digits2_pos m)) 24) as [|Hgt]; [assumption|].
  assert (2 ^ 24 <= 2 ^ (Z.pos (digits2_pos m) - 1)) by (apply Z.pow_le_mono_r; lia).
  lia.
Qed.

(** [binary_normalize] is exact on [n * 2^t * 2^e] when [n] fits the
    mantissa and the result is a normal number. *)
Lemma binary_normalize_value (M n t e : Z) :
  M = n * 2 ^ t -> 0 <= t -> n <> 0 -> Z.abs n < 2 ^ 24 ->
  -125 <= e + t <= 104 ->
  exists q, to_Q (binary_normalize 24 128 M e false) = Some q /\
            (q == inject_Z n * Qpower 2 (e + t))%Q.
Proof.
  intros HM Ht Hn Hbound He.
  assert (Hpow : 0 < 2 ^ t) by (apply Z.pow_pos_nonneg; lia).
  set (m0 := Z.to_pos (Z.abs n)).
  assert (Hm0 : Z.pos m0 = Z.abs n) by (subst m0; rewrite Z2Pos.id; lia).
  pose proof (digits_le_24 m0 ltac:(lia)) as Hd.
  assert (Hd1 : 1 <= Z.pos (digits2_pos m0)) by lia.
  destruct n as [|pn|pn]; [contradiction Hn; reflexivity | |].
  - assert (HMpos : 0 < M) by (rewrite HM; nia).
    destruct M as [|mx|mx]; try lia. cbn [binary_normalize].
    destruct (binary_round_exact false mx m0 t e) as (mr & Hround & Hmr);
      [rewrite Hm0; cbn [Z.abs]; exact HM | exact Ht | exact Hd | lia |].
    rewrite Hround. cbn [to_Q]. eexists. split; [reflexivity|].
    rewrite Hmr, Hm0. cbn [Z.abs]. rewrite Q_rescale by lia.
    replace (24 - Z.pos (digits2_pos m0) + (e + t + Z.pos (digits2_pos m0) - 24))
      with (e + t) by lia.
    reflexivity.
  - assert (HMneg : M < 0) by (rewrite HM; nia).
    destruct M as [|mx|mx]; try lia. cbn [binary_normalize].
    destruct (binary_round_exact true mx m0 t e) as (mr & Hround & Hmr);
      [rewrite Hm0; cbn [Z.abs]; lia | exact Ht | exact Hd | lia |].
    rewrite Hround. cbn [to_Q]. eexists. split; [reflexivity|].
    change (Z.neg mr) with (- Z.pos mr). rewrite Hmr, Hm0. cbn [Z.abs].
    replace (- (Z.pos pn * 2 ^ (24 - Z.pos (digits2_pos m0))))
      with (Z.neg pn * 2 ^ (24 - Z.pos (digits2_pos m0))) by lia.
    rewrite Q_rescale by lia.
    replace (24 - Z.pos (digits2_pos m0) + (e + t + Z.pos (digits2_pos m0) - 24))
      with (e + t) by lia.
    reflexivity.
Qed.

Lemma binary_normalize_form (M n t e : Z) :
  M = n * 2 ^ t -> 0 <= t -> n <> 0 -> Z.abs n < 2 ^ 24 ->
  -126 <= e + t <= 104 ->
  exists (mr : positive) (d : Z),
    binary_normalize 24 128 M e false = S754_finite (n <? 0) mr (e + t + d - 24) /\
    1 <= d <= 24 /\
    cond_Zopp (n <? 0) (Z.pos mr) = n * 2 ^ (24 - d).
Proof.
  intros HM Ht Hn Hbound He.
  assert (Hpow : 0 < 2 ^ t) by (apply Z.pow_pos_nonneg; lia).
  set (m0 := Z.to_pos (Z.abs n)).
  assert (Hm0 : Z.pos m0 = Z.abs n) by (subst m0; rewrite Z2Pos.id; lia).
  pose proof (digits_le_24 m0 ltac:(lia)) as Hd.
  assert (Hd1 : 1 <= Z.pos (digits2_pos m0)) by lia.
  destruct n as [|pn|pn]; [contradiction Hn; reflexivity | |].
  - assert (HMpos : 0 < M) by (rewrite HM; nia).
    destruct M as [|mx|mx]; try lia. cbn [binary_normalize].
    destruct (binary_round_exact false mx m0 t e) as (mr & Hround & Hmr);
      [rewrite Hm0; cbn [Z.abs]; exact HM | exact Ht | exact Hd | lia |].
    exists mr, (Z.pos (digits2_pos m0)).
    split; [exact Hround|]. split; [lia|].
    cbn [Z.ltb Z.compare cond_Zopp]. rewrite Hmr, Hm0. reflexivity.
  - assert (HMneg : M < 0) by (rewrite HM; nia).
    destruct M as [|mx|mx]; try lia. cbn [binary_normalize].
    destruct (binary_round_exact true mx m0 t e) as (mr & Hround & Hmr);
      [rewrite Hm0; cbn [Z.abs]; lia | exact Ht | exact Hd | lia |].
    exists mr, (Z.pos (digits2_pos m0)).
    split; [exact Hround|]. split; [lia|].
    cbn [Z.ltb Z.compare cond_Zopp]. rewrite Hmr, Hm0. cbn [Z.abs]. lia.
Qed.

Lemma shl_align_value (m : positive) (e ez : Z) :
  ez <= e -> Z.pos (fst (shl_align m e ez)) = Z.pos m * 2 ^ (e - ez).
Proof.
  intros Hle. unfold shl_align.
  destruct (ez - e) as [|p|p] eqn:Hcase; cbn [fst].
  - replace (e - ez) with 0 by lia. lia.
  - lia.
  - rewrite shl_value. f_equal. f_equal. lia.
Qed.

Lemma to_Q_finite (s : bool) (m : positive) (e : Z) :
  to_Q (S754_finite s m e) = Some (inject_Z (cond_Zopp s (Z.pos m)) * Qpower 2 e)%Q.
Proof. destruct s; reflexivity. Qed.

(** The sum of an integer and a dyadic fraction, computed in binary32,
    is exact when it fits the mantissa. *)
Lemma add_value (a b k : Z) :
  Z.abs a < 2 ^ 24 -> 0 <= b < 2 ^ k -> 0 <= k <= 24 ->
  Z.abs (a * 2 ^ k + b) < 2 ^ 24 ->
  exists q,
    to_Q (SFadd 24 128 (binary_normalize 24 128 a 0 false)
                       (binary_normalize 24 128 b (- k) false)) = Some q /\
    (q == inject_Z (a * 2 ^ k + b) * Qpower 2 (- k))%Q.
Proof.
  intros Ha Hb Hk Hn.
  assert (Hpk : 0 < 2 ^ k) by (apply Z.pow_pos_nonneg; lia).
  assert (Hp24 : 2 ^ k <= 2 ^ 24) by (apply Z.pow_le_mono_r; lia).
  destruct (Z.eq_dec a 0) as [-> | Ha0]; [|destruct (Z.eq_dec b 0) as [-> | Hb0]].
  - cbn [binary_normalize Z.mul Z.add].
    destruct (Z.eq_dec b 0) as [-> | Hb0].
    + cbn. eexists. split; [reflexivity|]. ring.
    + destruct (binary_normalize_form b b 0 (- k)) as (mr & d & Hform & Hd & Hmr);
        [lia | lia | exact Hb0 | lia | lia |].
      rewrite Hform. cbn [SFadd]. rewrite to_Q_finite. eexists. split; [reflexivity|].
      rewrite Hmr, Q_rescale by lia.
      match goal with
      | |- (_ * Qpower 2 ?u == _)%Q => replace u with (- k) by lia
      end.
      reflexivity.
  - destruct (binary_normalize_form a a 0 0) as (mr & d & Hform & Hd & Hmr);
      [lia | lia | exact Ha0 | lia | lia |].
    rewrite Hform. cbn [binary_normalize SFadd]. rewrite to_Q_finite.
    eexists. split; [reflexivity|].
    rewrite Hmr. replace (a * 2 ^ k + 0) with (a * 2 ^ k) by lia.
    rewrite (Q_rescale a (24 - d)), (Q_rescale a k) by lia.
    match goal with
    | |- (_ * Qpower 2 ?u == _ * Qpower 2 ?v)%Q =>
        replace u with 0 by lia; replace v with 0 by lia
    end.
    reflexivity.
  - destruct (binary_normalize_form a a 0 0) as (ma & da & Hfa & Hda & Hma);
      [lia | lia | exact Ha0 | lia | lia |].
    destruct (binary_normalize_form b b 0 (- k)) as (mb & db & Hfb & Hdb & Hmb);
      [lia | lia | exact Hb0 | lia | lia |].
    rewrite Hfa, Hfb. cbn [SFadd].
    replace (b <? 0) with false in * by (symmetry; apply Z.ltb_ge; lia).
    set (ex := 0 + 0 + da - 24) in *. set (ey := - k + 0 + db - 24) in *.
    set (ez := Z.min ex ey).
    assert (Hzx : ez <= ex) by (subst ez; lia).
    assert (Hzy : ez <= ey) by (subst ez; lia).
    assert (Hsum : cond_Zopp (a <? 0) (Z.pos (fst (shl_align ma ex ez)))
                   + cond_Zopp false (Z.pos (fst (shl_align mb ey ez)))
                   = (a * 2 ^ k + b) * 2 ^ (- k - ez)).
    { rewrite !shl_align_value by assumption.
      assert (Hx : cond_Zopp (a <? 0) (Z.pos ma * 2 ^ (ex - ez))
                   = cond_Zopp (a <? 0) (Z.pos ma) * 2 ^ (ex - ez))
        by (destruct (a <? 0); cbn [cond_Zopp]; lia).
      rewrite Hx, Hma. cbn [cond_Zopp] in Hmb |- *. rewrite Hmb.
      rewrite <- !Z.mul_assoc, <- !Z.pow_add_r by (subst ex ey; lia).
      rewrite Z.mul_add_distr_r, <- !Z.mul_assoc, <- !Z.pow_add_r by (subst ex ey; lia).
      f_equal; f_equal; f_equal; subst ex ey; lia. }
    rewrite Hsum.
    destruct (binary_normalize_value ((a * 2 ^ k + b) * 2 ^ (- k - ez))
                                     (a * 2 ^ k + b) (- k - ez) ez)
      as (q & Hq & Hval); [reflexivity | subst ex ey; lia | nia | exact Hn | lia |].
    exists q. split; [exact Hq|]. rewrite Hval.
    replace (ez + (- k - ez)) with (- k) by lia. reflexivity.
Qed.

(** ** The values returned by a measurement *)

Lemma div_by_4 (f : Z) :
  0 <= f < 4 -> div (of_int f) (of_int (Z.shiftl 1 2)) = dyadic f (-2).
Proof.
  intros Hf.
  assert (Hc : f = 0 \/ f = 1 \/ f = 2 \/ f = 3) by lia.
  destruct Hc as [-> | [-> | [-> | ->]]]; vm_compute; reflexivity.
Qed.

Lemma div_by_16 (f : Z) :
  0 <= f < 16 -> div (of_int f) (of_int (Z.shiftl 1 4)) = dyadic f (-4).
Proof.
  intros Hf.
  assert (Hc : f = 0 \/ f = 1 \/ f = 2 \/ f = 3 \/ f = 4 \/ f = 5 \/ f = 6 \/ f = 7 \/
               f = 8 \/ f = 9 \/ f = 10 \/ f = 11 \/ f = 12 \/ f = 13 \/ f = 14 \/
               f = 15) by lia.
  repeat (destruct Hc as [-> | Hc]; [vm_compute; reflexivity|]).
  subst f. vm_compute. reflexivity.
Qed.

(** Integer part plus fraction over [2^k], as the measuring functions
    compute it in [float32]. *)
Lemma reassemble_value (i f k : Z) :
  Z.abs i < 2 ^ 24 -> 0 <= f < 2 ^ k -> 0 <= k <= 24 ->
  Z.abs (i * 2 ^ k + f) < 2 ^ 24 ->
  exists q,
    to_Q (add (of_int i) (dyadic f (- k))) = Some q /\
    (q == inject_Z (i * 2 ^ k + f) / inject_Z (2 ^ k))%Q.
Proof.
  intros Hi Hf Hk Hn.
  destruct (add_value i f k Hi Hf Hk Hn) as (q & Hq & Hval).
  exists q. split; [exact Hq|]. rewrite Hval.
  rewrite Qpower_opp, Zpower_Qpower by lia. reflexivity.
Qed.

Lemma Q18_sample (v : RawPressure) :
  RawPressure_wf v ->
  0 <= fst (ConvertToUnsignedQ18Dot2 v) < 2 ^ 18 /\
  0 <= snd (ConvertToUnsignedQ18Dot2 v) < 4 /\
  fst (ConvertToUnsignedQ18Dot2 v) * 4 + snd (ConvertToUnsignedQ18Dot2 v) = sample20 v /\
  0 <= sample20 v < 2 ^ 20.
Proof.
  intros Hwf. rewrite (ConvertToUnsignedQ18Dot2_value v Hwf).
  destruct v as [m c l]. destruct Hwf as (Hm & Hc & Hl).
  unfold sample20. cbn [PRES_MSB PRES_CSB PRES_LSB fst snd] in *.
  pose proof (nibble_bounds l Hl) as Hn. unfold is_byte in *.
  replace (l / 64) with (l / 16 / 4) by (rewrite Z.div_div by lia; reflexivity).
  pose proof (Z.div_mod (l / 16) 4 ltac:(lia)).
  pose proof (Z.mod_pos_bound (l / 16) 4 ltac:(lia)).
  change (2 ^ 18) with 262144. change (2 ^ 20) with 1048576. lia.
Qed.

Lemma Q16_sample (v : RawPressure) :
  RawPressure_wf v ->
  -32768 <= fst (ConvertToSignedQ16Dot4 v) <= 32767 /\
  0 <= snd (ConvertToSignedQ16Dot4 v) < 16 /\
  fst (ConvertToSignedQ16Dot4 v) * 16 + snd (ConvertToSignedQ16Dot4 v)
  = signed 20 (sample20 v) /\
  - 2 ^ 19 <= signed 20 (sample20 v) < 2 ^ 19.
Proof.
  intros Hwf. rewrite (ConvertToSignedQ16Dot4_value v Hwf).
  destruct v as [m c l]. destruct Hwf as (Hm & Hc & Hl).
  unfold sample20, signed. cbn [PRES_MSB PRES_CSB PRES_LSB fst snd] in *.
  pose proof (nibble_bounds l Hl) as Hn. unfold is_byte in *.
  change (2 ^ (20 - 1)) with 524288. change (2 ^ 20) with 1048576.
  change (2 ^ 19) with 524288. cbv zeta.
  destruct (m * 256 + c <? 32768) eqn:E;
    [apply Z.ltb_lt in E | apply Z.ltb_ge in E].
  - rewrite Z.mod_small by lia. lia.
  - replace (m * 4096 + c * 16 + l / 16 + 524288)
      with (m * 4096 + c * 16 + l / 16 - 524288 + 1 * 1048576) by lia.
    rewrite Z.mod_add by lia. rewrite Z.mod_small by lia. lia.
Qed.

Lemma Q8_sample (v : RawTemperature) :
  RawTemperature_wf v ->
  -128 <= fst (ConvertToSignedQ8Dot4 v) <= 127 /\
  0 <= snd (ConvertToSignedQ8Dot4 v) < 16 /\
  fst (ConvertToSignedQ8Dot4 v) * 16 + snd (ConvertToSignedQ8Dot4 v)
  = signed 12 (sample12 v) /\
  - 2 ^ 11 <= signed 12 (sample12 v) < 2 ^ 11.
Proof.
  intros Hwf. rewrite (ConvertToSignedQ8Dot4_value v Hwf).
  destruct v as [m l]. destruct Hwf as (Hm & Hl).
  unfold sample12, signed. cbn [TEMP_MSB TEMP_LSB fst snd] in *.
  pose proof (nibble_bounds l Hl) as Hn. unfold is_byte in *.
  change (2 ^ (12 - 1)) with 2048. change (2 ^ 12) with 4096.
  change (2 ^ 11) with 2048.
  destruct (m <? 128) eqn:E; [apply Z.ltb_lt in E | apply Z.ltb_ge in E].
  - rewrite Z.mod_small by lia. lia.
  - replace (m * 16 + l / 16 + 2048) with (m * 16 + l / 16 - 2048 + 1 * 4096) by lia.
    rewrite Z.mod_add by lia. rewrite Z.mod_small by lia. lia.
Qed.

(** The temperature both measuring functions return for raw bytes [ut]. *)
Lemma temperature_value (ut : RawTemperature) :
  RawTemperature_wf ut ->
  exists q,
    to_Q (add (of_int (fst (ConvertToSignedQ8Dot4 ut)))
              (div (of_int (snd (ConvertToSignedQ8Dot4 ut))) (of_int (Z.shiftl 1 4))))
    = Some q /\
    (q == inject_Z (signed 12 (sample12 ut)) / 16)%Q.
Proof.
  intros Hwf. destruct (Q8_sample ut Hwf) as (Hi & Hf & Hs & Hb).
  rewrite div_by_16 by exact Hf.
  change (2 ^ 11) with 2048 in Hb.
  destruct (reassemble_value (fst (ConvertToSignedQ8Dot4 ut))
                             (snd (ConvertToSignedQ8Dot4 ut)) 4)
    as (q & Hq & Hval);
    [change (2 ^ 24) with 16777216; lia | change (2 ^ 4) with 16; lia | lia
     | change (2 ^ 4) with 16; change (2 ^ 24) with 16777216; lia |].
  exists q. split; [exact Hq|]. rewrite Hval.
  change (2 ^ 4) with 16. rewrite Hs. reflexivity.
Qed.

Section ReturnedValues.

Context {B : Type} {D : Device B}.

(** X13.  [MeasurePressure] loses nothing in floating point.  When the
    raw read succeeds with bytes [up] and [ut], the pressure returned is
    exactly the 20-bit sample divided by 4, a value from 0 to 262143.75
    Pa in steps of 0.25, and the temperature is exactly the 12-bit sample,
    read in two's complement, divided by 16, a value from -128 to 127.9375
    degrees in steps of 0.0625: no [float32] operation of the function
    rounds. *)
Theorem X13_measure_pressure_exact
        (fuel : nat) (r : Z) (w w' : world B) (up : RawPressure) (ut : RawTemperature) :
  measureRaw fuel r Barometer w = (Done (up, ut), w') ->
  RawPressure_wf up -> RawTemperature_wf ut ->
  exists pres t qp qt,
    MeasurePressure fuel r w = (Done (pres, t), w') /\
    to_Q pres = Some qp /\
    (qp == inject_Z (sample20 up) / 4)%Q /\
    (0 <= qp <= 262143.75)%Q /\
    to_Q t = Some qt /\
    (qt == inject_Z (signed 12 (sample12 ut)) / 16)%Q /\
    (-128 <= qt <= 127.9375)%Q.
Proof.
  intros Hraw Hup Hut.
  destruct (Q18_sample up Hup) as (Hi & Hf & Hs & Hb).
  destruct (Q8_sample ut Hut) as (_ & _ & _ & Hbt).
  destruct (temperature_value ut Hut) as (qt & Hqt & Hvt).
  destruct (reassemble_value (fst (ConvertToUnsignedQ18Dot2 up))
                             (snd (ConvertToUnsignedQ18Dot2 up)) 2)
    as (qp & Hqp & Hvp);
    [change (2 ^ 18) with 262144 in Hi; change (2 ^ 24) with 16777216; lia
    | change (2 ^ 2) with 4; lia | lia
    | change (2 ^ 2) with 4; change (2 ^ 18) with 262144 in Hi;
      change (2 ^ 24) with 16777216; lia |].
  rewrite <- div_by_4 in Hqp by exact Hf.
  change (2 ^ 2) with 4 in Hvp. rewrite Hs in Hvp.
  change (2 ^ 20) with 1048576 in Hb. change (2 ^ 11) with 2048 in Hbt.
  unfold MeasurePressure, bind. rewrite Hraw.
  destruct (ConvertToUnsignedQ18Dot2 up) as [presInt presFrac].
  destruct (ConvertToSignedQ8Dot4 ut) as [tempInt tempFrac].
  cbn [fst snd] in *.
  eexists _, _, qp, qt. split; [reflexivity|].
  split; [exact Hqp|]. split; [exact Hvp|]. split.
  { rewrite Hvp. unfold Qle, Qdiv, Qmult, Qinv, inject_Z.
    cbn [Qnum Qden]. split; lia. }
  split; [exact Hqt|]. split; [exact Hvt|].
  rewrite Hvt. unfold Qle, Qdiv, Qmult, Qinv, inject_Z.
  cbn [Qnum Qden]. split; lia.
Qed.

(** X14.  [MeasureAltitude] loses nothing in floating point either.
    When the raw read succeeds with bytes [up] and [ut], the altitude
    returned is exactly the 20-bit sample, read in two's complement,
    divided by 16, a value from -32768 to 32767.9375 m in steps of 0.0625;
    the temperature is as for [MeasurePressure]. *)
Theorem X14_measure_altitude_exact
        (fuel : nat) (r : Z) (w w' : world B) (up : RawPressure) (ut : RawTemperature) :
  measureRaw fuel r Altimeter w = (Done (up, ut), w') ->
  RawPressure_wf up -> RawTemperature_wf ut ->
  exists alt t qa qt,
    MeasureAltitude fuel r w = (Done (alt, t), w') /\
    to_Q alt = Some qa /\
    (qa == inject_Z (signed 20 (sample20 up)) / 16)%Q /\
    (-32768 <= qa <= 32767.9375)%Q /\
    to_Q t = Some qt /\
    (qt == inject_Z (signed 12 (sample12 ut)) / 16)%Q.
Proof.
  intros Hraw Hup Hut.
  destruct (Q16_sample up Hup) as (Hi & Hf & Hs & Hb).
  destruct (temperature_value ut Hut) as (qt & Hqt & Hvt).
  change (2 ^ 19) with 524288 in Hb.
  destruct (reassemble_value (fst (ConvertToSignedQ16Dot4 up))
                             (snd (ConvertToSignedQ16Dot4 up)) 4)
    as (qa & Hqa & Hva);
    [change (2 ^ 24) with 16777216; lia
    | change (2 ^ 4) with 16; lia | lia
    | change (2 ^ 4) with 16; change (2 ^ 24) with 16777216; lia |].
  rewrite <- div_by_16 in Hqa by exact Hf.
  change (2 ^ 4) with 16 in Hva. rewrite Hs in Hva.
  unfold MeasureAltitude, bind. rewrite Hraw.
  destruct (ConvertToSignedQ16Dot4 up) as [presInt presFrac].
  destruct (ConvertToSignedQ8Dot4 ut) as [tempInt tempFrac].
  cbn [fst snd] in *.
  eexists _, _, qa, qt. split; [reflexivity|].
  split; [exact Hqa|]. split; [exact Hva|]. split.
  { rewrite Hva. unfold Qle, Qdiv, Qmult, Qinv, inject_Z.
    cbn [Qnum Qden]. split; lia. }
  split; [exact Hqt | exact Hvt].
Qed.

End ReturnedValues.

(** The barometer scenario: sample 0x01903 is 6403, a quarter of which is
    1600.75 Pa. *)
Lemma X13_measure_pressure_exact_witness :
  exists pres t qp w',
    MeasurePressure 3 0
      (start (healthy [0x00; 0x00; 0x0C] 0 [0x0C; 0x01; 0x90; 0x30; 0x16; 0x40]))
    = (Done (pres, t), w') /\
    to_Q pres = Some qp /\ (qp == 1600.75)%Q.
Proof.
  destruct (X13_measure_pressure_exact 3 0
              (start (healthy [0x00; 0x00; 0x0C] 0 [0x0C; 0x01; 0x90; 0x30; 0x16; 0x40]))
              (mkWorld (healthy [] 0 [0x0C; 0x01; 0x90; 0x30; 0x16; 0x40])
                       ([EvWriteRegU8 0x26 0x00; EvWriteRegU8 0x13 0x07;
                         EvWriteRegU8 0x26 0x01] ++ poll_events 3
                          ++ [EvWriteBytes [0x00]; EvReadBytes 6]))
              (mkRawPressure 0x01 0x90 0x30) (mkRawTemperature 0x16 0x40))
    as (pres & t & qp & qt & Hrun & Hqp & Hvp & _).
  - reflexivity.
  - unfold RawPressure_wf, is_byte. cbn. lia.
  - unfold RawTemperature_wf, is_byte. cbn. lia.
  - exists pres, t, qp. eexists. split; [exact Hrun|]. split; [exact Hqp|].
    rewrite Hvp. reflexivity.
Defined.

(** An altimeter reading just below zero: sample 0xFFFFF is -1, a
    sixteenth of which is -0.0625 m. *)
Lemma X14_measure_altitude_exact_witness :
  exists alt t qa w',
    MeasureAltitude 1 0
      (start (healthy [0x08] 0 [0x08; 0xFF; 0xFF; 0xF0; 0xF6; 0x80]))
    = (Done (alt, t), w') /\
    to_Q alt = Some qa /\ (qa == -0.0625)%Q.
Proof.
  destruct (X14_measure_altitude_exact 1 0
              (start (healthy [0x08] 0 [0x08; 0xFF; 0xFF; 0xF0; 0xF6; 0x80]))
              (mkWorld (healthy [] 0 [0x08; 0xFF; 0xFF; 0xF0; 0xF6; 0x80])
                       ([EvWriteRegU8 0x26 0x80; EvWriteRegU8 0x13 0x07;
                         EvWriteRegU8 0x26 0x81] ++ poll_events 1
                          ++ [EvWriteBytes [0x00]; EvReadBytes 6]))
              (mkRawPressure 0xFF 0xFF 0xF0) (mkRawTemperature 0xF6 0x80))
    as (alt & t & qa & qt & Hrun & Hqa & Hva & _).
  - reflexivity.
  - unfold RawPressure_wf, is_byte. cbn. lia.
  - unfold RawTemperature_wf, is_byte. cbn. lia.
  - exists alt, t, qa. eexists. split; [exact Hrun|]. split; [exact Hqa|].
    rewrite Hva. reflexivity.
Defined.

(** ** The range check of the temperature compensation *)

Lemma valid_finite (s : bool) (m : positive) (e : Z) :
  valid_binary 24 128 (S754_finite s m e) = true ->
  -149 <= e <= 104 /\
  Z.pos (digits2_pos m) <= 24 /\
  (-149 < e -> Z.pos (digits2_pos m) = 24).
Proof.
  unfold valid_binary, bounded, canonical_mantissa, fexp, emin.
  intros H. apply andb_true_iff in H. destruct H as [Hc Hb].
  apply Z.eqb_eq in Hc. apply Z.leb_le in Hb. lia.
Qed.

(** Comparing the magnitude of a valid float with that of a normal one. *)
Lemma magnitude_gt (m mc : positive) (e ec : Z) :
  -149 <= e -> Z.pos (digits2_pos m) <= 24 ->
  (-149 < e -> Z.pos (digits2_pos m) = 24) ->
  -149 <= ec -> Z.pos (digits2_pos mc) = 24 ->
  (Z.pos mc * 2 ^ (ec + 149) < Z.pos m * 2 ^ (e + 149)
   <-> ec < e \/ (e = ec /\ (mc < m)%positive)).
Proof.
  intros He Hd Hnorm Hec Hdc.
  pose proof (digits_bounds m) as Hb. pose proof (digits_bounds mc) as Hbc.
  rewrite Hdc in Hbc. change (24 - 1) with 23 in Hbc.
  assert (Hm24 : Z.pos m < 2 ^ 24).
  { destruct Hb as [_ Hb]. eapply Z.lt_le_trans; [exact Hb|].
    apply Z.pow_le_mono_r; lia. }
  assert (Hpc : 0 < 2 ^ (ec + 149)) by (apply Z.pow_pos_nonneg; lia).
  assert (Hpe : 0 < 2 ^ (e + 149)) by (apply Z.pow_pos_nonneg; lia).
  destruct (Z.lt_trichotomy e ec) as [Hlt | [Heq | Hgt]].
  - split; [|intros [H | [H _]]; lia].
    intros Hval. exfalso.
    assert (Hstep : 2 * 2 ^ (e + 149) <= 2 ^ (ec + 149)).
    { replace (2 * 2 ^ (e + 149)) with (2 ^ (e + 150))
        by (replace (e + 150) with (Z.succ (e + 149)) by lia;
            rewrite Z.pow_succ_r by lia; reflexivity).
      apply Z.pow_le_mono_r; lia. }
    change (2 ^ 24) with (2 * 8388608) in Hm24. change (2 ^ 23) with 8388608 in Hbc.
    nia.
  - subst ec. split.
    + intros Hval. right. split; [reflexivity|].
      apply Pos2Z.pos_lt_pos. nia.
    + intros [H | [_ H]]; [lia|]. apply Pos2Z.pos_lt_pos in H. nia.
  - split; [intros _; left; exact Hgt|]. intros _.
    rewrite (Hnorm ltac:(lia)) in Hb. change (24 - 1) with 23 in Hb.
    assert (Hstep : 2 * 2 ^ (ec + 149) <= 2 ^ (e + 149)).
    { replace (2 * 2 ^ (ec + 149)) with (2 ^ (ec + 150))
        by (replace (ec + 150) with (Z.succ (ec + 149)) by lia;
            rewrite Z.pow_succ_r by lia; reflexivity).
      apply Z.pow_le_mono_r; lia. }
    change (2 ^ 24) with (2 * 8388608) in Hbc. change (2 ^ 23) with 8388608 in Hb, Hbc.
    nia.
Qed.

Lemma gtb_upper_bound (s : bool) (m : positive) (e : Z) :
  gtb (S754_finite s m e) (dyadic 127 (-4)) = true
  <-> s = false /\ (-21 < e \/ (e = -21 /\ (16646144 < m)%positive)).
Proof.
  change (dyadic 127 (-4)) with (S754_finite false 16646144 (-21)).
  unfold gtb, SFltb, SFcompare.
  destruct s.
  - split; [discriminate | intros [H _]; discriminate H].
  - destruct (Z.compare_spec (-21) e) as [Heq | Hlt | Hgt].
    + fold (Pos.compare 16646144 m).
      destruct (Pos.compare_spec 16646144 m) as [Hm | Hm | Hm]; split;
        try discriminate; try (intros _; split; [reflexivity|right; split; [lia | exact Hm]]);
        intros [_ [H | [_ H]]]; try lia; subst; lia.
    + split; [intros _; split; [reflexivity | left; exact Hlt] | reflexivity].
    + split; [discriminate | intros [_ [H | [H _]]]; lia].
Qed.

Lemma ltb_lower_bound (s : bool) (m : positive) (e : Z) :
  ltb (S754_finite s m e) (dyadic (-8) 0) = true
  <-> s = true /\ (-20 < e \/ (e = -20 /\ (8388608 < m)%positive)).
Proof.
  change (dyadic (-8) 0) with (S754_finite true 8388608 (-20)).
  unfold ltb, SFltb, SFcompare.
  destruct s.
  - destruct (Z.compare_spec e (-20)) as [Heq | Hlt | Hgt].
    + fold (Pos.compare m 8388608).
      destruct (Pos.compare_spec m 8388608) as [Hm | Hm | Hm]; cbn [CompOpp]; split;
        try discriminate; try (intros _; split; [reflexivity|right; split; [lia | exact Hm]]);
        intros [_ [H | [_ H]]]; try lia; subst; lia.
    + split; [discriminate | intros [_ [H | [H _]]]; lia].
    + split; [intros _; split; [reflexivity | left; lia] | reflexivity].
  - split; [discriminate | intros [H _]; discriminate H].
Qed.

Lemma value_scaled (s : bool) (m : positive) (e : Z) :
  -149 <= e ->
  exists q,
    to_Q (S754_finite s m e) = Some q /\
    (q == inject_Z (cond_Zopp s (Z.pos m) * 2 ^ (e + 149)) * Qpower 2 (-149))%Q.
Proof.
  intros He. rewrite to_Q_finite. eexists. split; [reflexivity|].
  rewrite Q_rescale by lia. replace (e + 149 + -149) with e by lia. reflexivity.
Qed.

Lemma scaled_lt (a b : Z) :
  (inject_Z a * Qpower 2 (-149) < inject_Z b * Qpower 2 (-149))%Q <-> a < b.
Proof.
  rewrite Qmult_lt_r by reflexivity. rewrite <- Zlt_Qlt. reflexivity.
Qed.

Section TemperatureRange.

Context {B : Type} {D : Device B}.

Lemma CompensateTemperature_cases (impl : float32 -> Z) (x : float32) (w : world B) :
  CompensateTemperature impl x w =
  if gtb x (dyadic 127 (-4)) || ltb x (dyadic (-8) 0)
  then (Failed temperature_range_error, w)
  else (after_bus tt (snd (fst (WriteBytes (dev w)
                                  [0x2B; to_uint8 impl (mul x (of_int 16))]))),
        mkWorld (snd (WriteBytes (dev w) [0x2B; to_uint8 impl (mul x (of_int 16))]))
                (trace w ++ [EvWriteBytes [0x2B; to_uint8 impl (mul x (of_int 16))]])).
Proof.
  unfold CompensateTemperature.
  destruct (gtb x (dyadic 127 (-4)) || ltb x (dyadic (-8) 0)); [reflexivity|].
  apply write_bytes_run.
Qed.

Lemma range_check_finite (s : bool) (m : positive) (e : Z) (q : Q) :
  valid_binary 24 128 (S754_finite s m e) = true ->
  to_Q (S754_finite s m e) = Some q ->
  (gtb (S754_finite s m e) (dyadic 127 (-4)) || ltb (S754_finite s m e) (dyadic (-8) 0)
   = true <-> (7.9375 < q \/ q < -8)%Q).
Proof.
  intros Hvalid Hq.
  destruct (valid_finite s m e Hvalid) as (He & Hd & Hnorm).
  destruct (value_scaled s m e ltac:(lia)) as (q' & Hq' & Hval).
  rewrite Hq in Hq'. injection Hq' as <-.
  assert (Hup : (7.9375 == inject_Z (16646144 * 2 ^ (-21 + 149)) * Qpower 2 (-149))%Q)
    by (vm_compute; reflexivity).
  assert (Hlo : (-8 == inject_Z (- (8388608 * 2 ^ (-20 + 149))) * Qpower 2 (-149))%Q)
    by (vm_compute; reflexivity).
  rewrite Hval, Hup, Hlo, !scaled_lt.
  pose proof (magnitude_gt m 16646144 e (-21) ltac:(lia) Hd Hnorm ltac:(lia) eq_refl)
    as Hgt.
  pose proof (magnitude_gt m 8388608 e (-20) ltac:(lia) Hd Hnorm ltac:(lia) eq_refl)
    as Hlt.
  assert (Hpe : 0 < 2 ^ (e + 149)) by (apply Z.pow_pos_nonneg; lia).
  rewrite orb_true_iff, gtb_upper_bound, ltb_lower_bound.
  destruct s; cbn [cond_Zopp].
  - split.
    + intros [[Hs _] | [_ H]]; [discriminate Hs|]. right. apply Hlt in H. lia.
    + intros [H | H].
      * exfalso. assert (0 < 16646144 * 2 ^ (-21 + 149)) by (vm_compute; reflexivity).
        nia.
      * right. split; [reflexivity|]. apply Hlt. lia.
  - split.
    + intros [[_ H] | [Hs _]]; [|discriminate Hs]. left. apply Hgt. exact H.
    + intros [H | H].
      * left. split; [reflexivity|]. apply Hgt. exact H.
      * exfalso. assert (0 < 8388608 * 2 ^ (-20 + 149)) by (vm_compute; reflexivity).
        nia.
Qed.

(** X15.  The range check of [CompensateTemperature] on every
    [float32].  A finite shift (zero included) is refused, with the range
    error and no bus call, exactly when its value is above 7.9375 or below
    -8; both infinities are refused; a NaN is not refused, every
    comparison with it being false: it goes on to the bus write, with a
    byte that the language leaves to the implementation. *)
Theorem X15_temperature_range_check (impl : float32 -> Z) (x : float32) (w : world B) :
  valid_binary 24 128 x = true ->
  (forall q, to_Q x = Some q ->
             (CompensateTemperature impl x w = (Failed temperature_range_error, w)
              <-> (7.9375 < q \/ q < -8)%Q)) /\
  (forall s, x = S754_infinity s ->
             CompensateTemperature impl x w = (Failed temperature_range_error, w)) /\
  (x = S754_nan ->
   CompensateTemperature impl x w =
   (after_bus tt (snd (fst (WriteBytes (dev w) [0x2B; Int.to_byte (impl S754_nan)]))),
    mkWorld (snd (WriteBytes (dev w) [0x2B; Int.to_byte (impl S754_nan)]))
            (trace w ++ [EvWriteBytes [0x2B; Int.to_byte (impl S754_nan)]]))).
Proof.
  intros Hvalid. rewrite CompensateTemperature_cases.
  split; [|split].
  - intros q Hq.
    assert (Hcheck : gtb x (dyadic 127 (-4)) || ltb x (dyadic (-8) 0) = true
                     <-> (7.9375 < q \/ q < -8)%Q).
    { destruct x as [s | s | | s m e]; try discriminate Hq.
      - injection Hq as <-. destruct s; split; try discriminate;
          intros [H | H]; vm_compute in H; discriminate H.
      - apply range_check_finite; assumption. }
    rewrite <- Hcheck.
    destruct (gtb x (dyadic 127 (-4)) || ltb x (dyadic (-8) 0)).
    + split; reflexivity.
    + split; [|discriminate]. intros Heq. exfalso.
      apply (f_equal fst) in Heq. cbn [fst] in Heq.
      exact (after_bus_not_validation _ _ Heq).
  - intros s ->. destruct s; reflexivity.
  - intros ->. reflexivity.
Qed.

End TemperatureRange.

(** The largest shift accepted, the next [float32] above it, and a NaN. *)
Lemma X15_temperature_range_check_witness :
  valid_binary 24 128 (S754_finite false 16646145 (-21)) = true /\
  CompensateTemperature (fun _ => 0) (S754_finite false 16646145 (-21))
                        (start (healthy [] 0 []))
  = (Failed temperature_range_error, start (healthy [] 0 [])).
Proof.
  split; [reflexivity|].
  destruct (X15_temperature_range_check (fun _ => 0) (S754_finite false 16646145 (-21))
              (start (healthy [] 0 [])) eq_refl) as (Hfinite & _).
  apply (Hfinite (inject_Z 16646145 * Qpower 2 (-21))%Q); [reflexivity|].
  left. vm_compute. reflexivity.
Defined.

(** ** The byte written by the temperature compensation *)

Lemma binary_round_aux_trailing (s : bool) (mx m : positive) (t e n : Z) :
  Z.pos mx = Z.pos m * 2 ^ t -> 0 <= t ->
  n = fexp 24 128 (Z.pos (digits2_pos m) + t + e) - e ->
  0 <= n <= t -> e + n <= 104 ->
  exists mr,
    binary_round_aux 24 128 s (Z.pos mx) e loc_Exact = S754_finite s mr (e + n) /\
    Z.pos mr = Z.pos m * 2 ^ (t - n).
Proof.
  intros Hmx Ht Hn Hrange Hmax.
  pose proof (digits_bounds m) as Hb.
  set (d := Z.pos (digits2_pos m)) in *.
  assert (Hd1 : 1 <= d) by (subst d; lia).
  assert (Hdx : Z.pos (digits2_pos mx) = d + t).
  { apply digits_unique. rewrite Hmx.
    replace (d + t - 1) with (d - 1 + t) by lia.
    rewrite !Z.pow_add_r by lia.
    assert (0 < 2 ^ t) by (apply Z.pow_pos_nonneg; lia). nia. }
  assert (Hpow : 0 < 2 ^ (t - n)) by (apply Z.pow_pos_nonneg; lia).
  set (mr := Z.to_pos (Z.pos m * 2 ^ (t - n))).
  assert (Hmr : Z.pos mr = Z.pos m * 2 ^ (t - n)) by (subst mr; rewrite Z2Pos.id; nia).
  assert (Hdr : Z.pos (digits2_pos mr) = d + t - n).
  { apply digits_unique. rewrite Hmr.
    replace (d + t - n - 1) with (d - 1 + (t - n)) by lia.
    replace (d + t - n) with (d + (t - n)) by lia.
    rewrite !Z.pow_add_r by lia. nia. }
  assert (Hsplit : Z.pos mx = Z.pos mr * 2 ^ n).
  { rewrite Hmx, Hmr, <- Z.mul_assoc, <- Z.pow_add_r by lia. do 2 f_equal. lia. }
  exists mr. split; [|exact Hmr].
  unfold binary_round_aux.
  assert (Hshr : shr_fexp 24 128 (Z.pos mx) e loc_Exact
                 = (Build_shr_record (Z.pos mr) false false, e + n)).
  { unfold shr_fexp, Zdigits2, shr_record_of_loc. rewrite Hdx, <- Hn.
    destruct n as [|p|p]; [| |lia].
    - unfold shr. rewrite Z.add_0_r. f_equal. f_equal.
      rewrite Hsplit. change (2 ^ 0) with 1. lia.
    - unfold shr. rewrite iter_pos_eq, Hsplit, shr_iter by lia. reflexivity. }
  rewrite Hshr. cbn [shr_m loc_of_shr_record round_nearest_even].
  assert (Hshr2 : shr_fexp 24 128 (Z.pos mr) (e + n) loc_Exact
                  = (Build_shr_record (Z.pos mr) false false, e + n)).
  { unfold shr_fexp, Zdigits2, shr_record_of_loc. rewrite Hdr.
    replace (d + t - n + (e + n)) with (d + t + e) by lia.
    replace (fexp 24 128 (d + t + e) - (e + n)) with 0 by lia.
    reflexivity. }
  rewrite Hshr2. cbn [shr_m].
  replace (e + n <=? 128 - 24) with true by (symmetry; apply Z.leb_le; lia).
  reflexivity.
Qed.

(** Multiplying a valid float by 16 only moves its exponent. *)
Lemma mul16_form (s : bool) (m : positive) (e : Z) :
  valid_binary 24 128 (S754_finite s m e) = true -> e <= 81 ->
  exists (mr : positive) (n : Z),
    mul (S754_finite s m e) (of_int 16) = S754_finite s mr (e - 19 + n) /\
    0 <= n <= 23 /\
    Z.pos mr = Z.pos m * 2 ^ (23 - n).
Proof.
  intros Hvalid He.
  destruct (valid_finite s m e Hvalid) as (Hemin & Hd & Hnorm).
  pose proof (Pos2Z.is_pos (digits2_pos m)) as Hd0.
  change (of_int 16) with (S754_finite false 8388608 (-19)).
  unfold mul, SFmul, Float32.prec, Float32.emax. rewrite xorb_false_r.
  set (n := fexp 24 128 (Z.pos (digits2_pos m) + 23 + (e + -19)) - (e + -19)).
  assert (Hn : 0 <= n <= 23).
  { subst n. unfold fexp, emin.
    destruct (Z.eq_dec e (-149)) as [-> | Hne]; [lia|].
    rewrite (Hnorm ltac:(lia)). lia. }
  destruct (binary_round_aux_trailing s (m * 8388608) m 23 (e + -19) n)
    as (mr & Hround & Hmr); [rewrite Pos2Z.inj_mul; reflexivity | lia | reflexivity
                            | exact Hn | lia |].
  exists mr, n. split; [exact Hround | split; [exact Hn | exact Hmr]].
Qed.

Lemma trunc_mul16 (s : bool) (m : positive) (e : Z) :
  valid_binary 24 128 (S754_finite s m e) = true -> e <= -5 ->
  trunc (mul (S754_finite s m e) (of_int 16))
  = Some (cond_Zopp s (Z.pos m / 2 ^ (- e - 4))).
Proof.
  intros Hvalid He.
  destruct (mul16_form s m e Hvalid ltac:(lia)) as (mr & n & Hform & Hn & Hmr).
  rewrite Hform. unfold trunc.
  replace (0 <=? e - 19 + n) with false by (symmetry; apply Z.leb_gt; lia).
  rewrite Hmr.
  replace (- (e - 19 + n)) with ((- e - 4) + (23 - n)) by lia.
  rewrite Z.pow_add_r by lia.
  assert (Hp1 : 0 < 2 ^ (- e - 4)) by (apply Z.pow_pos_nonneg; lia).
  assert (Hp2 : 0 < 2 ^ (23 - n)) by (apply Z.pow_pos_nonneg; lia).
  rewrite Z.div_mul_cancel_r by lia.
  destruct s; reflexivity.
Qed.

Lemma floor16 (m : positive) (e : Z) :
  e <= -4 ->
  Qfloor (16 * (inject_Z (Z.pos m) * Qpower 2 e)) = Z.pos m / 2 ^ (- e - 4).
Proof.
  intros He. rewrite Zdiv_Qdiv. apply Qfloor_comp.
  rewrite Zpower_Qpower by lia. unfold Qdiv. rewrite <- Qpower_opp.
  replace (- (- e - 4)) with (e + 4) by lia.
  rewrite Qpower_plus by discriminate.
  change (inject_Z 2) with 2%Q.
  setoid_replace (Qpower 2 4) with 16%Q by reflexivity.
  ring.
Qed.

(** What the range check leaves: the sixteenfold of an accepted shift,
    truncated, is at most 127 for a positive and 128 for a negative one. *)
Lemma accepted_magnitude (s : bool) (m : positive) (e : Z) :
  valid_binary 24 128 (S754_finite s m e) = true ->
  gtb (S754_finite s m e) (dyadic 127 (-4)) || ltb (S754_finite s m e) (dyadic (-8) 0)
  = false ->
  e <= -20 /\
  0 <= Z.pos m / 2 ^ (- e - 4) <= 128 /\
  (s = false -> Z.pos m / 2 ^ (- e - 4) <= 127).
Proof.
  intros Hvalid Hcheck.
  destruct (valid_finite s m e Hvalid) as (Hemin & Hd & Hnorm).
  apply orb_false_iff in Hcheck. destruct Hcheck as [Hg Hl].
  assert (Hng : ~ (s = false /\ (-21 < e \/ (e = -21 /\ (16646144 < m)%positive))))
    by (rewrite <- gtb_upper_bound, Hg; discriminate).
  assert (Hnl : ~ (s = true /\ (-20 < e \/ (e = -20 /\ (8388608 < m)%positive))))
    by (rewrite <- ltb_lower_bound, Hl; discriminate).
  pose proof (digits_bounds m) as Hb.
  assert (Hm24 : Z.pos m < 2 ^ 24).
  { destruct Hb as [_ Hb]. eapply Z.lt_le_trans; [exact Hb|].
    apply Z.pow_le_mono_r; lia. }
  change (2 ^ 24) with 16777216 in Hm24.
  assert (He : e <= -20).
  { destruct s; [|assert (e <= -21) by (destruct (Z.le_gt_cases e (-21)); [assumption|];
                                        exfalso; apply Hng; split; [reflexivity | left; lia]);
                  lia].
    destruct (Z.le_gt_cases e (-20)); [assumption|].
    exfalso. apply Hnl. split; [reflexivity | left; lia]. }
  split; [exact He|].
  assert (Hp : 0 < 2 ^ (- e - 4)) by (apply Z.pow_pos_nonneg; lia).
  assert (Hlow : 0 <= Z.pos m / 2 ^ (- e - 4)) by (apply Z.div_pos; lia).
  assert (Hbig : e < -21 -> Z.pos m / 2 ^ (- e - 4) <= 63).
  { intros Hlt. assert (2 ^ 18 <= 2 ^ (- e - 4)) by (apply Z.pow_le_mono_r; lia).
    change (2 ^ 18) with 262144 in *.
    assert (Z.pos m / 2 ^ (- e - 4) < 64) by (apply Z.div_lt_upper_bound; lia). lia. }
  assert (H21 : e = -21 -> Z.pos m / 2 ^ (- e - 4) <= 127 /\
                           (s = false -> Z.pos m / 2 ^ (- e - 4) <= 127)).
  { intros ->. change (2 ^ (- -21 - 4)) with 131072.
    assert (Z.pos m / 131072 < 128) by (apply Z.div_lt_upper_bound; lia). lia. }
  assert (H20 : e = -20 -> s = true /\ Z.pos m / 2 ^ (- e - 4) <= 128).
  { intros ->. destruct s.
    - split; [reflexivity|]. change (2 ^ (- -20 - 4)) with 65536.
      assert (Hm : Z.pos m <= 8388608).
      { destruct (Z.le_gt_cases (Z.pos m) 8388608); [assumption|].
        exfalso. apply Hnl. split; [reflexivity|]. right. split; [reflexivity|].
        apply Pos2Z.pos_lt_pos. lia. }
      apply Z.div_le_upper_bound; lia.
    - exfalso. apply Hng. split; [reflexivity | left; lia]. }
  destruct (Z.lt_trichotomy e (-21)) as [Hlt | [Heq | Hgt]].
  - specialize (Hbig Hlt). split; [lia | intros _; lia].
  - destruct (H21 Heq) as [H1 H2]. split; [lia | exact H2].
  - assert (Heq : e = -20) by lia. destruct (H20 Heq) as [Hs H1].
    split; [lia|]. intros Hf. rewrite Hf in Hs. discriminate Hs.
Qed.

Lemma value_sign (s : bool) (m : positive) (e : Z) (q : Q) :
  -149 <= e -> to_Q (S754_finite s m e) = Some q ->
  if s then (q < 0)%Q else (0 < q)%Q.
Proof.
  intros He Hq. destruct (value_scaled s m e He) as (q' & Hq' & Hval).
  rewrite Hq in Hq'. injection Hq' as <-.
  assert (Hzero : (0 == inject_Z 0 * Qpower 2 (-149))%Q) by reflexivity.
  assert (Hp : 0 < 2 ^ (e + 149)) by (apply Z.pow_pos_nonneg; lia).
  destruct s; cbn [cond_Zopp] in Hval; rewrite Hval, Hzero, scaled_lt; nia.
Qed.

Section TemperatureByte.

Context {B : Type} {D : Device B}.

(** X16.  The byte that [CompensateTemperature] writes for an accepted
    shift.  For a shift of zero or more the byte is the integer part of
    sixteen times the shift, from 0 to 127, on every implementation.  For
    a negative shift the product is truncated toward zero to a value from
    -128 to 0; if that is 0 the byte is 0, and otherwise no byte can hold
    it and the byte is the one the implementation's conversion gives. *)
Theorem X16_temperature_byte (impl : float32 -> Z) (x : float32) (w : world B) (q : Q) :
  valid_binary 24 128 x = true ->
  to_Q x = Some q ->
  ~ (7.9375 < q \/ q < -8)%Q ->
  exists b,
    CompensateTemperature impl x w =
    (after_bus tt (snd (fst (WriteBytes (dev w) [0x2B; b]))),
     mkWorld (snd (WriteBytes (dev w) [0x2B; b]))
             (trace w ++ [EvWriteBytes [0x2B; b]])) /\
    ((0 <= q)%Q -> b = Qfloor (16 * q) /\ 0 <= b <= 127) /\
    ((q < 0)%Q ->
     trunc (mul x (of_int 16)) = Some (- Qfloor (16 * - q)) /\
     0 <= Qfloor (16 * - q) <= 128 /\
     (Qfloor (16 * - q) = 0 -> b = 0) /\
     (0 < Qfloor (16 * - q) -> b = Int.to_byte (impl (mul x (of_int 16))))).
Proof.
  intros Hvalid Hq Hin.
  exists (to_uint8 impl (mul x (of_int 16))).
  assert (Hcheck : gtb x (dyadic 127 (-4)) || ltb x (dyadic (-8) 0) = false).
  { destruct x as [s | s | | s m e]; try discriminate Hq.
    - destruct s; reflexivity.
    - destruct (gtb _ _ || ltb _ _) eqn:E; [|reflexivity].
      exfalso. apply Hin. apply (range_check_finite s m e q Hvalid Hq). exact E. }
  split; [rewrite CompensateTemperature_cases, Hcheck; reflexivity|].
  destruct x as [s | s | | s m e]; try discriminate Hq.
  - injection Hq as <-. split.
    + intros _. destruct s; split; solve [reflexivity | cbn; lia].
    + intros Hneg. exfalso. revert Hneg. apply Qlt_irrefl.
  - destruct (valid_finite s m e Hvalid) as (Hemin & _ & _).
    destruct (accepted_magnitude s m e Hvalid Hcheck) as (He & Ha & Hpos).
    pose proof (value_sign s m e q ltac:(lia) Hq) as Hsign.
    pose proof (trunc_mul16 s m e Hvalid ltac:(lia)) as Htr.
    unfold to_uint8. rewrite Htr.
    cbn [to_Q] in Hq. injection Hq as <-.
    destruct s; cbn [cond_Zopp] in *.
    + assert (Hfloor : Qfloor (16 * - (inject_Z (Z.neg m) * Qpower 2 e))
                       = Z.pos m / 2 ^ (- e - 4)).
      { rewrite <- (floor16 m e) by lia. apply Qfloor_comp.
        change (Z.neg m) with (- Z.pos m). rewrite inject_Z_opp. ring. }
      split.
      * intros Hnonneg. exfalso. apply (Qlt_irrefl 0).
        eapply Qle_lt_trans; [exact Hnonneg | exact Hsign].
      * intros _. rewrite Hfloor. split; [reflexivity|]. split; [lia|]. split.
        -- intros ->. reflexivity.
        -- intros Hgt.
           replace (0 <=? - (Z.pos m / 2 ^ (- e - 4))) with false
             by (symmetry; apply Z.leb_gt; lia).
           reflexivity.
    + specialize (Hpos eq_refl). split.
      * intros _. rewrite floor16 by lia.
        replace (0 <=? Z.pos m / 2 ^ (- e - 4)) with true
          by (symmetry; apply Z.leb_le; lia).
        replace (Z.pos m / 2 ^ (- e - 4) <=? 255) with true
          by (symmetry; apply Z.leb_le; lia).
        cbn [andb]. split; [reflexivity | lia].
      * intros Hneg. exfalso. apply (Qlt_irrefl 0).
        eapply Qlt_trans; [exact Hsign | exact Hneg].
Qed.

End TemperatureByte.

Lemma X16_temperature_byte_witness :
  valid_binary 24 128 (dyadic 5 (-1)) = true /\
  to_Q (dyadic 5 (-1)) = Some (inject_Z 10485760 * Qpower 2 (-22))%Q /\
  trace (snd (CompensateTemperature (fun _ => 0) (dyadic 5 (-1)) (start (healthy [] 0 []))))
  = [EvWriteBytes [0x2B; 40]].
Proof.
  split; [reflexivity|]. split; [reflexivity|].
  destruct (X16_temperature_byte (fun _ => 0) (dyadic 5 (-1)) (start (healthy [] 0 []))
              (inject_Z 10485760 * Qpower 2 (-22))%Q eq_refl eq_refl)
    as (b & Hrun & Hpos & _).
  - intros [H | H]; vm_compute in H; discriminate H.
  - destruct Hpos as (Hb & _); [vm_compute; discriminate|].
    rewrite Hrun, Hb. reflexivity.
Defined.

(** ** A temperature shift lands in the pressure offset *)

Lemma nonneg_shift_byte (impl : float32 -> Z) (x : float32) (q : Q) :
  valid_binary 24 128 x = true ->
  to_Q x = Some q ->
  (0 <= q)%Q -> (q <= 7.9375)%Q ->
  gtb x (dyadic 127 (-4)) || ltb x (dyadic (-8) 0) = false /\
  to_uint8 impl (mul x (of_int 16)) = Qfloor (16 * q) /\
  0 <= Qfloor (16 * q) <= 127.
Proof.
  intros Hvalid Hq Hlow Hhigh.
  destruct x as [s | s | | s m e]; try discriminate Hq.
  - injection Hq as <-. destruct s; repeat split; cbn; lia.
  - assert (Hcheck : gtb (S754_finite s m e) (dyadic 127 (-4))
                     || ltb (S754_finite s m e) (dyadic (-8) 0) = false).
    { destruct (gtb _ _ || ltb _ _) eqn:E; [|reflexivity].
      exfalso. apply (range_check_finite s m e q Hvalid Hq) in E.
      destruct E as [E | E].
      - exact (Qle_not_lt _ _ Hhigh E).
      - apply (Qle_not_lt _ _ Hlow). eapply Qlt_trans; [exact E | reflexivity]. }
    split; [exact Hcheck|].
    destruct (valid_finite s m e Hvalid) as (Hemin & _ & _).
    destruct (accepted_magnitude s m e Hvalid Hcheck) as (He & Ha & Hpos).
    pose proof (value_sign s m e q ltac:(lia) Hq) as Hsign.
    destruct s.
    + exfalso. exact (Qle_not_lt _ _ Hlow Hsign).
    + specialize (Hpos eq_refl).
      unfold to_uint8. rewrite (trunc_mul16 false m e Hvalid ltac:(lia)).
      cbn [to_Q] in Hq. injection Hq as <-.
      cbn [cond_Zopp]. rewrite floor16 by lia.
      replace (0 <=? Z.pos m / 2 ^ (- e - 4)) with true
        by (symmetry; apply Z.leb_le; lia).
      replace (Z.pos m / 2 ^ (- e - 4) <=? 255) with true
        by (symmetry; apply Z.leb_le; lia).
      split; [reflexivity | lia].
Qed.

Section SharedOffsetRegister.

Context {B : Type} {D : Device B}.

(** X17.  Because [CompensateTemperature] addresses the pressure-offset
    register, a temperature shift of zero or more, up to 7.9375, is the
    very call [CompensatePressure] with 4 * floor (16 * shift) pascals:
    same bus traffic, same device afterwards, same result.  That pressure
    shift is a multiple of four from 0 to 508, so it passes the pressure
    range check. *)
Theorem X17_temperature_shift_sets_pressure_offset
  (impl : float32 -> Z) (x : float32) (w : world B) (q : Q) :
  valid_binary 24 128 x = true ->
  to_Q x = Some q ->
  (0 <= q)%Q -> (q <= 7.9375)%Q ->
  CompensateTemperature impl x w = CompensatePressure (4 * Qfloor (16 * q)) w /\
  0 <= 4 * Qfloor (16 * q) <= 508.
Proof.
  intros Hvalid Hq Hlow Hhigh.
  destruct (nonneg_shift_byte impl x q Hvalid Hq Hlow Hhigh) as (Hcheck & Hbyte & Hrange).
  split; [|lia].
  rewrite CompensateTemperature_cases, Hcheck, Hbyte.
  rewrite CompensatePressure_in by lia.
  rewrite Z.mul_comm, Z.quot_mul by discriminate.
  assert (Hb : Int.to_byte (Qfloor (16 * q)) = Qfloor (16 * q))
    by (unfold Int.to_byte; apply Z.mod_small; lia).
  rewrite Hb. reflexivity.
Qed.

End SharedOffsetRegister.

Lemma X17_temperature_shift_sets_pressure_offset_witness :
  valid_binary 24 128 (dyadic 5 (-1)) = true /\
  to_Q (dyadic 5 (-1)) = Some (inject_Z 10485760 * Qpower 2 (-22))%Q /\
  CompensateTemperature (fun _ => 0) (dyadic 5 (-1)) (start (healthy [] 0 []))
  = CompensatePressure 160 (start (healthy [] 0 [])).
Proof.
  split; [reflexivity|]. split; [reflexivity|].
  destruct (X17_temperature_shift_sets_pressure_offset
              (fun _ => 0) (dyadic 5 (-1)) (start (healthy [] 0 []))
              (inject_Z 10485760 * Qpower 2 (-22))%Q eq_refl eq_refl)
    as (Hrun & _).
  - vm_compute. discriminate.
  - vm_compute. discriminate.
  - exact Hrun.
Defined.
